(** * stac-server, [src/lib/api.js]: request translation and response assembly

    A shallow embedding of the parameter extractors, the pagination-link
    builder, the link decoration of items and the two backend-facing
    operations [searchItems] and [aggregate], with the properties the
    specification states about them.

    Conventions of the embedding.
    - A JavaScript string is a [string]: a sequence of 8-bit code units
      holding its UTF-8 encoding.  Every character the code inspects
      ([,] [/] [-] [+] [.], digits, letters) is ASCII.
    - A JavaScript number is a [number]: NaN, the two infinities, or the
      exact rational value.  The code only reads, compares and copies
      numbers; rounding to binary64 and the sign of zero are not modelled.
    - A JavaScript object is an association list in insertion order, an
      array is a list.
    - [throw] is the [Throw] constructor of [completion]; the asynchronous
      backend calls are recorded in a trace.  The calls to [logger.debug]
      are left out.
    - The records of a page are distinct objects, as the parsed reply of
      the backend gives them; a mutation in place is a new value for the
      same key. *)

From Stdlib Require Import ZArith QArith List String Ascii Bool Lia.
Import ListNotations.
Local Open Scope string_scope.
Local Open Scope Z_scope.
Set Warnings "-register-all".

(* ================================================================== *)
(** * Strings *)
(* ================================================================== *)

Module Str.

(** [s.split(sep)] for a one-character separator: never empty. *)
Fixpoint split (sep : ascii) (s : string) : list string :=
  match s with
  | EmptyString => [EmptyString]
  | String c rest =>
      if Ascii.eqb c sep then EmptyString :: split sep rest
      else match split sep rest with
           | [] => [String c EmptyString]
           | h :: t => String c h :: t
           end
  end.

(** [arr.join(sep)] on an array of strings. *)
Definition join (sep : string) (l : list string) : string := String.concat sep l.

(** [sep] does not occur in [s]. *)
Fixpoint free_of (sep : ascii) (s : string) : bool :=
  match s with
  | EmptyString => true
  | String c rest => negb (Ascii.eqb c sep) && free_of sep rest
  end.

Definition is_lower (c : ascii) : bool :=
  let n := nat_of_ascii c in (97 <=? n)%nat && (n <=? 122)%nat.

Definition is_digit (c : ascii) : bool :=
  let n := nat_of_ascii c in (48 <=? n)%nat && (n <=? 57)%nat.

Definition upper_char (c : ascii) : ascii :=
  if is_lower c then ascii_of_nat (nat_of_ascii c - 32) else c.

(** [s.toUpperCase()]: the ASCII letters are mapped, every other code unit
    is kept. *)
Fixpoint toUpperCase (s : string) : string :=
  match s with
  | EmptyString => EmptyString
  | String c rest => String (upper_char c) (toUpperCase rest)
  end.

(** [s[0] === c] *)
Definition first_is (c : ascii) (s : string) : bool :=
  match s with
  | String d _ => Ascii.eqb d c
  | EmptyString => false
  end.

(** [s.slice(1)] *)
Definition slice1 (s : string) : string :=
  match s with
  | String _ rest => rest
  | EmptyString => EmptyString
  end.

Definition digit_val (c : ascii) : Z := Z.of_nat (nat_of_ascii c) - 48.

(** Value of a hexadecimal digit, when [c] is one. *)
Definition hex_val (c : ascii) : option Z :=
  let n := nat_of_ascii c in
  if is_digit c then Some (Z.of_nat n - 48)
  else if ((97 <=? n) && (n <=? 102))%nat then Some (Z.of_nat n - 87)
  else if ((65 <=? n) && (n <=? 70))%nat then Some (Z.of_nat n - 55)
  else None.

(** Longest prefix of decimal digits, and the rest. *)
Fixpoint span_digits (s : string) : string * string :=
  match s with
  | String c rest =>
      if is_digit c then let (d, r) := span_digits rest in (String c d, r)
      else (EmptyString, s)
  | EmptyString => (EmptyString, EmptyString)
  end.

(** Decimal value of a digit string, most significant digit first. *)
Fixpoint digits_value (acc : Z) (s : string) : Z :=
  match s with
  | String c rest => digits_value (10 * acc + digit_val c) rest
  | EmptyString => acc
  end.

(** Longest prefix of hexadecimal digits folded into its value; [None] when
    the prefix is empty. *)
Fixpoint hex_prefix (acc : option Z) (s : string) : option Z :=
  match s with
  | String c rest =>
      match hex_val c with
      | Some d => hex_prefix (Some (16 * match acc with Some a => a | None => 0 end + d)) rest
      | None => acc
      end
  | EmptyString => acc
  end.

(** White space and line terminators skipped by [parseInt] and
    [parseFloat] (StrWhiteSpaceChar), in their UTF-8 encoding. *)
Fixpoint skip_ws (fuel : nat) (s : string) : string :=
  match fuel with
  | O => s
  | S fuel' =>
      match s with
      | String c rest =>
          let n := nat_of_ascii c in
          if ((9 <=? n) && (n <=? 13) || (n =? 32))%nat then skip_ws fuel' rest
          else
            match rest with
            | String c2 rest2 =>
                let n2 := nat_of_ascii c2 in
                if ((n =? 194) && (n2 =? 160))%nat then skip_ws fuel' rest2
                else
                  match rest2 with
                  | String c3 rest3 =>
                      let n3 := nat_of_ascii c3 in
                      if ((n =? 225) && (n2 =? 154) && (n3 =? 128)
                          || (n =? 226) && (n2 =? 128)
                             && ((128 <=? n3) && (n3 <=? 138) || (n3 =? 168)
                                 || (n3 =? 169) || (n3 =? 175))
                          || (n =? 226) && (n2 =? 129) && (n3 =? 159)
                          || (n =? 227) && (n2 =? 128) && (n3 =? 128)
                          || (n =? 239) && (n2 =? 187) && (n3 =? 191))%nat
                      then skip_ws fuel' rest3
                      else s
                  | EmptyString => s
                  end
            | EmptyString => s
            end
      | EmptyString => s
      end
  end.

Definition trim_start (s : string) : string := skip_ws (String.length s) s.

(** Optional sign: [true] for [-]. *)
Definition take_sign (s : string) : bool * string :=
  match s with
  | String "-" rest => (true, rest)
  | String "+" rest => (false, rest)
  | _ => (false, s)
  end.

Fixpoint starts_with (p s : string) : bool :=
  match p, s with
  | EmptyString, _ => true
  | String a p', String b s' => Ascii.eqb a b && starts_with p' s'
  | String _ _, EmptyString => false
  end.

(** Decimal digits of a natural number, least significant first. *)
Fixpoint nat_digits_rev (fuel : nat) (n : Z) : list ascii :=
  match fuel with
  | O => []
  | S fuel' =>
      let d := ascii_of_nat (Z.to_nat (48 + n mod 10)) in
      if n <? 10 then [d] else d :: nat_digits_rev fuel' (n / 10)
  end.

Definition of_ascii_list (l : list ascii) : string :=
  fold_right String EmptyString l.

(** The decimal digits of a natural number, most significant first. *)
Definition digits (m : Z) : list ascii :=
  rev (nat_digits_rev (S (Z.to_nat (Z.log2 m))) m).

Definition is_upper (c : ascii) : bool :=
  let n := nat_of_ascii c in (65 <=? n)%nat && (n <=? 90)%nat.

(** The characters [encodeURIComponent] keeps: letters, digits and
    [- _ . ! ~ * ' ( )]. *)
Definition is_unreserved (c : ascii) : bool :=
  is_lower c || is_upper c || is_digit c
  || existsb (Ascii.eqb c) ["-"; "_"; "."; "!"; "~"; "*"; "'"; "("; ")"]%char.

Definition hex_digit (n : nat) : ascii :=
  nth n ["0"; "1"; "2"; "3"; "4"; "5"; "6"; "7"; "8"; "9";
         "A"; "B"; "C"; "D"; "E"; "F"]%char "0"%char.

(** Decimal rendering of an integer: what [String(n)] gives for an integer
    below 10^21 in absolute value. *)
Definition of_Z (n : Z) : string :=
  let body := of_ascii_list (digits (Z.abs n)) in
  if n <? 0 then String "-" body else body.

(** Value of a digit list, least significant digit first. *)
Fixpoint val_rev (l : list ascii) : Z :=
  match l with
  | [] => 0
  | c :: t => digit_val c + 10 * val_rev t
  end.

End Str.

(* ================================================================== *)
(** * Values *)
(* ================================================================== *)

Inductive number : Type :=
| NaN
| PosInf
| NegInf
| Fin (q : Q).

Definition num_of_Z (n : Z) : number := Fin (inject_Z n).

(** [a > b] on numbers: false as soon as one side is NaN. *)
Definition num_gt (a b : number) : bool :=
  match a, b with
  | NaN, _ | _, NaN => false
  | PosInf, PosInf => false
  | PosInf, _ => true
  | _, PosInf => false
  | NegInf, _ => false
  | Fin _, NegInf => true
  | Fin x, Fin y => negb (Qle_bool x y)
  end.

(** [a <= b] on numbers. *)
Definition num_le (a b : number) : bool :=
  match a, b with
  | NaN, _ | _, NaN => false
  | _, PosInf => true
  | PosInf, _ => false
  | NegInf, _ => true
  | Fin _, NegInf => false
  | Fin x, Fin y => Qle_bool x y
  end.

(** [a < b] on numbers. *)
Definition num_lt (a b : number) : bool := num_gt b a.

Definition num_isNaN (a : number) : bool :=
  match a with NaN => true | _ => false end.

Definition num_is_zero (a : number) : bool :=
  match a with Fin q => Qeq_bool q 0 | _ => false end.

Inductive value : Type :=
| VUndefined
| VNull
| VBool (b : bool)
| VNum (n : number)
| VStr (s : string)
| VArr (l : list value)
| VObj (o : list (string * value)).

(** A plain object: own enumerable properties in insertion order. *)
Definition obj : Type := list (string * value).

(** ToBoolean *)
Definition truthy (v : value) : bool :=
  match v with
  | VUndefined | VNull => false
  | VBool b => b
  | VNum n => negb (num_isNaN n || num_is_zero n)
  | VStr s => negb (String.eqb s "")
  | VArr _ | VObj _ => true
  end.

(** [o.hasOwnProperty(k)] *)
Fixpoint has_own (o : obj) (k : string) : bool :=
  match o with
  | [] => false
  | (k', _) :: rest => String.eqb k' k || has_own rest k
  end.

(** [o[k]] on a plain object: [undefined] when the key is missing. *)
Fixpoint get (o : obj) (k : string) : value :=
  match o with
  | [] => VUndefined
  | (k', v) :: rest => if String.eqb k' k then v else get rest k
  end.

(** [o[k] = v]: an existing key keeps its place, a new one goes last. *)
Fixpoint set (o : obj) (k : string) (v : value) : obj :=
  match o with
  | [] => [(k, v)]
  | (k', v') :: rest =>
      if String.eqb k' k then (k', v) :: rest else (k', v') :: set rest k v
  end.

(** lodash [assign(target, source)] *)
Definition assign (target source : obj) : obj :=
  fold_left (fun t kv => set t (fst kv) (snd kv)) source target.

(** lodash [pickBy(o)] with the default identity predicate. *)
Definition pickBy (o : obj) : obj :=
  filter (fun kv => truthy (snd kv)) o.

(** [Object.keys] of an array: its indices in decimal. *)
Definition array_keys (l : list value) : list string :=
  map (fun i => Str.of_Z (Z.of_nat i)) (seq 0 (List.length l)).

(** The builtins of the JavaScript engine and of the imported packages
    that the module calls but whose results it only passes on. *)
Class Engine : Type := {
  (** [Number::toString] *)
  Number_toString : number -> string;
  (** [JSON.parse]; [None] is the [SyntaxError] *)
  JSON_parse : string -> option value;
  JSON_stringify : value -> string;
  (** [a > b] when one operand is not a number *)
  relational_gt : value -> value -> bool;
  (** [v[k]] on a string, number or boolean primitive *)
  primitive_prop : value -> string -> value;
  (** [process.env] *)
  env : string -> value
}.

Section Values.
Context {engine : Engine}.

(** ToString on the JSON values: an array is joined with commas, where
    [null] and [undefined] elements give the empty string. *)
Fixpoint ToString (v : value) : string :=
  match v with
  | VUndefined => "undefined"
  | VNull => "null"
  | VBool true => "true"
  | VBool false => "false"
  | VNum n => Number_toString n
  | VStr s => s
  | VArr l =>
      Str.join ","
        ((fix elems (l : list value) : list string :=
            match l with
            | [] => []
            | VUndefined :: t => "" :: elems t
            | VNull :: t => "" :: elems t
            | x :: t => ToString x :: elems t
            end) l)
  | VObj _ => "[object Object]"
  end.

(** One element of [arr.join(',')]. *)
Definition join_elem (v : value) : string :=
  match v with
  | VUndefined | VNull => ""
  | _ => ToString v
  end.

(** [arr.join(',')] *)
Definition array_join (l : list value) : string :=
  Str.join "," (map join_elem l).

(** [a > b] *)
Definition js_gt (a b : value) : bool :=
  match a, b with
  | VNum x, VNum y => num_gt x y
  | _, _ => relational_gt a b
  end.

End Values.

(** [encodeURIComponent(s)]: every code unit of the UTF-8 form that is not
    kept becomes [%XX]. *)
Fixpoint encodeURIComponent (s : string) : string :=
  match s with
  | EmptyString => EmptyString
  | String c rest =>
      if Str.is_unreserved c then String c (encodeURIComponent rest)
      else String "%" (String (Str.hex_digit (nat_of_ascii c / 16))
                         (String (Str.hex_digit (nat_of_ascii c mod 16))
                            (encodeURIComponent rest)))
  end.

(* ================================================================== *)
(** * Errors *)
(* ================================================================== *)

(** What a [throw] carries: the module's own [ValidationError], a plain
    [Error], the engine's [TypeError] and [SyntaxError], and whatever the
    backend rejected with. *)
Inductive error : Type :=
| ValidationError (msg : string)
| Error (msg : string)
| TypeError
| SyntaxError
| Rejected (e : value).

Inductive completion (A : Type) : Type :=
| Ok (a : A)
| Throw (e : error).
Arguments Ok {A} a.
Arguments Throw {A} e.

Definition rbind {A B : Type} (r : completion A) (k : A -> completion B) : completion B :=
  match r with
  | Ok a => k a
  | Throw e => Throw e
  end.

Declare Scope completion_scope.
Delimit Scope completion_scope with completion.
Notation "x <- r ;; k" := (rbind r (fun x => k))
  (at level 61, r at next level, right associativity) : completion_scope.

(** [v === s] for a string literal [s] *)
Definition is_str (v : value) (s : string) : bool :=
  match v with VStr t => String.eqb t s | _ => false end.

(* ================================================================== *)
(** * parseInt and parseFloat *)
(* ================================================================== *)

(** [parseInt(s)] without a radix: leading white space, a sign, a [0x]
    prefix for base 16, then the longest run of digits. *)
Definition parseInt (s : string) : number :=
  let (neg, r) := Str.take_sign (Str.trim_start s) in
  let sgn := if neg then -1 else 1 in
  if Str.starts_with "0x" r || Str.starts_with "0X" r then
    match Str.hex_prefix None (Str.slice1 (Str.slice1 r)) with
    | Some v => num_of_Z (sgn * v)
    | None => NaN
    end
  else
    let (d, _) := Str.span_digits r in
    if String.eqb d "" then NaN else num_of_Z (sgn * Str.digits_value 0 d).

(** The exponent part of a decimal literal, 0 when there is none. *)
Definition exponent_part (s : string) : Z :=
  match s with
  | String c r =>
      if Ascii.eqb c "e" || Ascii.eqb c "E" then
        let (eneg, r') := Str.take_sign r in
        let (ed, _) := Str.span_digits r' in
        if String.eqb ed "" then 0
        else if eneg then - Str.digits_value 0 ed else Str.digits_value 0 ed
      else 0
  | EmptyString => 0
  end.

(** [parseFloat(s)]: the longest prefix that is a StrDecimalLiteral. *)
Definition parseFloat (s : string) : number :=
  let (neg, r) := Str.take_sign (Str.trim_start s) in
  if Str.starts_with "Infinity" r then (if neg then NegInf else PosInf)
  else
    let (ip, r1) := Str.span_digits r in
    let (fp, r2) :=
      match r1 with
      | String "." r1' => Str.span_digits r1'
      | _ => (EmptyString, r1)
      end in
    if String.eqb ip "" && String.eqb fp "" then NaN
    else
      let m := Str.digits_value 0 (ip ++ fp) in
      let e10 := exponent_part r2 - Z.of_nat (String.length fp) in
      Fin (Qred (inject_Z (if neg then - m else m) * (10 # 1) ^ e10)).

(* ================================================================== *)
(** * Luxon *)
(* ================================================================== *)

(** The part of the [luxon] package that [rfc3339ToDateTime] and
    [validateStartAndEndDatetimes] use. *)
Class Luxon : Type := {
  DateTime : Type;
  (** [DateTime.fromISO] *)
  fromISO : string -> DateTime;
  isValid : DateTime -> bool;
  invalidReason : DateTime -> value;
  invalidExplanation : DateTime -> value;
  (** [valueOf()]: epoch milliseconds, by which [<] compares two
      [DateTime]s *)
  valueOf : DateTime -> number
}.

Definition eat (c : ascii) (s : string) : option string :=
  match s with
  | String d rest => if Ascii.eqb d c then Some rest else None
  | EmptyString => None
  end.

(** [n] decimal digits *)
Fixpoint eat_digits (n : nat) (s : string) : option string :=
  match n with
  | O => Some s
  | S n' =>
      match s with
      | String d rest => if Str.is_digit d then eat_digits n' rest else None
      | EmptyString => None
      end
  end.

Definition obind {A B : Type} (o : option A) (k : A -> option B) : option B :=
  match o with Some a => k a | None => None end.

(** The tail of [RFC3339_REGEX]: [(Z|([-+])(\d\d):(\d\d))$] *)
Definition rfc3339_zone (s : string) : bool :=
  match s with
  | String "Z" EmptyString => true
  | String c rest =>
      if Ascii.eqb c "-" || Ascii.eqb c "+" then
        match obind (obind (eat_digits 2 rest) (eat ":")) (eat_digits 2) with
        | Some EmptyString => true
        | _ => false
        end
      else false
  | EmptyString => false
  end.

(** [RFC3339_REGEX.test(s)] *)
Definition RFC3339_REGEX_test (s : string) : bool :=
  match
    obind (obind (obind (obind (obind (obind (obind (obind (obind (obind (obind
      (Some s) (eat_digits 4)) (eat "-")) (eat_digits 2)) (eat "-"))
      (eat_digits 2)) (eat "T")) (eat_digits 2)) (eat ":")) (eat_digits 2))
      (eat ":")) (eat_digits 2)
  with
  | Some (String "." frac) =>
      let (d, rest) := Str.span_digits frac in
      negb (String.eqb d "") && rfc3339_zone rest
  | Some rest => rfc3339_zone rest
  | None => false
  end.

(* ================================================================== *)
(** * Parameter extraction *)
(* ================================================================== *)

Section Extractors.
Context {engine : Engine} {luxon : Luxon}.
Local Open Scope completion_scope.

(** [v[k]] on any value: a [TypeError] on [undefined] and [null]. *)
Definition get_prop (v : value) (k : string) : completion value :=
  match v with
  | VUndefined | VNull => Throw TypeError
  | VObj o => Ok (get o k)
  | VArr l =>
      if String.eqb k "length" then Ok (VNum (num_of_Z (Z.of_nat (List.length l))))
      else
        match find (fun i => String.eqb (Str.of_Z (Z.of_nat i)) k) (seq 0 (List.length l)) with
        | Some i => Ok (nth i l VUndefined)
        | None => Ok VUndefined
        end
  | _ => Ok (primitive_prop v k)
  end.

(** The object spread [{ ...v }] of a value that is not a string. *)
Definition spread (v : value) : value :=
  match v with
  | VObj o => VObj o
  | VArr l => VObj (combine (array_keys l) l)
  | _ => VObj []
  end.

(** [v.slice()]: a copy of an array; on any other non-string value
    [slice] is not a function. *)
Definition slice (v : value) : completion value :=
  match v with
  | VArr l => Ok (VArr l)
  | _ => Throw TypeError
  end.

Definition extractIntersects (params : obj) : completion value :=
  let intersects := get params "intersects" in
  if truthy intersects then
    geojson <-
      match intersects with
      | VStr s =>
          match JSON_parse s with
          | Some g => Ok g
          | None => Throw (ValidationError "Invalid GeoJSON geometry")
          end
      | _ => Ok (spread intersects)
      end ;;
    type <- get_prop geojson "type" ;;
    if is_str type "FeatureCollection" || is_str type "Feature" then
      Throw (Error "Expected GeoJSON geometry, not Feature or FeatureCollection")
    else Ok geojson
  else Ok VUndefined.

(** [extent(bboxArray).polygon()].  [extent] is the package
    [@mapbox/extent], which the module requires and which is not part of
    the repository.  Its constructor keeps the array as [_bbox]; its
    [polygon()] returns the ring W,S - E,S - E,N - W,N - W,S read from
    [_bbox[0]], [_bbox[1]], [_bbox[2]] and [_bbox[3]], whatever the length
    of the array. *)
Definition extent_polygon (bbox : list value) : value :=
  let at_ i := nth i bbox VUndefined in
  VObj [("type", VStr "Polygon");
        ("coordinates",
         VArr [VArr [VArr [at_ 0%nat; at_ 1%nat];
                     VArr [at_ 2%nat; at_ 1%nat];
                     VArr [at_ 2%nat; at_ 3%nat];
                     VArr [at_ 0%nat; at_ 3%nat];
                     VArr [at_ 0%nat; at_ 1%nat]]])].

Definition not_NaN (v : value) : bool :=
  match v with VNum n => negb (num_isNaN n) | _ => true end.

(** [bbox.split(',').map(parseFloat).filter((x) => !Number.isNaN(x))] *)
Definition parse_bbox_string (s : string) : list value :=
  filter not_NaN (map (fun t => VNum (parseFloat t)) (Str.split "," s)).

Definition extractBbox (params : obj) (httpMethod : value) : completion value :=
  let httpMethod := match httpMethod with VUndefined => VStr "GET" | m => m end in
  let bbox := get params "bbox" in
  if truthy bbox then
    bboxArray <-
      match bbox with
      | VStr s =>
          if is_str httpMethod "GET" then Ok (parse_bbox_string s)
          else Throw (ValidationError "Invalid bbox")
      | VArr l =>
          if is_str httpMethod "POST" then Ok l
          else Throw (ValidationError "Invalid bbox")
      | _ => Throw (ValidationError "Invalid bbox")
      end ;;
    let n := List.length bboxArray in
    let at_ i := nth i bboxArray VUndefined in
    if negb (n =? 4)%nat && negb (n =? 6)%nat then
      Throw (ValidationError "Invalid bbox, must have 4 or 6 points")
    else if (n =? 4)%nat && js_gt (at_ 1%nat) (at_ 3%nat)
            || (n =? 6)%nat && js_gt (at_ 1%nat) (at_ 4%nat) then
      Throw (ValidationError "Invalid bbox, SW latitude must be less than NE latitude")
    else Ok (extent_polygon bboxArray)
  else Ok VUndefined.

Definition is_undefined (v : value) : bool :=
  match v with VUndefined => true | _ => false end.

Definition extractLimit (params : obj) : completion value :=
  let limitStr := get params "limit" in
  if negb (is_undefined limitStr) then
    let limit := parseInt (ToString limitStr) in
    if num_isNaN limit || num_le limit (num_of_Z 0) then
      Throw (ValidationError
               "Invalid limit value, must be a number between 1 and 10000 inclusive")
    else if num_gt limit (num_of_Z 10000) then Ok (VNum (num_of_Z 10000))
    else Ok (VNum limit)
  else Ok VUndefined.

Definition extractPage (params : obj) : completion value :=
  let pageStr := get params "page" in
  if negb (is_undefined pageStr) then
    let page := parseInt (ToString pageStr) in
    if num_isNaN page || num_le page (num_of_Z 0) then
      Throw (ValidationError "Invalid page value, must be a number greater than 1")
    else Ok (VNum page)
  else Ok VUndefined.

Definition rfc3339ToDateTime (s : string) : completion DateTime :=
  if negb (RFC3339_REGEX_test s) then
    Throw (ValidationError "datetime value is invalid, does not match RFC3339 format")
  else
    let dt := fromISO s in
    if isValid dt then Ok dt
    else Throw (ValidationError
                  ("datetime value is invalid, " ++ ToString (invalidReason dt)
                   ++ " " ++ ToString (invalidExplanation dt) ++ "'")).

(** An absent [DateTime] is [None]. *)
Definition validateStartAndEndDatetimes (startDateTime endDateTime : option DateTime)
  : completion unit :=
  match startDateTime, endDateTime with
  | Some s, Some e =>
      if num_lt (valueOf e) (valueOf s) then
        Throw (ValidationError
                 "datetime value is invalid, start datetime must be before end datetime with interval")
      else Ok tt
  | _, _ => Ok tt
  end.

(** One end of the interval: [(x && x !== '..') ? rfc3339ToDateTime(x) : undefined],
    where [None] is a missing element of the split. *)
Definition closed_end (x : option string) : completion (option DateTime) :=
  match x with
  | Some t =>
      if negb (String.eqb t "") && negb (String.eqb t "..") then
        d <- rfc3339ToDateTime t ;; Ok (Some d)
      else Ok None
  | None => Ok None
  end.

(** [!x] for an element of the split *)
Definition absent (x : option string) : bool :=
  match x with Some t => String.eqb t "" | None => true end.

Definition is_dots (x : option string) : bool :=
  match x with Some t => String.eqb t ".." | None => false end.

Definition extractDatetime (params : obj) : completion value :=
  let datetime := get params "datetime" in
  if truthy datetime then
    match datetime with
    | VStr d =>
        let datetimeUpperCase := Str.toUpperCase d in
        let parts := Str.split "/" datetimeUpperCase in
        let start := nth_error parts 0 in
        let end_ := nth_error parts 1 in
        let rest := skipn 2 parts in
        if negb (List.length rest =? 0)%nat then
          Throw (ValidationError
                   "datetime value is invalid, too many forward slashes for an interval")
        else if absent start && absent end_
                || is_dots start && is_dots end_
                || absent start && is_dots end_
                || is_dots start && absent end_ then
          Throw (ValidationError
                   "datetime value is invalid, at least one end of the interval must be closed")
        else
          startDateTime <- closed_end start ;;
          endDateTime <- closed_end end_ ;;
          _ <- validateStartAndEndDatetimes startDateTime endDateTime ;;
          Ok (VStr datetimeUpperCase)
    | _ => Throw TypeError
    end
  else Ok VUndefined.

Definition extractStacQuery (params : obj) : completion value :=
  let query := get params "query" in
  if truthy query then
    match query with
    | VStr s =>
        match JSON_parse s with
        | Some parsed => Ok parsed
        | None => Throw SyntaxError
        end
    | _ => Ok (spread query)
    end
  else Ok VUndefined.

Definition sort_rule (field direction : string) : value :=
  VObj [("field", VStr field); ("direction", VStr direction)].

Definition extractSortby (params : obj) : completion value :=
  let sortby := get params "sortby" in
  if truthy sortby then
    match sortby with
    | VStr s =>
        Ok (VArr (map (fun sortbyRule =>
                         if Str.first_is "-" sortbyRule then
                           sort_rule (Str.slice1 sortbyRule) "desc"
                         else if Str.first_is "+" sortbyRule then
                           sort_rule (Str.slice1 sortbyRule) "asc"
                         else sort_rule sortbyRule "asc")
                      (Str.split "," s)))
    | _ => slice sortby
    end
  else Ok VUndefined.

Definition str_array (l : list string) : value := VArr (map VStr l).

Definition extractFields (params : obj) : completion value :=
  let fields := get params "fields" in
  if truthy fields then
    match fields with
    | VStr s =>
        let _fields := Str.split "," s in
        let include := filter (fun fieldRule => negb (Str.first_is "-" fieldRule)) _fields in
        let exclude := map Str.slice1 (filter (Str.first_is "-") _fields) in
        Ok (VObj [("include", str_array include); ("exclude", str_array exclude)])
    | _ => Ok fields
    end
  else if has_own params "fields" then Ok (VObj [])
  else Ok VUndefined.

(** [extractIds] and [extractCollectionIds] differ in the parameter name
    only. *)
Definition extract_id_list (name : string) (params : obj) : completion value :=
  let ids := get params name in
  if truthy ids then
    match ids with
    | VStr s =>
        match JSON_parse s with
        | Some parsed => Ok parsed
        | None => Ok (str_array (Str.split "," s))
        end
    | _ => slice ids
    end
  else Ok VUndefined.

Definition extractIds : obj -> completion value := extract_id_list "ids".
Definition extractCollectionIds : obj -> completion value := extract_id_list "collections".

End Extractors.

(* ================================================================== *)
(** * Links and pagination *)
(* ================================================================== *)

Section Links.
Context {engine : Engine}.
Local Open Scope completion_scope.

Definition link3 (rel type href : string) : value :=
  VObj [("rel", VStr rel); ("type", VStr type); ("href", VStr href)].

(** One round of the [forEach] of [addItemLinks].  An existing [links]
    array is changed in place, so the record sees the new links; a missing
    one is replaced by a fresh local array that the record never gets. *)
Definition addItemLinks_step (endpoint : string) (result : obj) : completion obj :=
  let links := get result "links" in
  let id := ToString (get result "id") in
  let collection := ToString (get result "collection") in
  let self := link3 "self" "application/geo+json"
                (endpoint ++ "/collections/" ++ collection ++ "/items/" ++ id) in
  let appended :=
    [link3 "parent" "application/json" (endpoint ++ "/collections/" ++ collection);
     link3 "collection" "application/json" (endpoint ++ "/collections/" ++ collection);
     link3 "root" "application/geo+json" endpoint;
     VObj [("rel", VStr "thumbnail");
           ("href", VStr (endpoint ++ "/collections/" ++ collection ++ "/items/"
                          ++ id ++ "/thumbnail"))]] in
  decorated <-
    match links with
    | VUndefined => Ok result
    | VArr l => Ok (set result "links" (VArr (self :: l ++ appended)))
    | _ => Throw TypeError
    end ;;
  Ok (set decorated "type" (VStr "Feature")).

Fixpoint addItemLinks (results : list obj) (endpoint : string) : completion (list obj) :=
  match results with
  | [] => Ok []
  | r :: rest =>
      r' <- addItemLinks_step endpoint r ;;
      rest' <- addItemLinks rest endpoint ;;
      Ok (r' :: rest')
  end.

(** The sibling decoration of collection records, which stores a fresh
    [links] array on the record. *)
Definition addCollectionLinks_step (endpoint : string) (result : obj) : completion obj :=
  let id := ToString (get result "id") in
  let self := link3 "self" "application/geo+json" (endpoint ++ "/collections/" ++ id) in
  let appended :=
    [link3 "parent" "application/geo+json" endpoint;
     link3 "root" "application/geo+json" endpoint;
     link3 "items" "application/geo+json" (endpoint ++ "/collections/" ++ id ++ "/items")] in
  match get result "links" with
  | VUndefined | VNull => Ok (set result "links" (VArr (self :: appended)))
  | VArr l => Ok (set result "links" (VArr (self :: l ++ appended)))
  | _ => Throw TypeError
  end.

(** [v[k]] when [v] is neither [undefined] nor [null]. *)
Definition member (v : value) (k : string) : value :=
  match get_prop v k with Ok x => x | Throw _ => VUndefined end.

(** lodash [baseGet] *)
Fixpoint baseGet (v : value) (path : list string) : value :=
  match path with
  | [] => v
  | k :: rest =>
      match v with
      | VUndefined | VNull => VUndefined
      | _ => baseGet (member v k) rest
      end
  end.

(** lodash [get(object, path)] for a path without brackets, as are the
    paths of this module: a key of the object is taken as it is, any
    other path is split at its dots. *)
Definition getNested (object : obj) (path : string) : value :=
  if has_own object path then get object path
  else baseGet (VObj object) (Str.split "." path).

(** [Object.keys(v)] *)
Definition object_keys (v : value) : list string :=
  match v with
  | VArr l => array_keys l
  | VObj o => map fst o
  | VStr s => map (fun i => Str.of_Z (Z.of_nat i)) (seq 0 (String.length s))
  | _ => []
  end.

(** The [sortby] branch of [dictToURI] on an array. *)
Fixpoint sortFields_of (rules : list value) : completion (list value) :=
  match rules with
  | [] => Ok []
  | r :: rest =>
      direction <- get_prop r "direction" ;;
      field <- get_prop r "field" ;;
      let f := if is_str direction "asc" then field
               else VStr ("-" ++ ToString field) in
      fs <- sortFields_of rest ;;
      Ok (f :: fs)
  end.

(** The same loop on an object that is not an array: it runs while
    [i < value.length]. *)
Fixpoint sortFields_obj (fuel : nat) (i : nat) (o : obj) : completion (list value) :=
  match fuel with
  | O => Throw TypeError
  | S fuel' =>
      if js_gt (get o "length") (VNum (num_of_Z (Z.of_nat i))) then
        let r := get o (Str.of_Z (Z.of_nat i)) in
        direction <- get_prop r "direction" ;;
        field <- get_prop r "field" ;;
        let f := if is_str direction "asc" then field
                 else VStr ("-" ++ ToString field) in
        fs <- sortFields_obj fuel' (S i) o ;;
        Ok (f :: fs)
      else Ok []
  end.

Definition dictToURI_value (p : string) (v : value) : completion string :=
  match v with
  | VArr l =>
      if String.eqb p "sortby" then
        fs <- sortFields_of l ;; Ok (array_join fs)
      else if String.eqb p "collections" then Ok (ToString v)
      else Ok (JSON_stringify v)
  | VObj o =>
      if String.eqb p "sortby" then
        fs <- sortFields_obj (S (List.length o)) 0 o ;; Ok (array_join fs)
      else if String.eqb p "collections" then Ok (ToString v)
      else Ok (JSON_stringify v)
  | _ => Ok (ToString v)
  end.

Fixpoint dictToURI_pairs (dict : obj) : completion (list string) :=
  match dict with
  | [] => Ok []
  | (p, v) :: rest =>
      value <- dictToURI_value p v ;;
      let query := encodeURIComponent value in
      qs <- dictToURI_pairs rest ;;
      Ok ((encodeURIComponent p ++ "=" ++ query) :: qs)
  end.

Definition dictToURI (dict : obj) : completion string :=
  ps <- dictToURI_pairs dict ;; Ok (Str.join "&" ps).

Definition default_next_keys : list string :=
  ["properties.datetime"; "id"; "collection"].

(** [nextKeys.map((k) => getNested(lastItem, k)).join(',')] *)
Definition next_cursor (sortby : value) (lastItem : obj) : string :=
  let nextKeys := if truthy sortby then object_keys sortby else default_next_keys in
  array_join (map (getNested lastItem) nextKeys).

Definition buildPaginationLinks (limit : value) (parameters : obj)
    (bbox intersects : value) (endpoint : string) (httpMethod : value)
    (sortby : value) (items : list obj) : completion (list value) :=
  match rev items with
  | lastItem :: _ =>
      let next := next_cursor sortby lastItem in
      let nextParams :=
        pickBy (assign parameters
                  [("bbox", bbox); ("intersects", intersects);
                   ("limit", limit); ("next", VStr next)]) in
      let link := [("rel", VStr "next"); ("title", VStr "Next page of Items");
                   ("method", httpMethod)] in
      if is_str httpMethod "GET" then
        nextQueryParameters <- dictToURI nextParams ;;
        Ok [VObj (set link "href" (VStr (endpoint ++ "?" ++ nextQueryParameters)))]
      else if is_str httpMethod "POST" then
        Ok [VObj (set (set (set link "href" (VStr endpoint)) "merge" (VBool false))
                    "body" (VObj nextParams))]
      else Ok [VObj link]
  | [] => Ok []
  end.

Definition wrapResponseInFeatureCollection (context : value)
    (features links : list value) : completion value :=
  let version := env "STAC_VERSION" in
  matched <- get_prop context "matched" ;;
  returned <- get_prop context "returned" ;;
  Ok (VObj [("type", VStr "FeatureCollection");
            ("stac_version", if truthy version then version else VStr "1.0.0");
            ("stac_extensions", VArr []);
            ("context", context);
            ("numberMatched", matched);
            ("numberReturned", returned);
            ("features", VArr features);
            ("links", VArr links)]).

End Links.

(* ================================================================== *)
(** * The backend and the operations that call it *)
(* ================================================================== *)

(** What [backend.search] resolves to. *)
Record search_response : Type := {
  results : list obj;
  context : value
}.

(** An awaited promise: resolved with a value or rejected with one. *)
Inductive settled (A : Type) : Type :=
| Resolved (a : A)
| RejectedWith (e : value).
Arguments Resolved {A} a.
Arguments RejectedWith {A} e.

(** The backend collaborator, and [isIndexNotFoundError], which the module
    imports from [./database]. *)
Class Backend : Type := {
  search : value -> value -> value -> settled search_response;
  aggregate_backend : value -> settled value;
  isIndexNotFoundError : value -> bool
}.

(** A call that reached the backend. *)
Inductive call : Type :=
| CallSearch (searchParams page limit : value)
| CallAggregate (searchParams : value).

(** A computation that may throw and that records its backend calls. *)
Definition M (A : Type) : Type := list call -> completion A * list call.

Definition ret {A : Type} (a : A) : M A := fun t => (Ok a, t).

Definition throw {A : Type} (e : error) : M A := fun t => (Throw e, t).

Definition bind {A B : Type} (m : M A) (k : A -> M B) : M B :=
  fun t =>
    match m t with
    | (Ok a, t') => k a t'
    | (Throw e, t') => (Throw e, t')
    end.

Definition lift {A : Type} (r : completion A) : M A := fun t => (r, t).

Declare Scope M_scope.
Delimit Scope M_scope with M.
Notation "x <- m ;; k" := (bind m (fun x => k))
  (at level 61, m at next level, right associativity) : M_scope.

(** Running an operation from an empty trace. *)
Definition run {A : Type} (m : M A) : completion A * list call := m [].

Section Operations.
Context {engine : Engine} {luxon : Luxon} {backend : Backend}.
Local Open Scope M_scope.

(** [await backend.search(searchParams, page, limit)] *)
Definition await_search (searchParams page limit : value) : M (settled search_response) :=
  fun t => (Ok (search searchParams page limit),
            (t ++ [CallSearch searchParams page limit])%list).

(** [await backend.aggregate(searchParams)] *)
Definition await_aggregate (searchParams : value) : M (settled value) :=
  fun t => (Ok (aggregate_backend searchParams), (t ++ [CallAggregate searchParams])%list).

Definition searchItems (collectionId : value) (queryParameters : obj)
    (endpoint : string) (httpMethod : value) : M value :=
  let next := get queryParameters "next" in
  let bbox := get queryParameters "bbox" in
  let intersects := get queryParameters "intersects" in
  if truthy bbox && truthy intersects then
    throw (ValidationError "Expected bbox OR intersects, not both")
  else
    datetime <- lift (extractDatetime queryParameters) ;;
    bboxGeometry <- lift (extractBbox queryParameters httpMethod) ;;
    intersectsGeometry <- lift (extractIntersects queryParameters) ;;
    let geometry := if truthy intersectsGeometry then intersectsGeometry
                    else bboxGeometry in
    sortby <- lift (extractSortby queryParameters) ;;
    query <- lift (extractStacQuery queryParameters) ;;
    fields <- lift (extractFields queryParameters) ;;
    ids <- lift (extractIds queryParameters) ;;
    collections <- lift (extractCollectionIds queryParameters) ;;
    limit <- lift (extractLimit queryParameters) ;;
    page <- lift (extractPage queryParameters) ;;
    let searchParams :=
      pickBy [("datetime", datetime); ("intersects", geometry); ("query", query);
              ("sortby", sortby); ("fields", fields); ("ids", ids);
              ("collections", collections); ("next", next)] in
    let searchParams :=
      if truthy collectionId then set searchParams "collections" (VArr [collectionId])
      else searchParams in
    let newEndpoint :=
      if truthy collectionId then
        endpoint ++ "/collections/" ++ ToString collectionId ++ "/items"
      else endpoint ++ "/search" in
    reply <- await_search (VObj searchParams) page limit ;;
    esResponse <-
      match reply with
      | Resolved r => ret r
      | RejectedWith error =>
          if isIndexNotFoundError error then
            ret {| context := VObj [("matched", VNum (num_of_Z 0));
                                    ("returned", VNum (num_of_Z 0));
                                    ("limit", limit)];
                   results := [] |}
          else throw (Rejected error)
      end ;;
    let responseItems := results esResponse in
    paginationLinks <-
      lift (buildPaginationLinks limit searchParams bbox intersects newEndpoint
              httpMethod sortby responseItems) ;;
    let links :=
      if truthy collectionId then
        (paginationLinks ++ [link3 "self" "application/json" newEndpoint;
                             link3 "root" "application/geo+json" endpoint])%list
      else paginationLinks in
    items <- lift (addItemLinks responseItems endpoint) ;;
    lift (wrapResponseInFeatureCollection (context esResponse) (map VObj items) links).

Definition starts_with_continuation (s : string) : bool :=
  match s with
  | String c _ => ((128 <=? nat_of_ascii c) && (nat_of_ascii c <? 192))%nat
  | EmptyString => false
  end.

(** The code points of a string, which [for...of] walks: a UTF-8
    continuation byte stays with the character before it. *)
Fixpoint code_points (s : string) : list string :=
  match s with
  | EmptyString => []
  | String c rest =>
      match code_points rest with
      | h :: t =>
          if starts_with_continuation h then String c h :: t
          else String c EmptyString :: h :: t
      | [] => [String c EmptyString]
      end
  end.

(** The values a [for...of] loop visits. *)
Definition iterate (v : value) : completion (list value) :=
  match v with
  | VArr l => Ok l
  | VStr s => Ok (map VStr (code_points s))
  | _ => Throw TypeError
  end.

Local Open Scope completion_scope.

Fixpoint agg_buckets (dataType : string) (buckets : list value) : completion (list value) :=
  match buckets with
  | [] => Ok []
  | bucket :: rest =>
      key_as_string <- get_prop bucket "key_as_string" ;;
      key <- get_prop bucket "key" ;;
      doc_count <- get_prop bucket "doc_count" ;;
      to <- get_prop bucket "to" ;;
      from <- get_prop bucket "from" ;;
      bs <- agg_buckets dataType rest ;;
      Ok (VObj [("key", if truthy key_as_string then key_as_string else key);
                ("data_type", VStr dataType);
                ("frequency", doc_count);
                ("to", to);
                ("from", from)] :: bs)
  end.

Definition agg (esAggs : value) (name dataType : string) : completion value :=
  named <- get_prop esAggs name ;;
  raw <- get_prop named "buckets" ;;
  visited <- iterate raw ;;
  buckets <- agg_buckets dataType visited ;;
  overflow <- get_prop named "sum_other_doc_count" ;;
  Ok (VObj [("name", VStr name);
            ("data_type", VStr "frequency_distribution");
            ("overflow", if truthy overflow then overflow else VNum (num_of_Z 0));
            ("buckets", VArr buckets)]).

Definition metric (esAggs : value) (name dataType field : string) : completion value :=
  named <- get_prop esAggs name ;;
  v <- get_prop named field ;;
  Ok (VObj [("name", VStr name); ("data_type", VStr dataType); ("value", v)]).

Fixpoint aggs (esAggs : value) (names : list (string * string)) : completion (list value) :=
  match names with
  | [] => Ok []
  | (name, dataType) :: rest =>
      a <- agg esAggs name dataType ;;
      others <- aggs esAggs rest ;;
      Ok (a :: others)
  end.

Definition frequency_aggregations : list (string * string) :=
  [("collection_frequency", "string"); ("datetime_frequency", "datetime");
   ("cloud_cover_frequency", "numeric"); ("grid_code_frequency", "string");
   ("platform_frequency", "string"); ("grid_code_landsat_frequency", "string");
   ("sun_elevation_frequency", "string"); ("sun_azimuth_frequency", "string");
   ("off_nadir_frequency", "string")].

(** Lines 631 to 672 of [aggregate]: the document built from the
    response. *)
Definition aggregate_document (esResponse : value) (endpoint : string) : completion value :=
  body <- get_prop esResponse "body" ;;
  esAggs <- get_prop body "aggregations" ;;
  total_count <- metric esAggs "total_count" "integer" "value" ;;
  datetime_max <- metric esAggs "datetime_max" "datetime" "value_as_string" ;;
  datetime_min <- metric esAggs "datetime_min" "datetime" "value_as_string" ;;
  distributions <- aggs esAggs frequency_aggregations ;;
  Ok (VObj [("aggregations",
             VArr (total_count :: datetime_max :: datetime_min :: distributions));
            ("links", VArr [link3 "self" "application/json" (endpoint ++ "/aggregate");
                            link3 "root" "application/geo+json" endpoint])]).

Local Open Scope M_scope.

Definition aggregate (queryParameters : obj) (endpoint : string) (httpMethod : value)
  : M value :=
  let bbox := get queryParameters "bbox" in
  let intersects := get queryParameters "intersects" in
  if truthy bbox && truthy intersects then
    throw (ValidationError "Expected bbox OR intersects, not both")
  else
    datetime <- lift (extractDatetime queryParameters) ;;
    bboxGeometry <- lift (extractBbox queryParameters httpMethod) ;;
    intersectsGeometry <- lift (extractIntersects queryParameters) ;;
    let geometry := if truthy intersectsGeometry then intersectsGeometry
                    else bboxGeometry in
    query <- lift (extractStacQuery queryParameters) ;;
    ids <- lift (extractIds queryParameters) ;;
    collections <- lift (extractCollectionIds queryParameters) ;;
    let searchParams :=
      pickBy [("datetime", datetime); ("intersects", geometry); ("query", query);
              ("ids", ids); ("collections", collections)] in
    reply <- await_aggregate (VObj searchParams) ;;
    esResponse <-
      match reply with
      | Resolved r => ret r
      | RejectedWith error =>
          if isIndexNotFoundError error then ret (VObj [])
          else throw (Rejected error)
      end ;;
    lift (aggregate_document esResponse endpoint).

(** What [getItem] returns: the item, or an [Error] object as a value. *)
Inductive item_or_error : Type :=
| Item (it : obj)
| ErrorValue (msg : string).

Definition getItem (collectionId itemId : value) (endpoint : string) : M item_or_error :=
  let itemQuery := VObj [("collections", VArr [collectionId]); ("id", itemId)] in
  reply <- await_search itemQuery VUndefined VUndefined ;;
  response <-
    match reply with
    | Resolved r => ret r
    | RejectedWith error => throw (Rejected error)
    end ;;
  decorated <- lift (addItemLinks (results response) endpoint) ;;
  match decorated with
  | it :: _ => ret (Item it)
  | [] => ret (ErrorValue "Item not found")
  end.

End Operations.

(* ================================================================== *)
(** * The operations after their backend call *)
(* ================================================================== *)

Section AfterTheCall.
Context {engine : Engine} {backend : Backend}.
Local Open Scope completion_scope.

(** The search parameters and the endpoint that [searchItems] derives from
    the extracted filters (lines 506 to 521). *)
Definition search_params (collectionId : value)
    (datetime geometry query sortby fields ids collections next : value) : obj :=
  let searchParams :=
    pickBy [("datetime", datetime); ("intersects", geometry); ("query", query);
            ("sortby", sortby); ("fields", fields); ("ids", ids);
            ("collections", collections); ("next", next)] in
  if truthy collectionId then set searchParams "collections" (VArr [collectionId])
  else searchParams.

Definition search_endpoint (collectionId : value) (endpoint : string) : string :=
  if truthy collectionId then
    endpoint ++ "/collections/" ++ ToString collectionId ++ "/items"
  else endpoint ++ "/search".

(** What [searchItems] does with the settled promise (lines 528 to 569),
    as a function of the values computed before the call. *)
Definition search_respond (collectionId : value) (endpoint : string)
    (httpMethod limit : value) (searchParams : obj) (bbox intersects sortby : value)
    (reply : settled search_response) : completion value :=
  esResponse <-
    match reply with
    | Resolved r => Ok r
    | RejectedWith error =>
        if isIndexNotFoundError error then
          Ok {| context := VObj [("matched", VNum (num_of_Z 0));
                                 ("returned", VNum (num_of_Z 0));
                                 ("limit", limit)];
                results := [] |}
        else Throw (Rejected error)
    end ;;
  paginationLinks <-
    buildPaginationLinks limit searchParams bbox intersects
      (search_endpoint collectionId endpoint) httpMethod sortby (results esResponse) ;;
  let links :=
    if truthy collectionId then
      (paginationLinks
         ++ [link3 "self" "application/json" (search_endpoint collectionId endpoint);
             link3 "root" "application/geo+json" endpoint])%list
    else paginationLinks in
  items <- addItemLinks (results esResponse) endpoint ;;
  wrapResponseInFeatureCollection (context esResponse) (map VObj items) links.

(** What [aggregate] does with the settled promise (lines 622 to 672). *)
Definition aggregate_respond (endpoint : string) (reply : settled value)
  : completion value :=
  esResponse <-
    match reply with
    | Resolved r => Ok r
    | RejectedWith error =>
        if isIndexNotFoundError error then Ok (VObj [])
        else Throw (Rejected error)
    end ;;
  aggregate_document esResponse endpoint.

End AfterTheCall.

Definition not_both_error : error :=
  ValidationError "Expected bbox OR intersects, not both".

(** The errors a run can end with once the backend has been called: the
    rejection of the backend, or a [TypeError] of the response assembly. *)
Definition thrown_after_call {A : Type} (r : completion A) : Prop :=
  match r with
  | Ok _ => True
  | Throw e => e = TypeError \/ exists rejection, e = Rejected rejection
  end.

(** The links [addItemLinks] builds for an item: the self link, and the
    four it appends. *)
Definition item_self_link {engine : Engine} (endpoint : string) (result : obj) : value :=
  link3 "self" "application/geo+json"
    (endpoint ++ "/collections/" ++ ToString (get result "collection")
     ++ "/items/" ++ ToString (get result "id")).

Definition item_appended_links {engine : Engine} (endpoint : string) (result : obj)
  : list value :=
  let id := ToString (get result "id") in
  let collection := ToString (get result "collection") in
  [link3 "parent" "application/json" (endpoint ++ "/collections/" ++ collection);
   link3 "collection" "application/json" (endpoint ++ "/collections/" ++ collection);
   link3 "root" "application/geo+json" endpoint;
   VObj [("rel", VStr "thumbnail");
         ("href", VStr (endpoint ++ "/collections/" ++ collection ++ "/items/"
                        ++ id ++ "/thumbnail"))]].

(** An item record as the backend stores it, without a [links] array. *)
Definition bare_item : obj :=
  [("id", VStr "S2A_1"); ("collection", VStr "sentinel-2")].

(** The last item of the page of the specification's example, and its
    sort rules. *)
Definition item_42 : obj :=
  [("id", VNum (num_of_Z 42)); ("collection", VStr "sentinel-2");
   ("properties", VObj [("datetime", VStr "2020-01-01T00:00:00Z")])].

Definition sort_by_id : value := VArr [sort_rule "id" "asc"].

(** The cursor the specification describes: the values of the last item
    at the field paths of the sort rules, joined with commas. *)
Definition spec_cursor {engine : Engine} (rules : list string) (lastItem : obj) : string :=
  array_join (map (getNested lastItem) rules).

Definition interval_order_error : error :=
  ValidationError
    "datetime value is invalid, start datetime must be before end datetime with interval".

(** The errors of the extractors, by name. *)
Definition limit_error : error :=
  ValidationError "Invalid limit value, must be a number between 1 and 10000 inclusive".

Definition bbox_count_error : error :=
  ValidationError "Invalid bbox, must have 4 or 6 points".

Definition bbox_latitude_error : error :=
  ValidationError "Invalid bbox, SW latitude must be less than NE latitude".

(** A component of a request-line box that [parseFloat] reads as a number. *)
Definition numeric (t : string) : bool := negb (num_isNaN (parseFloat t)).

(** A completion that throws nothing but a [TypeError]. *)
Definition only_TypeError {A : Type} (r : completion A) : Prop :=
  match r with
  | Ok _ => True
  | Throw e => e = TypeError
  end.

(** A request that supplies a box and a geometry. *)
Definition both_supplied : obj :=
  [("bbox", VStr "-10,-10,10,10");
   ("intersects", VStr "{'type':'Point','coordinates':[0,0]}")].

(** An item record whose [type] is not yet ["Feature"]. *)
Definition typed_item : obj :=
  [("type", VStr "Item"); ("id", VStr "S2A_1"); ("collection", VStr "sentinel-2");
   ("links", VArr [])].

(** A closed timestamp: it matches [RFC3339_REGEX] and Luxon reads a valid
    date and time from it. *)
Definition closed_timestamp {luxon : Luxon} (t : string) : Prop :=
  RFC3339_REGEX_test t = true /\ isValid (fromISO t) = true.

(** The [features] and the [links] of a response document. *)
Definition response_field (k : string) (response : value) : value :=
  match response with
  | VObj o => get o k
  | _ => VUndefined
  end.

(* ================================================================== *)
(** * The specification's words *)
(* ================================================================== *)

(** The closed polygon equivalent to a box: the ring W,S - E,S - E,N -
    W,N - W,S. *)
Definition spec_bbox_polygon (west south east north : value) : value :=
  VObj [("type", VStr "Polygon");
        ("coordinates",
         VArr [VArr [VArr [west; south]; VArr [east; south]; VArr [east; north];
                     VArr [west; north]; VArr [west; south]]])].

(** The polygon the specification asks for: west, south, east, north are
    components 0, 1, 2, 3 of a four-element box and 0, 1, 3, 4 of a
    six-element one. *)
Definition spec_polygon_of_bbox (bbox : list value) : option value :=
  match bbox with
  | [w; s; e; n] => Some (spec_bbox_polygon w s e n)
  | [w; s; _; e; n; _] => Some (spec_bbox_polygon w s e n)
  | _ => None
  end.

(** The five links the specification lists for a decorated item. *)
Definition item_link_rels : list string :=
  ["self"; "parent"; "collection"; "root"; "thumbnail"].

(** The [rel] of every link of a record. *)
Definition link_rels (record : obj) : list value :=
  match get record "links" with
  | VArr l => map (fun link => match link with VObj o => get o "rel" | _ => VUndefined end) l
  | _ => []
  end.

(* ================================================================== *)
(** * Instances for the closed examples *)
(* ================================================================== *)

(** Fraction digits of [r / d], at most [fuel] of them. *)
Fixpoint fraction_digits (fuel : nat) (r d : Z) : string :=
  match fuel with
  | O => EmptyString
  | S fuel' =>
      if r =? 0 then EmptyString
      else String (ascii_of_nat (Z.to_nat (48 + (10 * r) / d)))
                  (fraction_digits fuel' ((10 * r) mod d) d)
  end.

(** Decimal rendering of a number: exact on the integers, up to twenty
    fraction digits otherwise. *)
Definition decimal_toString (n : number) : string :=
  match n with
  | NaN => "NaN"
  | PosInf => "Infinity"
  | NegInf => "-Infinity"
  | Fin q =>
      let num := Qnum q in
      let den := Zpos (Qden q) in
      if num mod den =? 0 then Str.of_Z (num / den)
      else (if num <? 0 then "-" else "")
           ++ Str.of_Z (Z.abs num / den) ++ "."
           ++ fraction_digits 20 (Z.abs num mod den) den
  end.

(** An engine for the closed examples.  Numbers print in decimal and no
    environment variable is set; the examples do not reach the other
    builtins, which are left trivial. *)
Definition example_engine : Engine := {|
  Number_toString := decimal_toString;
  JSON_parse := fun _ => None;
  JSON_stringify := fun _ => EmptyString;
  relational_gt := fun _ _ => false;
  primitive_prop := fun _ _ => VUndefined;
  env := fun _ => VUndefined
|}.

(** Days from 1970-01-01 to a date of the proleptic Gregorian calendar. *)
Definition days_from_civil (y m d : Z) : Z :=
  let y' := if m <=? 2 then y - 1 else y in
  let era := y' / 400 in
  let yoe := y' - era * 400 in
  let doy := (153 * (if 2 <? m then m - 3 else m + 9) + 2) / 5 + d - 1 in
  let doe := yoe * 365 + yoe / 4 - yoe / 100 + doy in
  era * 146097 + doe - 719468.

Definition days_in_month (y m : Z) : Z :=
  if m =? 2 then
    if ((y mod 4 =? 0) && negb (y mod 100 =? 0)) || (y mod 400 =? 0) then 29 else 28
  else if (m =? 4) || (m =? 6) || (m =? 9) || (m =? 11) then 30
  else 31.

Definition field (s : string) (from len : nat) : Z :=
  Str.digits_value 0 (String.substring from len s).

(** Minutes east of UTC of the zone designator that ends [s]. *)
Definition zone_minutes (s : string) : Z :=
  let n := String.length s in
  match String.get (n - 6) s with
  | Some "+"%char => field s (n - 5) 2 * 60 + field s (n - 2) 2
  | Some "-"%char => - (field s (n - 5) 2 * 60 + field s (n - 2) 2)
  | _ => 0
  end.

(** Epoch milliseconds of a string that matches [RFC3339_REGEX], when it
    names a date and time of the calendar. *)
Definition calendar_fromISO (s : string) : option Z :=
  let y := field s 0 4 in
  let m := field s 5 2 in
  let d := field s 8 2 in
  let hh := field s 11 2 in
  let mm := field s 14 2 in
  let ss := field s 17 2 in
  let ms :=
    match String.get 19 s with
    | Some "."%char =>
        let (frac, _) := Str.span_digits (String.substring 20 (String.length s) s) in
        Str.digits_value 0 (String.substring 0 3 (frac ++ "00"))
    | _ => 0
    end in
  if (1 <=? m) && (m <=? 12) && (1 <=? d) && (d <=? days_in_month y m)
     && (hh <=? 23) && (mm <=? 59) && (ss <=? 59) then
    Some ((((days_from_civil y m d * 24 + hh) * 60 + mm - zone_minutes s) * 60 + ss)
          * 1000 + ms)
  else None.

(** A calendar for the closed examples. *)
Definition example_luxon : Luxon := {|
  DateTime := option Z;
  fromISO := calendar_fromISO;
  isValid := fun dt => match dt with Some _ => true | None => false end;
  invalidReason := fun dt => match dt with Some _ => VNull | None => VStr "unit out of range" end;
  invalidExplanation := fun _ => VNull;
  valueOf := fun dt => match dt with Some ms => num_of_Z ms | None => NaN end
|}.

Definition index_not_found : value := VStr "index_not_found_exception".

(** A backend whose index does not exist yet. *)
Definition empty_backend : Backend := {|
  search := fun _ _ _ => RejectedWith index_not_found;
  aggregate_backend := fun _ => RejectedWith index_not_found;
  isIndexNotFoundError := fun e => is_str e "index_not_found_exception"
|}.

(** A backend that answers every search with the given page. *)
Definition page_backend (page : list obj) : Backend := {|
  search := fun _ _ limit =>
    Resolved {| results := page;
                context := VObj [("matched", VNum (num_of_Z (Z.of_nat (List.length page))));
                                 ("returned", VNum (num_of_Z (Z.of_nat (List.length page))));
                                 ("limit", limit)] |};
  aggregate_backend := fun _ => Resolved (VObj [("body", VObj [("aggregations", VObj [])])]);
  isIndexNotFoundError := fun e => is_str e "index_not_found_exception"
|}.

(* ================================================================== *)
(** * Paths *)
(* ================================================================== *)

Module Path.

(** The [searchFilters] object of [parsePath]; [collectionId] and [itemId]
    hold a component or [false]. *)
Record searchFilters : Type := {
  root : bool;
  api : bool;
  conformance : bool;
  collections : bool;
  search : bool;
  collectionId : value;
  items : bool;
  itemId : value;
  edit : bool
}.

End Path.

(** [pathComponents[i] === name] *)
Definition component_is (pathComponents : list string) (i : nat) (name : string) : bool :=
  match nth_error pathComponents i with
  | Some c => String.eqb c name
  | None => false
  end.

(** [pathComponents[i]] *)
Definition component (pathComponents : list string) (i : nat) : value :=
  match nth_error pathComponents i with
  | Some c => VStr c
  | None => VUndefined
  end.

(** [inpath.split('/').filter((x) => x)] *)
Definition path_components (inpath : string) : list string :=
  filter (fun x => negb (String.eqb x "")) (Str.split "/" inpath).

Definition parsePath (inpath : string) : Path.searchFilters :=
  let pathComponents := path_components inpath in
  let length := List.length pathComponents in
  {| Path.root := (length =? 0)%nat;
     Path.api := component_is pathComponents 0 "api";
     Path.conformance := component_is pathComponents 0 "conformance";
     Path.collections := component_is pathComponents 0 "collections";
     Path.collectionId :=
       if component_is pathComponents 0 "collections" && (2 <=? length)%nat
       then component pathComponents 1 else VBool false;
     Path.search := component_is pathComponents 0 "search";
     Path.items := component_is pathComponents 2 "items";
     Path.itemId :=
       if component_is pathComponents 2 "items" && (4 <=? length)%nat
       then component pathComponents 3 else VBool false;
     Path.edit := component_is pathComponents 4 "edit" |}.

(** The path of the self link that [addItemLinks] gives an item. *)
Definition item_path (collection id : string) : string :=
  "/collections/" ++ collection ++ "/items/" ++ id.

(** Number of occurrences of a character. *)
Fixpoint count_char (sep : ascii) (s : string) : nat :=
  match s with
  | EmptyString => O
  | String c rest => (if Ascii.eqb c sep then 1 else 0) + count_char sep rest
  end.

(* ================================================================== *)
(** * Collections and the catalog *)
(* ================================================================== *)

(** What [backend.getCollection] resolves to: a collection record, or an
    object for which [instanceof Error] holds. *)
Inductive collection_reply : Type :=
| FoundCollection (c : obj)
| ErrorObject.

(** The part of the backend that serves the collections. *)
Class CollectionStore : Type := {
  getCollections_backend : value -> value -> settled (list obj);
  getCollection_backend : value -> settled collection_reply
}.

(** What an operation returns that answers a failure with an [Error]
    object instead of throwing. *)
Inductive or_error (A : Type) : Type :=
| Returned (a : A)
| ReturnedError (msg : string).
Arguments Returned {A} a.
Arguments ReturnedError {A} msg.

(** [await p] *)
Definition await {A : Type} (p : settled A) : completion A :=
  match p with
  | Resolved a => Ok a
  | RejectedWith e => Throw (Rejected e)
  end.

Section Catalog.
Context {engine : Engine} {store : CollectionStore}.
Local Open Scope completion_scope.

(** [process.env[name] || fallback] *)
Definition env_or (name : string) (fallback : value) : value :=
  if truthy (env name) then env name else fallback.

(** [COLLECTION_LIMIT] *)
Definition COLLECTION_LIMIT : value :=
  env_or "STAC_SERVER_COLLECTION_LIMIT" (VNum (num_of_Z 100)).

Fixpoint addCollectionLinks (results : list obj) (endpoint : string)
  : completion (list obj) :=
  match results with
  | [] => Ok []
  | r :: rest =>
      r' <- addCollectionLinks_step endpoint r ;;
      rest' <- addCollectionLinks rest endpoint ;;
      Ok (r' :: rest')
  end.

Definition child_link (endpoint : string) (result : obj) : value :=
  link3 "child" "application/geo+json"
    (endpoint ++ "/collections/" ++ ToString (get result "id")).

Definition collectionsToCatalogLinks (results : list obj) (endpoint : string) : obj :=
  [("stac_version", env_or "STAC_VERSION" (VStr "1.0.0"));
   ("type", VStr "Catalog");
   ("id", env_or "STAC_ID" (VStr "stac-server"));
   ("title", env_or "STAC_TITLE" (VStr "A STAC API"));
   ("description", env_or "STAC_DESCRIPTION" (VStr "A STAC API running on stac-server"));
   ("links", VArr (map (child_link endpoint) results))].

Definition conformance_prefix : string := "https://api.stacspec.org/v1.0.0-rc.2".

Definition conformance_classes : list string :=
  [conformance_prefix ++ "/core";
   conformance_prefix ++ "/collections";
   conformance_prefix ++ "/ogcapi-features";
   conformance_prefix ++ "/ogcapi-features#fields";
   conformance_prefix ++ "/ogcapi-features#sort";
   conformance_prefix ++ "/ogcapi-features#query";
   conformance_prefix ++ "/item-search";
   conformance_prefix ++ "/item-search#fields";
   conformance_prefix ++ "/item-search#sort";
   conformance_prefix ++ "/item-search#query";
   "https://api.stacspec.org/v0.2.0/aggregation";
   "http://www.opengis.net/spec/ogcapi-features-1/1.0/conf/core";
   "http://www.opengis.net/spec/ogcapi-features-1/1.0/conf/oas30";
   "http://www.opengis.net/spec/ogcapi-features-1/1.0/conf/geojson"].

Definition transaction_class : string :=
  conformance_prefix ++ "/ogcapi-features/extensions/transaction".

(** The [conformsTo] of [getConformance(txnEnabled)]. *)
Definition getConformance (txnEnabled : value) : list string :=
  if truthy txnEnabled then (conformance_classes ++ [transaction_class])%list
  else conformance_classes.

Definition method_link (rel type href method : string) : value :=
  VObj [("rel", VStr rel); ("type", VStr type); ("href", VStr href);
        ("method", VStr method)].

(** The links of [getCatalog] that do not depend on the collections. *)
Definition catalog_links (endpoint : string) : list value :=
  let links :=
    [link3 "self" "application/geo+json" endpoint;
     link3 "root" "application/geo+json" endpoint;
     link3 "conformance" "application/json" (endpoint ++ "/conformance");
     link3 "data" "application/json" (endpoint ++ "/collections");
     method_link "search" "application/geo+json" (endpoint ++ "/search") "GET";
     method_link "search" "application/geo+json" (endpoint ++ "/search") "POST";
     link3 "aggregate" "application/json" (endpoint ++ "/aggregate");
     link3 "service-desc" "application/vnd.oai.openapi" (endpoint ++ "/api");
     link3 "service-doc" "text/html" (endpoint ++ "/api.html")] in
  let docsUrl := env "STAC_DOCS_URL" in
  if truthy docsUrl then
    (links ++ [VObj [("rel", VStr "server"); ("type", VStr "text/html");
                     ("href", docsUrl)]])%list
  else links.

Definition getCatalog (txnEnabled : value) (endpoint : string) : completion obj :=
  let links := catalog_links endpoint in
  collections <- await (getCollections_backend (VNum (num_of_Z 1)) COLLECTION_LIMIT) ;;
  let catalog := collectionsToCatalogLinks collections endpoint in
  let catalog :=
    set catalog "links"
      (VArr (links ++ map (child_link endpoint) collections)%list) in
  Ok (set catalog "conformsTo" (str_array (getConformance txnEnabled))).

Definition getCollections (endpoint : string) : completion obj :=
  results <- await (getCollections_backend (VNum (num_of_Z 1)) COLLECTION_LIMIT) ;;
  linkedCollections <- addCollectionLinks results endpoint ;;
  let count := VNum (num_of_Z (Z.of_nat (List.length linkedCollections))) in
  Ok [("collections", VArr (map VObj linkedCollections));
      ("links", VArr [link3 "self" "application/json" (endpoint ++ "/collections");
                      link3 "root" "application/geo+json" endpoint]);
      ("context", VObj [("page", VNum (num_of_Z 1)); ("limit", COLLECTION_LIMIT);
                        ("matched", count); ("returned", count)])].

Definition getCollection (collectionId : value) (endpoint : string)
  : completion (or_error obj) :=
  result <- await (getCollection_backend collectionId) ;;
  match result with
  | ErrorObject => Ok (ReturnedError "Collection not found")
  | FoundCollection c =>
      col <- addCollectionLinks [c] endpoint ;;
      match col with
      | first :: _ => Ok (Returned first)
      | [] => Ok (ReturnedError "Collection retrieval failed")
      end
  end.

End Catalog.

(** The links [addCollectionLinks] appends to a collection. *)
Definition collection_appended_links {engine : Engine} (endpoint : string) (result : obj)
  : list value :=
  [link3 "parent" "application/geo+json" endpoint;
   link3 "root" "application/geo+json" endpoint;
   link3 "items" "application/geo+json"
     (endpoint ++ "/collections/" ++ ToString (get result "id") ++ "/items")].

Definition collection_self_link {engine : Engine} (endpoint : string) (result : obj) : value :=
  link3 "self" "application/geo+json"
    (endpoint ++ "/collections/" ++ ToString (get result "id")).

(** The links a record has before it is decorated. *)
Definition old_links (result : obj) : list value :=
  match get result "links" with
  | VArr l => l
  | _ => []
  end.

(* ================================================================== *)
(** * Thumbnails *)
(* ================================================================== *)

(** [s.includes(needle)] *)
Fixpoint str_includes (needle s : string) : bool :=
  Str.starts_with needle s
  || match s with
     | String _ rest => str_includes needle rest
     | EmptyString => false
     end.

(** [s.substring(n)] *)
Fixpoint str_drop (n : nat) (s : string) : string :=
  match n, s with
  | S n', String _ rest => str_drop n' rest
  | _, _ => s
  end.

(** [Object.values(v)]; the values of a string are its characters. *)
Definition object_values (v : value) : list value :=
  match v with
  | VObj o => map snd o
  | VArr l => l
  | VStr s => map VStr (code_points s)
  | _ => []
  end.

(** [new AWS.S3().getSignedUrl(operation, params)] of the package
    [aws-sdk]. *)
Class S3 : Type := {
  getSignedUrl : string -> obj -> value
}.

(** What [getItemThumbnail] returns. *)
Inductive thumbnail : Type :=
| Location (location : value)
| ThumbnailError (msg : string).

(** The parameters of the signed request. *)
Definition signed_params (bucket key : string) : obj :=
  [("Bucket", VStr bucket); ("Key", VStr key);
   ("Expires", VNum (num_of_Z (60 * 5))); ("RequestPayer", VStr "requester")].

Section Thumbnails.
Context {engine : Engine} {backend : Backend} {s3 : S3}.
Local Open Scope completion_scope.

(** [x.roles && x.roles.includes('thumbnail')], as the truth value that
    [find] reads. *)
Definition has_thumbnail_role (x : value) : completion bool :=
  roles <- get_prop x "roles" ;;
  if truthy roles then
    match roles with
    | VArr l => Ok (existsb (fun r => is_str r "thumbnail") l)
    | VStr s => Ok (str_includes "thumbnail" s)
    | _ => Throw TypeError
    end
  else Ok false.

(** [assets.find(...)]: [undefined] when no asset is found. *)
Fixpoint find_thumbnail (assets : list value) : completion value :=
  match assets with
  | [] => Ok VUndefined
  | x :: rest =>
      found <- has_thumbnail_role x ;;
      if found then Ok x else find_thumbnail rest
  end.

(** Lines 878 to 903 of [getItemThumbnail]: the thumbnail of the item
    found. *)
Definition item_thumbnail (item : obj) : completion thumbnail :=
  let assets := get item "assets" in
  thumbnailAsset <-
    find_thumbnail (object_values (if truthy assets then assets else VArr [])) ;;
  if negb (truthy thumbnailAsset) then Ok (ThumbnailError "Thumbnail not found")
  else
    href <- get_prop thumbnailAsset "href" ;;
    if truthy href then
      match href with
      | VStr h =>
          if Str.starts_with "http" h then Ok (Location href)
          else if Str.starts_with "s3" h then
            let withoutProtocol := str_drop 5 h in
            let parts := Str.split "/" withoutProtocol in
            let bucket := hd EmptyString parts in
            let key := Str.join "/" (tl parts) in
            Ok (Location (getSignedUrl "getObject" (signed_params bucket key)))
          else Ok (ThumbnailError "Thumbnail not found")
      | _ => Throw TypeError
      end
    else Ok (ThumbnailError "Thumbnail not found").

Local Open Scope M_scope.

Definition getItemThumbnail (collectionId itemId : value) : M thumbnail :=
  let itemQuery := VObj [("collections", VArr [collectionId]); ("id", itemId)] in
  reply <- await_search itemQuery VUndefined VUndefined ;;
  response <-
    match reply with
    | Resolved r => ret r
    | RejectedWith error => throw (Rejected error)
    end ;;
  match results response with
  | item :: _ => lift (item_thumbnail item)
  | [] => ret (ThumbnailError "Item not found")
  end.

End Thumbnails.

Definition too_many_slashes_error : error :=
  ValidationError "datetime value is invalid, too many forward slashes for an interval".

Definition page_error : error :=
  ValidationError "Invalid page value, must be a number greater than 1".

Definition invalid_geojson_error : error := ValidationError "Invalid GeoJSON geometry".

Definition not_a_geometry_error : error :=
  Error "Expected GeoJSON geometry, not Feature or FeatureCollection".

(** A field name that the request-line form of [sortby] can carry: not
    empty, without a leading sign and without a comma. *)
Definition plain_field (f : string) : bool :=
  negb (String.eqb f "") && negb (Str.first_is "-" f) && negb (Str.first_is "+" f)
  && Str.free_of "," f.

(** A sort rule, given as its field and whether it is descending, and its
    request-line token. *)
Definition rule_of (r : string * bool) : value :=
  sort_rule (fst r) (if snd r then "desc" else "asc").

Definition rule_token (r : string * bool) : string :=
  if snd r then "-" ++ fst r else fst r.

(** The string holds nothing but [/]. *)
Fixpoint all_slashes (s : string) : bool :=
  match s with
  | EmptyString => true
  | String c rest => Ascii.eqb c "/" && all_slashes rest
  end.

(** A path component: not empty and without a [/]. *)
Definition is_component (c : string) : bool :=
  negb (String.eqb c "") && Str.free_of "/" c.

(** A [links] that [addCollectionLinks] can extend: missing, [null] or an
    array. *)
Definition collection_links_ok (result : obj) : Prop :=
  match get result "links" with
  | VUndefined | VNull | VArr _ => True
  | _ => False
  end.

(** A [links] that [addItemLinks] can extend: missing or an array. *)
Definition item_links_ok (result : obj) : Prop :=
  match get result "links" with
  | VUndefined | VArr _ => True
  | _ => False
  end.

(** The [href] of a link, and the [href] of the first link of a record. *)
Definition link_href (link : value) : value :=
  match link with
  | VObj o => get o "href"
  | _ => VUndefined
  end.

Definition first_link_href (record : obj) : value :=
  match get record "links" with
  | VArr (link :: _) => link_href link
  | _ => VUndefined
  end.

(** The links of a catalog after the first [n]. *)
Definition links_after (n : nat) (catalog : obj) : list value :=
  match get catalog "links" with
  | VArr l => skipn n l
  | _ => []
  end.

(** Two collection records of a backend, one without links and one with
    a license link. *)
Definition two_collections : list obj :=
  [[("id", VStr "sentinel-2")];
   [("id", VStr "landsat-8");
    ("links", VArr [link3 "license" "text/html" "https://example.org/license"])]].

Definition two_collections_store : CollectionStore := {|
  getCollections_backend := fun _ _ => Resolved two_collections;
  getCollection_backend := fun collectionId =>
    if is_str collectionId "sentinel-2"
    then Resolved (FoundCollection [("id", VStr "sentinel-2")])
    else Resolved ErrorObject
|}.

(** The names of the filters that [searchItems] and [aggregate] pass to
    the backend. *)
Definition search_filter_names : list string :=
  ["datetime"; "intersects"; "query"; "sortby"; "fields"; "ids"; "collections"; "next"].

Definition aggregate_filter_names : list string :=
  ["datetime"; "intersects"; "query"; "ids"; "collections"].

(** An object that holds no falsy value. *)
Definition all_truthy (o : obj) : Prop :=
  Forall (fun kv => truthy (snd kv) = true) o.


(** The search parameters that reached the backend. *)
Definition called_params (c : call) : value :=
  match c with
  | CallSearch searchParams _ _ => searchParams
  | CallAggregate searchParams => searchParams
  end.


(** A backend that answers a search with five items of a collection. *)
Definition five_items : list obj :=
  map (fun i => [("id", VStr ("item-" ++ Str.of_Z i)); ("collection", VStr "sentinel-2");
                 ("links", VArr [])])
      [1; 2; 3; 4; 5].

(** The names of the twelve aggregations of the document, in its order. *)
Definition aggregation_names : list string :=
  ("total_count" :: "datetime_max" :: "datetime_min" :: map fst frequency_aggregations).

(** The names of the aggregations that a document lists. *)
Definition listed_names (document : value) : list value :=
  match response_field "aggregations" document with
  | VArr l => map (response_field "name") l
  | _ => []
  end.

(** The named aggregation is there: reading it gives neither [undefined]
    nor [null]. *)
Definition present {engine : Engine} (esAggs : value) (name : string) : Prop :=
  exists named, get_prop esAggs name = Ok named
                /\ named <> VUndefined /\ named <> VNull.

(** A backend reply with the three metrics and a frequency distribution
    for each of the given names. *)
Definition aggregations_reply (names : list string) : value :=
  VObj [("body",
         VObj [("aggregations",
                VObj ([("total_count", VObj [("value", VNum (num_of_Z 7))]);
                       ("datetime_max",
                        VObj [("value_as_string", VStr "2020-12-31T00:00:00Z")]);
                       ("datetime_min",
                        VObj [("value_as_string", VStr "2020-01-01T00:00:00Z")])]
                      ++ map (fun name =>
                                (name,
                                 VObj [("buckets",
                                        VArr [VObj [("key", VStr "a");
                                                    ("doc_count", VNum (num_of_Z 7))]])]))
                             names))])].

(** A bucket of the document against the bucket of the backend it was
    made from. *)
Definition bucket_of {engine : Engine} (dataType : string) (bucket out : value) : Prop :=
  get_prop bucket "doc_count" = Ok (response_field "frequency" out)
  /\ get_prop bucket "from" = Ok (response_field "from" out)
  /\ get_prop bucket "to" = Ok (response_field "to" out)
  /\ response_field "data_type" out = VStr dataType
  /\ exists key_as_string key,
       get_prop bucket "key_as_string" = Ok key_as_string
       /\ get_prop bucket "key" = Ok key
       /\ response_field "key" out = (if truthy key_as_string then key_as_string else key).

(** A range aggregation of the backend with two buckets. *)
Definition cloud_cover_aggregations : value :=
  VObj [("cloud_cover_frequency",
         VObj [("buckets",
                VArr [VObj [("key", VStr "0.0-5.0"); ("from", VNum (num_of_Z 0));
                            ("to", VNum (num_of_Z 5)); ("doc_count", VNum (num_of_Z 3))];
                      VObj [("key", VNum (num_of_Z 1577836800000));
                            ("key_as_string", VStr "2020-01-01");
                            ("doc_count", VNum (num_of_Z 4))]])])].

(** The assets of an item, as [getItemThumbnail] walks them. *)
Definition item_assets (item : obj) : list value :=
  object_values (if truthy (get item "assets") then get item "assets" else VArr []).

(** The query of [getItem] and [getItemThumbnail]. *)
Definition item_query (collectionId itemId : value) : value :=
  VObj [("collections", VArr [collectionId]); ("id", itemId)].

(** A signer for the closed examples: it names the bucket and the key. *)
Definition example_s3 : S3 := {|
  getSignedUrl := fun operation params =>
    VObj [("operation", VStr operation); ("bucket", get params "Bucket");
          ("key", get params "Key"); ("expires", get params "Expires")]
|}.

(** An item with a data asset and two thumbnails. *)
Definition item_with_thumbnails : obj :=
  [("id", VStr "S2A_1"); ("collection", VStr "sentinel-2");
   ("assets",
    VObj [("B01", VObj [("href", VStr "https://example.org/B01.tif");
                        ("roles", VArr [VStr "data"])]);
          ("preview", VObj [("href", VStr "s3://sentinel/tiles/10/S/preview.jpg");
                            ("roles", VArr [VStr "overview"; VStr "thumbnail"])]);
          ("small", VObj [("href", VStr "https://example.org/small.png");
                          ("roles", VArr [VStr "thumbnail"])])])].

(* ================================================================== *)
(** * Properties *)
(* ================================================================== *)

(* ================================================================== *)
(** * Strings: splitting and joining *)
(* ================================================================== *)

Module StrFacts.
Import Str.

Lemma split_nonempty (sep : ascii) (s : string) : split sep s <> [].
Proof.
  destruct s as [|c rest]; simpl; [discriminate|].
  destruct (Ascii.eqb c sep); [discriminate|].
  destruct (split sep rest); discriminate.
Qed.

Lemma split_free (sep : ascii) (s : string) :
  free_of sep s = true -> split sep s = [s].
Proof.
  induction s as [|c rest IH]; simpl; intros H; [reflexivity|].
  apply andb_true_iff in H as [Hc Hrest].
  apply negb_true_iff in Hc. rewrite Hc, (IH Hrest). reflexivity.
Qed.

Lemma split_app (sep : ascii) (a b : string) :
  free_of sep a = true ->
  split sep (a ++ String sep b) = a :: split sep b.
Proof.
  induction a as [|c rest IH]; simpl; intros H.
  - rewrite Ascii.eqb_refl. reflexivity.
  - apply andb_true_iff in H as [Hc Hrest].
    apply negb_true_iff in Hc. rewrite Hc, (IH Hrest). reflexivity.
Qed.

Lemma split_join (sep : ascii) (l : list string) :
  l <> [] ->
  Forall (fun t => free_of sep t = true) l ->
  split sep (join (String sep EmptyString) l) = l.
Proof.
  induction l as [|a [|b rest] IH]; intros Hne Hall; [contradiction| |].
  - simpl. apply split_free. now inversion Hall.
  - inversion Hall as [|? ? Ha Hrest]; subst.
    change (join (String sep EmptyString) (a :: b :: rest))
      with (a ++ String sep (join (String sep EmptyString) (b :: rest))).
    rewrite split_app by assumption.
    rewrite IH; [reflexivity|discriminate|assumption].
Qed.

Lemma free_of_app (sep : ascii) (a b : string) :
  free_of sep (a ++ b) = free_of sep a && free_of sep b.
Proof.
  induction a as [|c rest IH]; simpl; [reflexivity|].
  rewrite IH. apply andb_assoc.
Qed.

Lemma toUpperCase_app (a b : string) :
  toUpperCase (a ++ b) = toUpperCase a ++ toUpperCase b.
Proof.
  induction a as [|c rest IH]; simpl; [reflexivity|]. now rewrite IH.
Qed.

End StrFacts.

(* ================================================================== *)
(** * Objects *)
(* ================================================================== *)

Lemma get_absent (o : obj) (k : string) :
  has_own o k = false -> get o k = VUndefined.
Proof.
  induction o as [|[k' v] rest IH]; simpl; intros H; [reflexivity|].
  apply orb_false_iff in H as [Hk Hrest]. rewrite Hk. auto.
Qed.

Lemma get_set_same (o : obj) (k : string) (v : value) :
  get (set o k v) k = v.
Proof.
  induction o as [|[k' v'] rest IH]; simpl.
  - now rewrite String.eqb_refl.
  - destruct (String.eqb k' k) eqn:E; simpl; rewrite E; auto.
Qed.

Lemma get_set_other (o : obj) (k k' : string) (v : value) :
  String.eqb k k' = false -> get (set o k v) k' = get o k'.
Proof.
  intros Hk. induction o as [|[k0 v0] rest IH]; simpl.
  - now rewrite Hk.
  - destruct (String.eqb k0 k) eqn:E; simpl.
    + apply String.eqb_eq in E. subst k0. now rewrite Hk.
    + now rewrite IH.
Qed.

(* ================================================================== *)
(** * Numbers and their decimal form *)
(* ================================================================== *)

Lemma Qle_bool_inject_Z (a b : Z) :
  Qle_bool (inject_Z a) (inject_Z b) = (a <=? b).
Proof. unfold Qle_bool, inject_Z; simpl. now rewrite !Z.mul_1_r. Qed.

Lemma num_le_of_Z (a b : Z) : num_le (num_of_Z a) (num_of_Z b) = (a <=? b).
Proof. apply Qle_bool_inject_Z. Qed.

Lemma num_gt_of_Z (a b : Z) : num_gt (num_of_Z a) (num_of_Z b) = (b <? a).
Proof.
  unfold num_gt, num_of_Z. rewrite Qle_bool_inject_Z.
  rewrite Z.ltb_antisym. reflexivity.
Qed.

(** [parseInt] yields NaN or an integer. *)
Lemma parseInt_integer (s : string) :
  parseInt s = NaN \/ exists n : Z, parseInt s = num_of_Z n.
Proof.
  unfold parseInt.
  destruct (Str.take_sign (Str.trim_start s)) as [neg r].
  destruct (Str.starts_with "0x" r || Str.starts_with "0X" r).
  - destruct (Str.hex_prefix None _); eauto.
  - destruct (Str.span_digits r) as [d rest].
    destruct (String.eqb d ""); eauto.
Qed.

Module DecimalFacts.
Import Str.

Lemma digit_of_small (m : Z) :
  0 <= m < 10 ->
  let c := ascii_of_nat (Z.to_nat (48 + m)) in
  is_digit c = true /\ digit_val c = m.
Proof.
  intros Hm.
  assert (Hcases : m = 0 \/ m = 1 \/ m = 2 \/ m = 3 \/ m = 4 \/ m = 5 \/ m = 6
                   \/ m = 7 \/ m = 8 \/ m = 9) by lia.
  repeat (destruct Hcases as [-> | Hcases]; [split; reflexivity|]).
  subst; split; reflexivity.
Qed.

Lemma nat_digits_rev_spec (fuel : nat) : forall m : Z,
  0 <= m < 2 ^ Z.of_nat fuel ->
  fuel <> O ->
  let l := nat_digits_rev fuel m in
  l <> [] /\ Forall (fun c => is_digit c = true) l /\ val_rev l = m.
Proof.
  induction fuel as [|fuel IH]; intros m Hm Hfuel; [contradiction|].
  cbn [nat_digits_rev]. cbv zeta.
  assert (Hd : 0 <= m mod 10 < 10) by (apply Z.mod_pos_bound; lia).
  destruct (digit_of_small (m mod 10) Hd) as [Hdig Hval].
  destruct (m <? 10) eqn:Hlt.
  - apply Z.ltb_lt in Hlt.
    repeat split; [discriminate|repeat constructor; exact Hdig|].
    cbn [val_rev]. cbv zeta in Hval. rewrite Hval. rewrite Z.mod_small; lia.
  - apply Z.ltb_ge in Hlt.
    assert (Hpow : 2 ^ Z.of_nat (S fuel) = 2 * 2 ^ Z.of_nat fuel).
    { rewrite Nat2Z.inj_succ, Z.pow_succ_r; lia. }
    assert (Hdiv : 0 <= m / 10 < 2 ^ Z.of_nat fuel).
    { split; [apply Z.div_pos; lia|].
      apply Z.div_lt_upper_bound; lia. }
    assert (Hf : fuel <> O).
    { intros ->. simpl in Hdiv. assert (1 <= m / 10) by (apply Z.div_le_lower_bound; lia). lia. }
    destruct (IH (m / 10) Hdiv Hf) as (Hne & Hall & Hv).
    repeat split; [discriminate|constructor; assumption|].
    cbn [val_rev]. cbv zeta in Hval. rewrite Hval, Hv.
    pose proof (Z.div_mod m 10). lia.
Qed.

Lemma digits_value_app (a b : string) (acc : Z) :
  digits_value acc (a ++ b) = digits_value (digits_value acc a) b.
Proof.
  revert acc. induction a as [|c rest IH]; simpl; intros acc; [reflexivity|]. apply IH.
Qed.

Lemma of_ascii_list_app (a b : list ascii) :
  of_ascii_list (a ++ b)%list = of_ascii_list a ++ of_ascii_list b.
Proof.
  induction a as [|c rest IH]; simpl; [reflexivity|]. now rewrite IH.
Qed.

Lemma digits_value_rev (l : list ascii) :
  digits_value 0 (of_ascii_list (rev l)) = val_rev l.
Proof.
  induction l as [|c rest IH]; simpl; [reflexivity|].
  rewrite of_ascii_list_app, digits_value_app, IH. simpl. lia.
Qed.

Lemma span_digits_all (l : list ascii) :
  Forall (fun c => is_digit c = true) l ->
  span_digits (of_ascii_list l) = (of_ascii_list l, EmptyString).
Proof.
  induction 1 as [|c rest Hc Hrest IH]; simpl; [reflexivity|].
  now rewrite Hc, IH.
Qed.

Lemma skip_ws_plain (fuel : nat) (c : ascii) (rest : string) :
  is_digit c = true \/ c = "-"%char ->
  skip_ws fuel (String c rest) = String c rest.
Proof.
  intros Hc. destruct fuel as [|fuel]; [reflexivity|].
  assert (Hsmall : (nat_of_ascii c <=? 57)%nat = true
                   /\ ((9 <=? nat_of_ascii c) && (nat_of_ascii c <=? 13)
                       || (nat_of_ascii c =? 32))%nat = false).
  { destruct Hc as [Hc | ->]; [|split; reflexivity].
    unfold is_digit in Hc. apply andb_true_iff in Hc as [H1 H2].
    apply Nat.leb_le in H1. apply Nat.leb_le in H2.
    split; [now apply Nat.leb_le|].
    apply orb_false_iff; split.
    - apply andb_false_iff; right. apply Nat.leb_gt. lia.
    - apply Nat.eqb_neq. lia. }
  destruct Hsmall as [H57 Hws]. apply Nat.leb_le in H57.
  cbn [skip_ws]. cbv zeta. rewrite Hws.
  assert (E1 : (nat_of_ascii c =? 194)%nat = false) by (apply Nat.eqb_neq; lia).
  assert (E2 : (nat_of_ascii c =? 225)%nat = false) by (apply Nat.eqb_neq; lia).
  assert (E3 : (nat_of_ascii c =? 226)%nat = false) by (apply Nat.eqb_neq; lia).
  assert (E4 : (nat_of_ascii c =? 227)%nat = false) by (apply Nat.eqb_neq; lia).
  assert (E5 : (nat_of_ascii c =? 239)%nat = false) by (apply Nat.eqb_neq; lia).
  destruct rest as [|c2 [|c3 rest3]]; try reflexivity;
    rewrite ?E1, ?E2, ?E3, ?E4, ?E5; reflexivity.
Qed.

Lemma digit_not_sign (c : ascii) :
  is_digit c = true ->
  c <> "-"%char /\ c <> "+"%char /\ c <> "x"%char /\ c <> "X"%char.
Proof.
  intros H. repeat split; intros ->; discriminate H.
Qed.

Lemma take_sign_digit (c : ascii) (rest : string) :
  is_digit c = true -> take_sign (String c rest) = (false, String c rest).
Proof.
  intros H. destruct (digit_not_sign c H) as (Hm & Hp & _).
  unfold take_sign.
  destruct c as [[] [] [] [] [] [] [] []]; try reflexivity; congruence.
Qed.

Lemma no_hex_prefix (l : list ascii) :
  Forall (fun c => is_digit c = true) l ->
  starts_with "0x" (of_ascii_list l) || starts_with "0X" (of_ascii_list l) = false.
Proof.
  intros Hall.
  destruct l as [|a [|b rest]]; cbn [starts_with of_ascii_list fold_right].
  - reflexivity.
  - now rewrite !andb_false_r.
  - inversion Hall as [|? ? _ Hrest]; subst. inversion Hrest as [|? ? Hb _]; subst.
    destruct (digit_not_sign b Hb) as (_ & _ & Hx & HX).
    assert (E1 : Ascii.eqb "x" b = false) by (apply Ascii.eqb_neq; congruence).
    assert (E2 : Ascii.eqb "X" b = false) by (apply Ascii.eqb_neq; congruence).
    rewrite E1, E2. cbn [andb]. now rewrite !andb_false_r.
Qed.

Lemma digits_spec (m : Z) :
  0 <= m ->
  digits m <> [] /\ Forall (fun c => is_digit c = true) (digits m)
  /\ digits_value 0 (of_ascii_list (digits m)) = m.
Proof.
  intros Hm. unfold digits.
  assert (Hb : 0 <= m < 2 ^ Z.of_nat (S (Z.to_nat (Z.log2 m)))).
  { split; [assumption|].
    rewrite Nat2Z.inj_succ, Z2Nat.id by apply Z.log2_nonneg.
    destruct (Z.eq_dec m 0) as [->|Hnz]; [reflexivity|].
    apply Z.log2_spec. lia. }
  destruct (nat_digits_rev_spec _ m Hb) as (Hne & Hall & Hv); [discriminate|].
  repeat split.
  - intros E. apply Hne. apply (f_equal (@rev ascii)) in E.
    now rewrite rev_involutive in E.
  - now apply Forall_rev.
  - rewrite digits_value_rev. exact Hv.
Qed.

End DecimalFacts.

(** [parseInt] reads back the decimal form of every integer. *)
Lemma parseInt_of_Z (n : Z) : parseInt (Str.of_Z n) = num_of_Z n.
Proof.
  destruct (DecimalFacts.digits_spec (Z.abs n) (Z.abs_nonneg n)) as (Hne & Hall & Hv).
  unfold Str.of_Z.
  destruct (Str.digits (Z.abs n)) as [|c rest] eqn:Hd; [contradiction|].
  assert (Hc : Str.is_digit c = true) by now inversion Hall.
  pose proof (DecimalFacts.no_hex_prefix _ Hall) as Hhex.
  pose proof (DecimalFacts.span_digits_all _ Hall) as Hspan.
  unfold parseInt, Str.trim_start.
  destruct (n <? 0) eqn:Hneg.
  - rewrite DecimalFacts.skip_ws_plain by now right.
    cbn [Str.take_sign]. rewrite Hhex, Hspan. simpl String.eqb.
    rewrite Hv. apply Z.ltb_lt in Hneg. f_equal. f_equal. lia.
  - cbn [Str.of_ascii_list fold_right].
    rewrite DecimalFacts.skip_ws_plain by now left.
    rewrite DecimalFacts.take_sign_digit by assumption.
    change (String c (fold_right String EmptyString rest))
      with (Str.of_ascii_list (c :: rest)).
    rewrite Hhex, Hspan. simpl String.eqb.
    rewrite Hv. apply Z.ltb_ge in Hneg. f_equal. f_equal. lia.
Qed.

(* ================================================================== *)
(** * extractLimit *)
(* ================================================================== *)

(** C4.  For every supplied [limit] parameter (any value but [undefined]),
    with [parsed] the integer that [parseInt] reads from it: a parsed value
    above 10000 gives exactly 10000, a parsed value from 1 to 10000 is
    returned as it is, and a parameter that does not parse (NaN) or parses
    to a value at most 0 fails with a validation error.  In particular the
    decimal form of an integer [n] gives the error when [n <= 0] and
    [min n 10000] otherwise. *)
Theorem extractLimit_clamps {engine : Engine} (params : obj) :
  get params "limit" <> VUndefined ->
  let parsed := parseInt (ToString (get params "limit")) in
  (num_gt parsed (num_of_Z 10000) = true ->
   extractLimit params = Ok (VNum (num_of_Z 10000)))
  /\ (num_le (num_of_Z 1) parsed = true ->
      num_le parsed (num_of_Z 10000) = true ->
      extractLimit params = Ok (VNum parsed))
  /\ (num_isNaN parsed = true \/ num_le parsed (num_of_Z 0) = true ->
      extractLimit params = Throw limit_error)
  /\ (forall n : Z,
        get params "limit" = VStr (Str.of_Z n) ->
        extractLimit params =
          if n <=? 0 then Throw limit_error
          else Ok (VNum (num_of_Z (Z.min n 10000)))).
Proof.
  intros Hsupplied parsed.
  assert (Hdef : is_undefined (get params "limit") = false).
  { destruct (get params "limit"); try reflexivity. contradiction. }
  assert (Hint : forall n : Z,
            parsed = num_of_Z n ->
            extractLimit params =
              if n <=? 0 then Throw limit_error
              else Ok (VNum (num_of_Z (Z.min n 10000)))).
  { intros n Hn. unfold extractLimit. rewrite Hdef. cbn [negb].
    fold parsed. rewrite Hn, num_le_of_Z, num_gt_of_Z. cbn [num_isNaN orb].
    destruct (n <=? 0) eqn:H0; [reflexivity|].
    apply Z.leb_gt in H0.
    destruct (10000 <? n) eqn:Hbig.
    - apply Z.ltb_lt in Hbig. now rewrite Z.min_r by lia.
    - apply Z.ltb_ge in Hbig. now rewrite Z.min_l by lia. }
  destruct (parseInt_integer (ToString (get params "limit"))) as [Hnan | [n Hn]];
    fold parsed in Hnan || fold parsed in Hn.
  - repeat split.
    + rewrite Hnan. discriminate.
    + rewrite Hnan. discriminate.
    + intros _. unfold extractLimit. rewrite Hdef. cbn [negb].
      fold parsed. now rewrite Hnan.
    + intros n Hstr. exfalso.
      unfold parsed in Hnan. rewrite Hstr in Hnan. cbn [ToString] in Hnan.
      rewrite parseInt_of_Z in Hnan. discriminate.
  - specialize (Hint n Hn) as Hres. rewrite Hn.
    rewrite num_gt_of_Z, !num_le_of_Z. cbn [num_isNaN num_of_Z].
    repeat split.
    + intros Hbig. apply Z.ltb_lt in Hbig. rewrite Hres.
      destruct (n <=? 0) eqn:H0; [apply Z.leb_le in H0; lia|].
      now rewrite Z.min_r by lia.
    + intros H1 Hmax. apply Z.leb_le in H1. apply Z.leb_le in Hmax. rewrite Hres.
      destruct (n <=? 0) eqn:H0; [apply Z.leb_le in H0; lia|].
      now rewrite Z.min_l by lia.
    + intros [Hnan | H0]; [discriminate|]. now rewrite Hres, H0.
    + intros m Hstr. apply Hint.
      unfold parsed. rewrite Hstr. cbn [ToString]. apply parseInt_of_Z.
Qed.

(** The four cases of [extractLimit_clamps] on the parameters
    ["20000"], ["25"], ["abc"] and ["0"]. *)
Lemma extractLimit_clamps_witness :
  @extractLimit example_engine [("limit", VStr "20000")] = Ok (VNum (num_of_Z 10000))
  /\ @extractLimit example_engine [("limit", VStr "25")] = Ok (VNum (num_of_Z 25))
  /\ @extractLimit example_engine [("limit", VStr "abc")] = Throw limit_error
  /\ @extractLimit example_engine [("limit", VStr "0")] = Throw limit_error.
Proof.
  split; [|split; [|split]].
  - apply (@extractLimit_clamps example_engine [("limit", VStr "20000")]);
      [discriminate|reflexivity].
  - apply (@extractLimit_clamps example_engine [("limit", VStr "25")]);
      [discriminate|reflexivity|reflexivity].
  - apply (@extractLimit_clamps example_engine [("limit", VStr "abc")]);
      [discriminate|left; reflexivity].
  - apply (@extractLimit_clamps example_engine [("limit", VStr "0")]);
      [discriminate|right; reflexivity].
Defined.

(* ================================================================== *)
(** * extractFields *)
(* ================================================================== *)

(** C8.  The request-line value ["a,b,-c"] yields include = [a, b] and
    exclude = [c].  An empty structured value, and any other value that is
    present but falsy, yields the explicit empty projection [{}]; a
    request without the parameter yields [undefined]; the two results
    differ. *)
Theorem extractFields_projection :
  (forall params : obj,
      get params "fields" = VStr "a,b,-c" ->
      extractFields params =
        Ok (VObj [("include", str_array ["a"; "b"]); ("exclude", str_array ["c"])]))
  /\ (forall params : obj,
        get params "fields" = VObj [] -> extractFields params = Ok (VObj []))
  /\ (forall params : obj,
        has_own params "fields" = true ->
        truthy (get params "fields") = false ->
        extractFields params = Ok (VObj []))
  /\ (forall params : obj,
        has_own params "fields" = false -> extractFields params = Ok VUndefined)
  /\ Ok (VObj []) <> Ok VUndefined.
Proof.
  split; [|split; [|split; [|split]]].
  - intros params H. unfold extractFields. rewrite H. reflexivity.
  - intros params H. unfold extractFields. rewrite H. reflexivity.
  - intros params Hown Hfalsy. unfold extractFields. now rewrite Hfalsy, Hown.
  - intros params Hown. unfold extractFields.
    rewrite (get_absent _ _ Hown), Hown. reflexivity.
  - discriminate.
Qed.

(** [extractFields_projection] on a request-line value, on the empty
    object, on a present empty string and on a request without the
    parameter. *)
Lemma extractFields_projection_witness :
  extractFields [("limit", VStr "5"); ("fields", VStr "a,b,-c")] =
    Ok (VObj [("include", str_array ["a"; "b"]); ("exclude", str_array ["c"])])
  /\ extractFields [("fields", VObj [])] = Ok (VObj [])
  /\ extractFields [("fields", VStr "")] = Ok (VObj [])
  /\ extractFields [("limit", VStr "5")] = Ok VUndefined.
Proof.
  destruct extractFields_projection as (Hget & Hempty & Hfalsy & Habsent & _).
  split; [|split; [|split]].
  - apply Hget. reflexivity.
  - apply Hempty. reflexivity.
  - apply Hfalsy; reflexivity.
  - apply Habsent. reflexivity.
Defined.

(** The request-line form in general: the tokens without a leading [-]
    are included, the others are excluded without their [-]. *)
Lemma extractFields_tokens (params : obj) (tokens : list string) :
  tokens <> [] ->
  Forall (fun t => Str.free_of "," t = true) tokens ->
  Str.join "," tokens <> "" ->
  get params "fields" = VStr (Str.join "," tokens) ->
  extractFields params =
    Ok (VObj [("include", str_array (filter (fun t => negb (Str.first_is "-" t)) tokens));
              ("exclude", str_array (map Str.slice1 (filter (Str.first_is "-") tokens)))]).
Proof.
  intros Hne Hfree Hs Hget. unfold extractFields. rewrite Hget.
  cbn [truthy]. destruct (String.eqb_spec (Str.join "," tokens) ""); [contradiction|].
  cbn [negb]. now rewrite StrFacts.split_join.
Qed.

(* ================================================================== *)
(** * extractBbox *)
(* ================================================================== *)

Section Bbox.
Context {engine : Engine}.

Lemma num_le_not_gt (a b : number) : num_le a b = true -> num_gt a b = false.
Proof.
  destruct a, b; simpl; try discriminate; try reflexivity.
  intros H. now rewrite H.
Qed.

(** A structured box of four numbers with south at most north gives the
    polygon the specification describes. *)
Lemma extractBbox_four (params : obj) (w s e n : number) :
  get params "bbox" = VArr [VNum w; VNum s; VNum e; VNum n] ->
  num_le s n = true ->
  extractBbox params (VStr "POST") =
    Ok (spec_bbox_polygon (VNum w) (VNum s) (VNum e) (VNum n))
  /\ spec_polygon_of_bbox [VNum w; VNum s; VNum e; VNum n] =
       Some (spec_bbox_polygon (VNum w) (VNum s) (VNum e) (VNum n)).
Proof.
  intros Hget Hle. split; [|reflexivity].
  unfold extractBbox. rewrite Hget. simpl.
  now rewrite (num_le_not_gt _ _ Hle).
Qed.

(** South above north fails, for four and for six numbers. *)
Lemma extractBbox_south_above_north (params : obj) (l : list number) :
  get params "bbox" = VArr (map VNum l) ->
  (List.length l = 4%nat /\ num_gt (nth 1 l NaN) (nth 3 l NaN) = true)
  \/ (List.length l = 6%nat /\ num_gt (nth 1 l NaN) (nth 4 l NaN) = true) ->
  extractBbox params (VStr "POST") = Throw bbox_latitude_error.
Proof.
  intros Hget H. unfold extractBbox. rewrite Hget.
  destruct H as [[Hlen Hgt] | [Hlen Hgt]];
    repeat (destruct l as [|? l]; try discriminate Hlen);
    simpl in Hgt |- *; now rewrite Hgt.
Qed.

(** A structured box whose length is neither 4 nor 6 fails. *)
Lemma extractBbox_count (params : obj) (l : list value) :
  get params "bbox" = VArr l ->
  List.length l <> 4%nat -> List.length l <> 6%nat ->
  extractBbox params (VStr "POST") = Throw bbox_count_error.
Proof.
  intros Hget H4 H6. unfold extractBbox. rewrite Hget. simpl.
  apply Nat.eqb_neq in H4. apply Nat.eqb_neq in H6. now rewrite H4, H6.
Qed.

(** A request-line box is checked as the structured box of its numeric
    components. *)
Lemma extractBbox_string (params : obj) (s : string) :
  get params "bbox" = VStr s ->
  s <> "" ->
  extractBbox params (VStr "GET") =
    extractBbox [("bbox", VArr (parse_bbox_string s))] (VStr "POST").
Proof.
  intros Hget Hs. unfold extractBbox. rewrite Hget. cbn [get String.eqb Ascii.eqb Bool.eqb].
  cbn [truthy]. destruct (String.eqb_spec s ""); [contradiction|]. reflexivity.
Qed.

Lemma parse_bbox_tokens (tokens : list string) :
  tokens <> [] ->
  Forall (fun t => Str.free_of "," t = true) tokens ->
  parse_bbox_string (Str.join "," tokens) =
    map (fun t => VNum (parseFloat t)) (filter numeric tokens).
Proof.
  intros Hne Hfree. unfold parse_bbox_string.
  rewrite StrFacts.split_join by assumption.
  clear. induction tokens as [|t rest IH]; [reflexivity|].
  cbn [map filter not_NaN]. fold (numeric t).
  destruct (numeric t); cbn [map]; now rewrite IH.
Qed.

End Bbox.

(** C9.  For a request-line box, the comma-separated components that do
    not parse as a number are dropped before the component count is
    checked: the box is treated as the structured box of the components
    that parse.  So ["1,2,3,4,x"] is accepted as the four-element box
    1, 2, 3, 4, and four components of which exactly one does not parse
    are rejected with the component-count error. *)
Theorem extractBbox_drops_non_numeric {engine : Engine} :
  (forall (params : obj) (tokens : list string),
      tokens <> [] ->
      Forall (fun t => Str.free_of "," t = true) tokens ->
      Str.join "," tokens <> "" ->
      get params "bbox" = VStr (Str.join "," tokens) ->
      extractBbox params (VStr "GET") =
        extractBbox
          [("bbox", VArr (map (fun t => VNum (parseFloat t)) (filter numeric tokens)))]
          (VStr "POST"))
  /\ (forall params : obj,
        get params "bbox" = VStr "1,2,3,4,x" ->
        extractBbox params (VStr "GET") =
          Ok (spec_bbox_polygon (VNum (num_of_Z 1)) (VNum (num_of_Z 2))
                (VNum (num_of_Z 3)) (VNum (num_of_Z 4))))
  /\ (forall (params : obj) (tokens : list string),
        List.length tokens = 4%nat ->
        Forall (fun t => Str.free_of "," t = true) tokens ->
        List.length (filter numeric tokens) = 3%nat ->
        get params "bbox" = VStr (Str.join "," tokens) ->
        extractBbox params (VStr "GET") = Throw bbox_count_error).
Proof.
  split; [|split].
  - intros params tokens Hne Hfree Hs Hget.
    rewrite (extractBbox_string params _ Hget Hs).
    now rewrite parse_bbox_tokens.
  - intros params Hget. unfold extractBbox. rewrite Hget. reflexivity.
  - intros params tokens Hlen Hfree Hnum Hget.
    assert (Hne : tokens <> []) by (intros ->; discriminate Hlen).
    assert (Hs : Str.join "," tokens <> "").
    { destruct tokens as [|a [|b rest]]; try discriminate Hlen.
      change (Str.join "," (a :: b :: rest))
        with (a ++ String "," (Str.join "," (b :: rest))).
      destruct a; discriminate. }
    rewrite (extractBbox_string params _ Hget Hs).
    rewrite parse_bbox_tokens by assumption.
    apply (extractBbox_count _
             (map (fun t => VNum (parseFloat t)) (filter numeric tokens)));
      [reflexivity| |]; rewrite length_map, Hnum; discriminate.
Qed.

(** [extractBbox_drops_non_numeric] on ["1,2,3,4,x"] and on ["1,2,x,4"]. *)
Lemma extractBbox_drops_non_numeric_witness :
  @extractBbox example_engine [("bbox", VStr "1,2,3,4,x")] (VStr "GET") =
    @extractBbox example_engine
      [("bbox", VArr (map (fun t => VNum (parseFloat t)) ["1"; "2"; "3"; "4"]))]
      (VStr "POST")
  /\ @extractBbox example_engine [("bbox", VStr "1,2,3,4,x")] (VStr "GET") =
       Ok (spec_bbox_polygon (VNum (num_of_Z 1)) (VNum (num_of_Z 2))
             (VNum (num_of_Z 3)) (VNum (num_of_Z 4)))
  /\ @extractBbox example_engine [("bbox", VStr "1,2,x,4")] (VStr "GET") =
       Throw bbox_count_error.
Proof.
  destruct (@extractBbox_drops_non_numeric example_engine) as (Hdrop & Hfive & Hfour).
  split; [|split].
  - apply (Hdrop [("bbox", VStr "1,2,3,4,x")] ["1"; "2"; "3"; "4"; "x"]);
      [discriminate|repeat constructor|discriminate|reflexivity].
  - apply Hfive. reflexivity.
  - apply (Hfour [("bbox", VStr "1,2,x,4")] ["1"; "2"; "x"; "4"]);
      [reflexivity|repeat constructor|reflexivity|reflexivity].
Defined.

(** C6, the six-element box.  On the structured box
    [0, 0, 100, 10, 10, 200] (west 0, south 0, east 10, north 10, with
    elevations 100 and 200), which passes the latitude check,
    [extractBbox] returns the ring built from components 0, 1, 2, 3: its
    east is the minimum elevation 100 and its north is the east bound 10.
    The polygon of the specification has east 10 and north 10. *)
Theorem extractBbox_six_elements {engine : Engine} :
  let n (z : Z) := VNum (num_of_Z z) in
  let box := [n 0; n 0; n 100; n 10; n 10; n 200] in
  extractBbox [("bbox", VArr box)] (VStr "POST") =
    Ok (spec_bbox_polygon (n 0) (n 0) (n 100) (n 10))
  /\ spec_polygon_of_bbox box = Some (spec_bbox_polygon (n 0) (n 0) (n 10) (n 10))
  /\ spec_bbox_polygon (n 0) (n 0) (n 100) (n 10)
     <> spec_bbox_polygon (n 0) (n 0) (n 10) (n 10).
Proof.
  cbv zeta. split; [reflexivity|split; [reflexivity|discriminate]].
Qed.

(** For every six-element box of numbers that passes the latitude check
    the result is the ring of components 0, 1, 2, 3. *)
Lemma six_element_ring {engine : Engine} (params : obj) (w s z1 e n z2 : number) :
  get params "bbox" = VArr [VNum w; VNum s; VNum z1; VNum e; VNum n; VNum z2] ->
  num_le s n = true ->
  extractBbox params (VStr "POST") =
    Ok (spec_bbox_polygon (VNum w) (VNum s) (VNum z1) (VNum e)).
Proof.
  intros Hget Hle. unfold extractBbox. rewrite Hget. simpl.
  now rewrite (num_le_not_gt _ _ Hle).
Qed.

(* ================================================================== *)
(** * What the response assembly can throw *)
(* ================================================================== *)

Lemma only_TypeError_Ok {A : Type} (a : A) : only_TypeError (Ok a).
Proof. exact I. Qed.

Lemma only_TypeError_bind {A B : Type} (r : completion A) (k : A -> completion B) :
  only_TypeError r ->
  (forall a, only_TypeError (k a)) ->
  only_TypeError (rbind r k).
Proof. destruct r as [a|e]; simpl; auto. Qed.

Create HintDb throws.
#[local] Hint Resolve only_TypeError_Ok : throws.

Ltac throws :=
  first
    [ solve [auto with throws]
    | apply only_TypeError_bind; [throws|intros ?; throws]
    | match goal with
      | |- only_TypeError (if ?b then _ else _) => destruct b; throws
      | |- only_TypeError (Throw TypeError) => reflexivity
      end ].

Section Throws.
Context {engine : Engine}.

Lemma get_prop_throws (v : value) (k : string) : only_TypeError (get_prop v k).
Proof.
  destruct v; simpl; try exact I; try reflexivity.
  destruct (String.eqb k "length"); [exact I|].
  destruct (find _ _); exact I.
Qed.
#[local] Hint Resolve get_prop_throws : throws.

Lemma addItemLinks_step_throws (endpoint : string) (result : obj) :
  only_TypeError (addItemLinks_step endpoint result).
Proof.
  unfold addItemLinks_step. destruct (get result "links"); simpl; auto.
Qed.
#[local] Hint Resolve addItemLinks_step_throws : throws.

Lemma addItemLinks_throws (results : list obj) (endpoint : string) :
  only_TypeError (addItemLinks results endpoint).
Proof.
  induction results as [|r rest IH]; cbn [addItemLinks]; throws.
Qed.

Lemma sortFields_of_throws (rules : list value) : only_TypeError (sortFields_of rules).
Proof.
  induction rules as [|r rest IH]; cbn [sortFields_of]; throws.
Qed.
#[local] Hint Resolve sortFields_of_throws : throws.

Lemma sortFields_obj_throws (fuel i : nat) (o : obj) :
  only_TypeError (sortFields_obj fuel i o).
Proof.
  revert i. induction fuel as [|fuel IH]; intros i; cbn [sortFields_obj]; throws.
Qed.
#[local] Hint Resolve sortFields_obj_throws : throws.

Lemma dictToURI_value_throws (p : string) (v : value) :
  only_TypeError (dictToURI_value p v).
Proof.
  unfold dictToURI_value. destruct v; throws.
Qed.
#[local] Hint Resolve dictToURI_value_throws : throws.

Lemma dictToURI_pairs_throws (dict : obj) : only_TypeError (dictToURI_pairs dict).
Proof.
  induction dict as [|[p v] rest IH]; cbn [dictToURI_pairs]; throws.
Qed.
#[local] Hint Resolve dictToURI_pairs_throws : throws.

Lemma buildPaginationLinks_throws (limit : value) (parameters : obj)
    (bbox intersects : value) (endpoint : string) (httpMethod sortby : value)
    (items : list obj) :
  only_TypeError (buildPaginationLinks limit parameters bbox intersects endpoint
                    httpMethod sortby items).
Proof.
  unfold buildPaginationLinks, dictToURI. destruct (rev items); throws.
Qed.

Lemma wrapResponseInFeatureCollection_throws (context : value)
    (features links : list value) :
  only_TypeError (wrapResponseInFeatureCollection context features links).
Proof. unfold wrapResponseInFeatureCollection. throws. Qed.

Lemma agg_buckets_throws (dataType : string) (buckets : list value) :
  only_TypeError (agg_buckets dataType buckets).
Proof.
  induction buckets as [|b rest IH]; cbn [agg_buckets]; throws.
Qed.
#[local] Hint Resolve agg_buckets_throws : throws.

Lemma iterate_throws (v : value) : only_TypeError (iterate v).
Proof. destruct v; simpl; auto. Qed.
#[local] Hint Resolve iterate_throws : throws.

Lemma agg_throws (esAggs : value) (name dataType : string) :
  only_TypeError (agg esAggs name dataType).
Proof. unfold agg. throws. Qed.
#[local] Hint Resolve agg_throws : throws.

Lemma metric_throws (esAggs : value) (name dataType field : string) :
  only_TypeError (metric esAggs name dataType field).
Proof. unfold metric. throws. Qed.
#[local] Hint Resolve metric_throws : throws.

Lemma aggs_throws (esAggs : value) (names : list (string * string)) :
  only_TypeError (aggs esAggs names).
Proof.
  induction names as [|[name dataType] rest IH]; cbn [aggs]; throws.
Qed.
#[local] Hint Resolve aggs_throws : throws.

Lemma aggregate_document_throws (esResponse : value) (endpoint : string) :
  only_TypeError (aggregate_document esResponse endpoint).
Proof. unfold aggregate_document. throws. Qed.

End Throws.

(* ================================================================== *)
(** * The shape of a run *)
(* ================================================================== *)

Section Runs.
Context {engine : Engine} {luxon : Luxon} {backend : Backend}.

(** A run of [searchItems] either throws before the backend is called, or
    calls the backend once and then assembles the response from the
    settled promise. *)
Lemma searchItems_run (collectionId : value) (queryParameters : obj)
    (endpoint : string) (httpMethod : value) :
  (exists e, run (searchItems collectionId queryParameters endpoint httpMethod)
             = (Throw e, []))
  \/ (exists (searchParams : obj) (sortby page limit : value),
         extractSortby queryParameters = Ok sortby
         /\ extractLimit queryParameters = Ok limit
         /\ run (searchItems collectionId queryParameters endpoint httpMethod)
            = (search_respond collectionId endpoint httpMethod limit searchParams
                 (get queryParameters "bbox") (get queryParameters "intersects")
                 sortby (search (VObj searchParams) page limit),
               [CallSearch (VObj searchParams) page limit])).
Proof.
  unfold run, searchItems.
  destruct (truthy (get queryParameters "bbox")
            && truthy (get queryParameters "intersects")); [left; eexists; reflexivity|].
  unfold bind, lift.
  destruct (extractDatetime queryParameters) as [datetime|]; [|left; eexists; reflexivity].
  destruct (extractBbox queryParameters httpMethod) as [bboxGeometry|]; [|left; eexists; reflexivity].
  destruct (extractIntersects queryParameters) as [intersectsGeometry|]; [|left; eexists; reflexivity].
  destruct (extractSortby queryParameters) as [sortby|]; [|left; eexists; reflexivity].
  destruct (extractStacQuery queryParameters) as [query|]; [|left; eexists; reflexivity].
  destruct (extractFields queryParameters) as [fields|]; [|left; eexists; reflexivity].
  destruct (extractIds queryParameters) as [ids|]; [|left; eexists; reflexivity].
  destruct (extractCollectionIds queryParameters) as [collections|]; [|left; eexists; reflexivity].
  destruct (extractLimit queryParameters) as [limit|]; [|left; eexists; reflexivity].
  destruct (extractPage queryParameters) as [page|]; [|left; eexists; reflexivity].
  right.
  exists (search_params collectionId datetime
            (if truthy intersectsGeometry then intersectsGeometry else bboxGeometry)
            query sortby fields ids collections (get queryParameters "next")),
    sortby, page, limit.
  split; [reflexivity|split; [reflexivity|]].
  unfold await_search, search_respond, search_params, search_endpoint, ret, throw, rbind.
  cbn [app].
  destruct (search _ page limit) as [r|error].
  - destruct (buildPaginationLinks _ _ _ _ _ _ _ _); [|reflexivity].
    destruct (addItemLinks _ _); reflexivity.
  - destruct (isIndexNotFoundError error); [|reflexivity].
    cbn [results context].
    destruct (buildPaginationLinks _ _ _ _ _ _ _ _); [|reflexivity].
    destruct (addItemLinks _ _); reflexivity.
Qed.

(** The same for [aggregate]. *)
Lemma aggregate_run (queryParameters : obj) (endpoint : string) (httpMethod : value) :
  (exists e, run (aggregate queryParameters endpoint httpMethod) = (Throw e, []))
  \/ (exists searchParams : obj,
         run (aggregate queryParameters endpoint httpMethod)
         = (aggregate_respond endpoint (aggregate_backend (VObj searchParams)),
            [CallAggregate (VObj searchParams)])).
Proof.
  unfold run, aggregate.
  destruct (truthy (get queryParameters "bbox")
            && truthy (get queryParameters "intersects")); [left; eexists; reflexivity|].
  unfold bind, lift.
  destruct (extractDatetime queryParameters) as [datetime|]; [|left; eexists; reflexivity].
  destruct (extractBbox queryParameters httpMethod) as [bboxGeometry|]; [|left; eexists; reflexivity].
  destruct (extractIntersects queryParameters) as [intersectsGeometry|]; [|left; eexists; reflexivity].
  destruct (extractStacQuery queryParameters) as [query|]; [|left; eexists; reflexivity].
  destruct (extractIds queryParameters) as [ids|]; [|left; eexists; reflexivity].
  destruct (extractCollectionIds queryParameters) as [collections|]; [|left; eexists; reflexivity].
  right.
  exists (pickBy [("datetime", datetime);
                  ("intersects",
                   if truthy intersectsGeometry then intersectsGeometry
                   else bboxGeometry);
                  ("query", query); ("ids", ids); ("collections", collections)]).
  unfold await_aggregate, aggregate_respond, ret, throw, rbind.
  cbn [app].
  destruct (aggregate_backend _) as [r|error]; [reflexivity|].
  destruct (isIndexNotFoundError error); reflexivity.
Qed.

End Runs.

(* ================================================================== *)
(** * Validation comes before the backend *)
(* ================================================================== *)

Section Validation.
Context {engine : Engine} {luxon : Luxon} {backend : Backend}.

Lemma search_respond_thrown (collectionId : value) (endpoint : string)
    (httpMethod limit : value) (searchParams : obj) (bbox intersects sortby : value)
    (reply : settled search_response) :
  thrown_after_call (search_respond collectionId endpoint httpMethod limit
                       searchParams bbox intersects sortby reply).
Proof.
  unfold search_respond.
  set (esResponse := match reply with Resolved r => Ok r | RejectedWith _ => _ end).
  assert (Hreply : thrown_after_call esResponse).
  { subst esResponse. destruct reply as [r|error]; [exact I|].
    destruct (isIndexNotFoundError error); [exact I|]. right. eauto. }
  destruct esResponse as [r|e]; [|exact Hreply]. cbn [rbind].
  pose proof (buildPaginationLinks_throws limit searchParams bbox intersects
                (search_endpoint collectionId endpoint) httpMethod sortby (results r))
    as Hlinks.
  destruct (buildPaginationLinks _ _ _ _ _ _ _ _) as [paginationLinks|e];
    [|left; exact Hlinks]. cbn [rbind].
  pose proof (addItemLinks_throws (results r) endpoint) as Hitems.
  destruct (addItemLinks _ _) as [items|e]; [|left; exact Hitems]. cbn [rbind].
  match goal with
  | |- thrown_after_call ?w =>
      pose proof (wrapResponseInFeatureCollection_throws (context r) (map VObj items)
                    (if truthy collectionId
                     then (paginationLinks
                             ++ [link3 "self" "application/json"
                                   (search_endpoint collectionId endpoint);
                                 link3 "root" "application/geo+json" endpoint])%list
                     else paginationLinks)) as Hwrap;
      destruct w as [response|e]; [exact I|left; exact Hwrap]
  end.
Qed.

Lemma aggregate_respond_thrown (endpoint : string) (reply : settled value) :
  thrown_after_call (aggregate_respond endpoint reply).
Proof.
  unfold aggregate_respond.
  destruct reply as [r|error]; cbn [rbind].
  - pose proof (aggregate_document_throws r endpoint) as H.
    destruct (aggregate_document r endpoint); [exact I|left; exact H].
  - destruct (isIndexNotFoundError error); cbn [rbind]; [|right; eauto].
    pose proof (aggregate_document_throws (VObj []) endpoint) as H.
    destruct (aggregate_document (VObj []) endpoint); [exact I|left; exact H].
Qed.

End Validation.

(** C5.  A search or aggregate request whose [bbox] and [intersects] are
    both supplied (both truthy) fails with the validation error "Expected
    bbox OR intersects, not both", whatever the two values are, and the
    backend is not called.  More generally, whenever [searchItems] or
    [aggregate] ends with a validation error, no call has reached the
    backend. *)
Theorem validation_precedes_backend
    {engine : Engine} {luxon : Luxon} {backend : Backend} :
  (forall (collectionId : value) (queryParameters : obj) (endpoint : string)
          (httpMethod : value),
      truthy (get queryParameters "bbox") = true ->
      truthy (get queryParameters "intersects") = true ->
      run (searchItems collectionId queryParameters endpoint httpMethod)
        = (Throw not_both_error, [])
      /\ run (aggregate queryParameters endpoint httpMethod)
         = (Throw not_both_error, []))
  /\ (forall (collectionId : value) (queryParameters : obj) (endpoint : string)
             (httpMethod : value) (msg : string) (trace : list call),
        run (searchItems collectionId queryParameters endpoint httpMethod)
          = (Throw (ValidationError msg), trace) ->
        trace = [])
  /\ (forall (queryParameters : obj) (endpoint : string) (httpMethod : value)
             (msg : string) (trace : list call),
        run (aggregate queryParameters endpoint httpMethod)
          = (Throw (ValidationError msg), trace) ->
        trace = []).
Proof.
  split; [|split].
  - intros collectionId queryParameters endpoint httpMethod Hbbox Hintersects.
    unfold run, searchItems, aggregate. rewrite Hbbox, Hintersects. split; reflexivity.
  - intros collectionId queryParameters endpoint httpMethod msg trace Hrun.
    destruct (searchItems_run collectionId queryParameters endpoint httpMethod)
      as [[e He] | (searchParams & sortby & page & limit & _ & _ & Hcall)].
    + rewrite He in Hrun. now inversion Hrun.
    + rewrite Hcall in Hrun. inversion Hrun as [[Hthrown Htrace]].
      pose proof (search_respond_thrown collectionId endpoint httpMethod limit
                    searchParams (get queryParameters "bbox")
                    (get queryParameters "intersects") sortby
                    (search (VObj searchParams) page limit)) as H.
      rewrite Hthrown in H. destruct H as [H | [rejection H]]; discriminate H.
  - intros queryParameters endpoint httpMethod msg trace Hrun.
    destruct (aggregate_run queryParameters endpoint httpMethod)
      as [[e He] | (searchParams & Hcall)].
    + rewrite He in Hrun. now inversion Hrun.
    + rewrite Hcall in Hrun. inversion Hrun as [[Hthrown Htrace]].
      pose proof (aggregate_respond_thrown endpoint
                    (aggregate_backend (VObj searchParams))) as H.
      rewrite Hthrown in H. destruct H as [H | [rejection H]]; discriminate H.
Qed.

(** [validation_precedes_backend] against a backend that would answer: on
    a request with a valid box and an [intersects] string, on a search
    with a bad limit and on an aggregation with a bad datetime. *)
Lemma validation_precedes_backend_witness :
  (run (@searchItems example_engine example_luxon (page_backend [])
          VUndefined both_supplied "http://localhost" (VStr "GET"))
     = (Throw not_both_error, [])
   /\ run (@aggregate example_engine example_luxon (page_backend [])
             both_supplied "http://localhost" (VStr "GET"))
      = (Throw not_both_error, []))
  /\ snd (run (@searchItems example_engine example_luxon (page_backend [])
                 VUndefined [("limit", VStr "0")] "http://localhost" (VStr "GET")))
     = []
  /\ snd (run (@aggregate example_engine example_luxon (page_backend [])
                 [("datetime", VStr "yesterday")] "http://localhost" (VStr "GET")))
     = [].
Proof.
  destruct (@validation_precedes_backend example_engine example_luxon (page_backend []))
    as (Hboth & Hsearch & Haggregate).
  split; [|split].
  - apply Hboth; reflexivity.
  - apply (Hsearch VUndefined [("limit", VStr "0")] "http://localhost" (VStr "GET")
             "Invalid limit value, must be a number between 1 and 10000 inclusive").
    reflexivity.
  - apply (Haggregate [("datetime", VStr "yesterday")] "http://localhost" (VStr "GET")
             "datetime value is invalid, does not match RFC3339 format").
    reflexivity.
Defined.

(* ================================================================== *)
(** * A missing index *)
(* ================================================================== *)

Section MissingIndex.
Context {engine : Engine} {luxon : Luxon} {backend : Backend}.

(** [searchItems] turns a missing index into the document of an empty
    page: once the request has passed the extraction, a rejection that
    [isIndexNotFoundError] recognises gives a response whose context
    reports matched = 0 and returned = 0, with no feature and no
    pagination link. *)
Lemma searchItems_index_missing (collectionId : value) (queryParameters : obj)
    (endpoint : string) (httpMethod : value) :
  (forall searchParams page limit, exists rejection,
      search searchParams page limit = RejectedWith rejection
      /\ isIndexNotFoundError rejection = true) ->
  (exists e, run (searchItems collectionId queryParameters endpoint httpMethod)
             = (Throw e, []))
  \/ (exists (response searchParams page limit : value),
         run (searchItems collectionId queryParameters endpoint httpMethod)
           = (Ok response, [CallSearch searchParams page limit])
         /\ response_field "context" response
            = VObj [("matched", VNum (num_of_Z 0)); ("returned", VNum (num_of_Z 0));
                    ("limit", limit)]
         /\ response_field "numberMatched" response = VNum (num_of_Z 0)
         /\ response_field "numberReturned" response = VNum (num_of_Z 0)
         /\ response_field "features" response = VArr []
         /\ response_field "links" response
            = if truthy collectionId then
                VArr [link3 "self" "application/json"
                        (search_endpoint collectionId endpoint);
                      link3 "root" "application/geo+json" endpoint]
              else VArr []).
Proof.
  intros Hmissing.
  destruct (searchItems_run collectionId queryParameters endpoint httpMethod)
    as [Hthrow | (searchParams & sortby & page & limit & _ & _ & Hcall)];
    [left; exact Hthrow|right].
  destruct (Hmissing (VObj searchParams) page limit) as (rejection & Hreply & Hkind).
  rewrite Hreply in Hcall. unfold search_respond in Hcall. rewrite Hkind in Hcall.
  cbn in Hcall.
  eexists; exists (VObj searchParams), page, limit.
  split; [exact Hcall|].
  destruct (truthy collectionId); repeat split; reflexivity.
Qed.

(** [aggregate] does not: the empty object that stands for the missing
    response has no [body], and reading [aggregations] from it throws. *)
Lemma aggregate_respond_index_missing (endpoint : string) (rejection : value) :
  isIndexNotFoundError rejection = true ->
  aggregate_respond endpoint (RejectedWith rejection) = Throw TypeError.
Proof.
  intros Hkind. unfold aggregate_respond. rewrite Hkind. reflexivity.
Qed.

Lemma aggregate_index_missing_throws (queryParameters : obj) (endpoint : string)
    (httpMethod : value) :
  (forall searchParams, exists rejection,
      aggregate_backend searchParams = RejectedWith rejection
      /\ isIndexNotFoundError rejection = true) ->
  exists e trace, run (aggregate queryParameters endpoint httpMethod) = (Throw e, trace).
Proof.
  intros Hmissing.
  destruct (aggregate_run queryParameters endpoint httpMethod)
    as [[e He] | (searchParams & Hcall)]; [eauto|].
  destruct (Hmissing (VObj searchParams)) as (rejection & Hreply & Hkind).
  rewrite Hreply, (aggregate_respond_index_missing _ _ Hkind) in Hcall. eauto.
Qed.

End MissingIndex.

(** C2, the aggregate operation.  Against a backend whose index is
    missing, an aggregate request without any filter reaches the backend
    and then ends with a [TypeError]; the same search returns the document
    of an empty page, with matched = 0 and returned = 0. *)
Theorem aggregate_throws_on_missing_index {engine : Engine} {luxon : Luxon} :
  run (@aggregate engine luxon empty_backend [] "http://localhost" (VStr "GET"))
    = (Throw TypeError, [CallAggregate (VObj [])])
  /\ exists response,
       run (@searchItems engine luxon empty_backend VUndefined [] "http://localhost"
              (VStr "GET"))
         = (Ok response, [CallSearch (VObj []) VUndefined VUndefined])
       /\ response_field "context" response
          = VObj [("matched", VNum (num_of_Z 0)); ("returned", VNum (num_of_Z 0));
                  ("limit", VUndefined)].
Proof.
  split; [reflexivity|].
  eexists. split; [cbv; reflexivity|reflexivity].
Qed.

(* ================================================================== *)
(** * Item links *)
(* ================================================================== *)

Section ItemLinks.
Context {engine : Engine}.

(** On a record with a [links] array the decoration puts the self link
    first and appends parent, collection, root and thumbnail, in that
    order. *)
Lemma addItemLinks_step_with_links (endpoint : string) (result : obj) (l : list value) :
  get result "links" = VArr l ->
  exists decorated,
    addItemLinks_step endpoint result = Ok decorated
    /\ get decorated "links"
       = VArr (item_self_link endpoint result :: l ++ item_appended_links endpoint result)
    /\ (l = [] -> link_rels decorated = map VStr item_link_rels).
Proof.
  intros Hlinks. unfold addItemLinks_step. rewrite Hlinks. cbn [rbind].
  eexists. split; [reflexivity|].
  assert (Hget : forall x (o : obj),
             get (set (set o "links" x) "type" (VStr "Feature")) "links" = x).
  { intros x o. rewrite get_set_other by reflexivity. apply get_set_same. }
  split; [apply Hget|].
  intros ->. unfold link_rels. rewrite Hget. reflexivity.
Qed.

(** On a record without one, the links go to an array that the record
    never receives. *)
Lemma addItemLinks_step_without_links (endpoint : string) (result : obj) :
  get result "links" = VUndefined ->
  addItemLinks_step endpoint result = Ok (set result "type" (VStr "Feature"))
  /\ get (set result "type" (VStr "Feature")) "links" = VUndefined.
Proof.
  intros Hlinks. unfold addItemLinks_step. rewrite Hlinks. cbn [rbind].
  split; [reflexivity|]. now rewrite get_set_other by reflexivity.
Qed.

(** The decoration of collections stores the fresh array. *)
Lemma addCollectionLinks_step_without_links (endpoint : string) (result : obj) :
  get result "links" = VUndefined ->
  exists decorated,
    addCollectionLinks_step endpoint result = Ok decorated
    /\ link_rels decorated = [VStr "self"; VStr "parent"; VStr "root"; VStr "items"].
Proof.
  intros Hlinks. unfold addCollectionLinks_step. rewrite Hlinks.
  eexists. split; [reflexivity|]. unfold link_rels. now rewrite get_set_same.
Qed.

Lemma addItemLinks_step_type (endpoint : string) (result decorated : obj) :
  addItemLinks_step endpoint result = Ok decorated ->
  get decorated "type" = VStr "Feature".
Proof.
  unfold addItemLinks_step.
  destruct (get result "links"); cbn [rbind]; intros H; inversion H; apply get_set_same.
Qed.

Lemma addItemLinks_type (results decorated : list obj) (endpoint : string) :
  addItemLinks results endpoint = Ok decorated ->
  Forall (fun it => get it "type" = VStr "Feature") decorated.
Proof.
  revert decorated. induction results as [|r rest IH]; cbn [addItemLinks]; intros decorated H.
  - inversion H. constructor.
  - destruct (addItemLinks_step endpoint r) as [r'|] eqn:Hstep; [|discriminate].
    cbn [rbind] in H.
    destruct (addItemLinks rest endpoint) as [rest'|]; [|discriminate].
    cbn [rbind] in H. inversion H; subst. constructor.
    + eapply addItemLinks_step_type; eassumption.
    + now apply IH.
Qed.

(** The decoration goes through exactly when every [links] is an array or
    missing. *)
Lemma addItemLinks_succeeds (results : list obj) (endpoint : string) :
  Forall (fun it => match get it "links" with
                    | VUndefined | VArr _ => True
                    | _ => False
                    end) results ->
  exists decorated, addItemLinks results endpoint = Ok decorated.
Proof.
  induction 1 as [|r rest Hr _ [rest' IH]]; cbn [addItemLinks]; [eauto|].
  unfold addItemLinks_step.
  destruct (get r "links"); try contradiction; cbn [rbind]; rewrite IH; cbn [rbind]; eauto.
Qed.

End ItemLinks.

(** C7, the item without a [links] array.  Decorating the record
    [{id: "S2A_1", collection: "sentinel-2"}] returns it with its type set
    and nothing else: it has no [links], hence none of the self, parent,
    collection, root and thumbnail links, and this is the feature that
    [searchItems] returns.  The same record with an empty [links] array
    gets the five links in order. *)
Theorem addItemLinks_without_links :
  @addItemLinks example_engine [bare_item] "http://localhost"
    = Ok [[("id", VStr "S2A_1"); ("collection", VStr "sentinel-2");
           ("type", VStr "Feature")]]
  /\ (exists response trace,
         run (@searchItems example_engine example_luxon (page_backend [bare_item])
                VUndefined [] "http://localhost" (VStr "GET"))
           = (Ok response, trace)
         /\ response_field "features" response
            = VArr [VObj [("id", VStr "S2A_1"); ("collection", VStr "sentinel-2");
                          ("type", VStr "Feature")]])
  /\ (exists decorated,
         @addItemLinks example_engine [bare_item ++ [("links", VArr [])]]%list
           "http://localhost" = Ok [decorated]
         /\ link_rels decorated = map VStr item_link_rels).
Proof.
  split; [reflexivity|split].
  - eexists. eexists. split; [vm_compute; reflexivity|reflexivity].
  - eexists. split; [vm_compute; reflexivity|reflexivity].
Qed.

(* ================================================================== *)
(** * The type of a decorated item *)
(* ================================================================== *)

(** C10.  Every record that comes out of the item-link decoration has its
    [type] set to ["Feature"], whatever it held before; so has every
    feature of a response of [searchItems] and every item that [getItem]
    returns. *)
Theorem decorated_items_are_features
    {engine : Engine} {luxon : Luxon} {backend : Backend} :
  (forall (results decorated : list obj) (endpoint : string),
      addItemLinks results endpoint = Ok decorated ->
      Forall (fun it => get it "type" = VStr "Feature") decorated)
  /\ (forall (collectionId : value) (queryParameters : obj) (endpoint : string)
             (httpMethod response : value) (trace : list call),
        run (searchItems collectionId queryParameters endpoint httpMethod)
          = (Ok response, trace) ->
        exists items,
          response_field "features" response = VArr (map VObj items)
          /\ Forall (fun it => get it "type" = VStr "Feature") items)
  /\ (forall (collectionId itemId : value) (endpoint : string) (it : obj)
             (trace : list call),
        run (getItem collectionId itemId endpoint) = (Ok (Item it), trace) ->
        get it "type" = VStr "Feature").
Proof.
  split; [|split].
  - intros results decorated endpoint. apply addItemLinks_type.
  - intros collectionId queryParameters endpoint httpMethod response trace Hrun.
    destruct (searchItems_run collectionId queryParameters endpoint httpMethod)
      as [[e He] | (searchParams & sortby & page & limit & _ & _ & Hcall)].
    + rewrite He in Hrun. discriminate.
    + rewrite Hcall in Hrun. inversion Hrun as [[Hresponse Htrace]]. clear Hrun Hcall.
      unfold search_respond in Hresponse.
      destruct (match search (VObj searchParams) page limit with
                | Resolved r => Ok r
                | RejectedWith _ => _
                end) as [esResponse|]; [|discriminate].
      cbn [rbind] in Hresponse.
      destruct (buildPaginationLinks _ _ _ _ _ _ _ _) as [paginationLinks|];
        [|discriminate].
      cbn [rbind] in Hresponse.
      destruct (addItemLinks (results esResponse) endpoint) as [items|] eqn:Hitems;
        [|discriminate].
      cbn [rbind] in Hresponse. unfold wrapResponseInFeatureCollection in Hresponse.
      destruct (get_prop (context esResponse) "matched"); [|discriminate].
      cbn [rbind] in Hresponse.
      destruct (get_prop (context esResponse) "returned"); [|discriminate].
      cbn [rbind] in Hresponse. inversion Hresponse.
      exists items. split; [reflexivity|]. eapply addItemLinks_type; eassumption.
  - intros collectionId itemId endpoint it trace Hrun.
    unfold run, getItem, bind, await_search, lift, ret, throw in Hrun.
    destruct (search _ VUndefined VUndefined) as [response|]; [|discriminate].
    destruct (addItemLinks (results response) endpoint) as [decorated|] eqn:Hitems;
      [|discriminate].
    destruct decorated as [|first rest]; inversion Hrun; subst.
    pose proof (addItemLinks_type _ _ _ Hitems) as Hall. now inversion Hall.
Qed.

(** [decorated_items_are_features] on a record whose type was ["Item"]. *)
Lemma decorated_items_are_features_witness :
  (exists decorated,
      @addItemLinks example_engine [typed_item] "http://localhost" = Ok decorated
      /\ Forall (fun it => get it "type" = VStr "Feature") decorated)
  /\ (exists response items,
         fst (run (@searchItems example_engine example_luxon (page_backend [typed_item])
                     VUndefined [] "http://localhost" (VStr "GET")))
           = Ok response
         /\ response_field "features" response = VArr (map VObj items)
         /\ Forall (fun it => get it "type" = VStr "Feature") items)
  /\ (exists it,
         fst (run (@getItem example_engine (page_backend [typed_item])
                     (VStr "sentinel-2") (VStr "S2A_1") "http://localhost"))
           = Ok (Item it)
         /\ get it "type" = VStr "Feature").
Proof.
  destruct (@decorated_items_are_features example_engine example_luxon
              (page_backend [typed_item])) as (Hdecorate & Hsearch & Hitem).
  split; [|split].
  - eexists. split; [vm_compute; reflexivity|].
    apply (Hdecorate [typed_item] _ "http://localhost"). vm_compute. reflexivity.
  - eassert (Hrun : run (@searchItems example_engine example_luxon
                             (page_backend [typed_item])
                             VUndefined [] "http://localhost" (VStr "GET"))
                     = (Ok _, _)) by (vm_compute; reflexivity).
    destruct (Hsearch _ _ _ _ _ _ Hrun) as (items & Hfeatures & Hall).
    eexists. exists items. rewrite Hrun. split; [reflexivity|]. split; assumption.
  - eassert (Hrun : run (@getItem example_engine (page_backend [typed_item])
                             (VStr "sentinel-2") (VStr "S2A_1") "http://localhost")
                     = (Ok (Item _), _)) by (vm_compute; reflexivity).
    eexists. rewrite Hrun. split; [reflexivity|]. eapply Hitem. exact Hrun.
Defined.

(* ================================================================== *)
(** * Pagination links *)
(* ================================================================== *)

Section Pagination.
Context {engine : Engine}.

(** An empty page has no pagination link. *)
Lemma buildPaginationLinks_empty (limit : value) (parameters : obj)
    (bbox intersects : value) (endpoint : string) (httpMethod sortby : value) :
  buildPaginationLinks limit parameters bbox intersects endpoint httpMethod sortby []
    = Ok [].
Proof. reflexivity. Qed.

(** A page that is not empty has exactly one, and its relation is
    [next]. *)
Lemma buildPaginationLinks_one_link (limit : value) (parameters : obj)
    (bbox intersects : value) (endpoint : string) (httpMethod sortby : value)
    (items : list obj) (links : list value) :
  items <> [] ->
  buildPaginationLinks limit parameters bbox intersects endpoint httpMethod sortby items
    = Ok links ->
  exists link, links = [VObj link] /\ get link "rel" = VStr "next".
Proof.
  intros Hne. unfold buildPaginationLinks.
  destruct (rev items) as [|lastItem before] eqn:Hrev.
  { apply (f_equal (@rev obj)) in Hrev. rewrite rev_involutive in Hrev. contradiction. }
  destruct (is_str httpMethod "GET").
  - destruct (dictToURI _); cbn [rbind]; intros H; inversion H. eexists. split; reflexivity.
  - destruct (is_str httpMethod "POST"); intros H; inversion H;
      eexists; split; reflexivity.
Qed.

Lemma get_pickBy_set (o : obj) (k : string) (v : value) :
  truthy v = true -> get (pickBy (set o k v)) k = v.
Proof.
  intros Hv. induction o as [|[k' v'] rest IH]; simpl.
  - rewrite Hv. simpl. now rewrite String.eqb_refl.
  - destruct (String.eqb k' k) eqn:E; simpl.
    + rewrite Hv. simpl. now rewrite E.
    + destruct (truthy v'); simpl; [rewrite E|]; exact IH.
Qed.

(** Without a sort, the cursor is made of the values of the last item at
    [properties.datetime], [id] and [collection]; it is never empty, and
    it is the [next] of the body of the link. *)
Lemma default_cursor (limit : value) (parameters : obj) (bbox intersects : value)
    (endpoint : string) (before : list obj) (lastItem : obj) :
  next_cursor VUndefined lastItem = spec_cursor default_next_keys lastItem
  /\ exists link body,
       buildPaginationLinks limit parameters bbox intersects endpoint (VStr "POST")
         VUndefined (before ++ [lastItem])
         = Ok [VObj link]
       /\ get link "body" = VObj body
       /\ get body "next" = VStr (spec_cursor default_next_keys lastItem).
Proof.
  split; [reflexivity|].
  unfold buildPaginationLinks. rewrite rev_unit.
  change (is_str (VStr "POST") "GET") with false.
  change (is_str (VStr "POST") "POST") with true. cbv iota.
  eexists. eexists. split; [reflexivity|]. split; [apply get_set_same|].
  unfold assign. cbn [fold_left fst snd].
  apply get_pickBy_set.
  unfold spec_cursor, array_join, Str.join, default_next_keys.
  cbn [truthy map String.concat].
  destruct (join_elem (getNested lastItem "properties.datetime")); reflexivity.
Qed.

Lemma get_In (o : obj) (k : string) (v : value) :
  get o k = v -> v <> VUndefined -> In (k, v) o.
Proof.
  induction o as [|[k' v'] rest IH]; simpl; intros Hget Hv.
  - congruence.
  - destruct (String.eqb_spec k' k) as [-> | _]; [left; congruence|right; auto].
Qed.

Lemma dictToURI_pairs_In (dict : obj) (ps : list string) (k v : string) :
  dictToURI_pairs dict = Ok ps ->
  In (k, VStr v) dict ->
  In (encodeURIComponent k ++ "=" ++ encodeURIComponent v) ps.
Proof.
  revert ps. induction dict as [|[p x] rest IH]; intros ps Hps Hin; [contradiction|].
  cbn [dictToURI_pairs] in Hps.
  destruct (dictToURI_value p x) as [value|] eqn:Hvalue; [|discriminate].
  cbn [rbind] in Hps.
  destruct (dictToURI_pairs rest) as [qs|]; [|discriminate].
  cbn [rbind] in Hps. inversion Hps; subst.
  destruct Hin as [Hhead | Htail].
  - inversion Hhead; subst. cbn in Hvalue. inversion Hvalue; subst. now left.
  - right. now apply IH.
Qed.

(** On the request line, the same cursor is the [next] parameter of the
    link. *)
Lemma default_cursor_href (limit : value) (parameters : obj) (bbox intersects : value)
    (endpoint : string) (before : list obj) (lastItem : obj) (links : list value) :
  buildPaginationLinks limit parameters bbox intersects endpoint (VStr "GET")
    VUndefined (before ++ [lastItem]) = Ok links ->
  exists link ps,
    links = [VObj link]
    /\ get link "href" = VStr (endpoint ++ "?" ++ Str.join "&" ps)
    /\ In ("next=" ++ encodeURIComponent (spec_cursor default_next_keys lastItem)) ps.
Proof.
  unfold buildPaginationLinks. rewrite rev_unit.
  change (is_str (VStr "GET") "GET") with true. cbv iota.
  unfold dictToURI.
  destruct (dictToURI_pairs _) as [ps|] eqn:Hps; [|discriminate].
  cbn [rbind]. intros H. inversion H; subst.
  eexists. exists ps. split; [reflexivity|]. split; [reflexivity|].
  change "next" with (encodeURIComponent "next").
  apply (dictToURI_pairs_In _ _ "next" _ Hps).
  apply get_In; [|discriminate].
  unfold assign. cbn [fold_left fst snd].
  apply get_pickBy_set.
  unfold spec_cursor, array_join, Str.join, default_next_keys.
  cbn [truthy map String.concat].
  destruct (join_elem (getNested lastItem "properties.datetime")); reflexivity.
Qed.

(** With a sort, the keys of the cursor are the indices of the rules: the
    cursor of two lists of rules of the same length is the same, whatever
    their fields. *)
Lemma next_cursor_ignores_fields (rules rules' : list value) (lastItem : obj) :
  List.length rules = List.length rules' ->
  next_cursor (VArr rules) lastItem = next_cursor (VArr rules') lastItem.
Proof.
  intros Hlen. unfold next_cursor. cbn [truthy object_keys].
  unfold array_keys. now rewrite Hlen.
Qed.

End Pagination.

(** C1, the cursor under an explicit sort.  For the page whose last item
    has id 42, searched with the sort rules
    [[{field: "id", direction: "asc"}]], the cursor of the specification
    is ["42"].  The cursor that is computed is the empty string, which
    the link then drops: the body of the one [next] link holds the sort
    rules and no [next], and the request-line link is
    [/search?sortby=id]. *)
Theorem next_cursor_under_sort :
  @spec_cursor example_engine ["id"] item_42 = "42"
  /\ @next_cursor example_engine sort_by_id item_42 = ""
  /\ (exists response trace,
         run (@searchItems example_engine example_luxon (page_backend [item_42])
                VUndefined [("sortby", sort_by_id)] "http://localhost" (VStr "POST"))
           = (Ok response, trace)
         /\ response_field "links" response
            = VArr [VObj [("rel", VStr "next"); ("title", VStr "Next page of Items");
                          ("method", VStr "POST");
                          ("href", VStr "http://localhost/search");
                          ("merge", VBool false);
                          ("body", VObj [("sortby", sort_by_id)])]])
  /\ (exists response trace,
         run (@searchItems example_engine example_luxon (page_backend [item_42])
                VUndefined [("sortby", VStr "id")] "http://localhost" (VStr "GET"))
           = (Ok response, trace)
         /\ response_field "links" response
            = VArr [VObj [("rel", VStr "next"); ("title", VStr "Next page of Items");
                          ("method", VStr "GET");
                          ("href", VStr "http://localhost/search?sortby=id")]]).
Proof.
  split; [reflexivity|split; [reflexivity|split]].
  - eexists. eexists. split; [vm_compute; reflexivity|reflexivity].
  - eexists. eexists. split; [vm_compute; reflexivity|reflexivity].
Qed.

(* ================================================================== *)
(** * extractDatetime *)
(* ================================================================== *)

Module RegexFacts.
Import Str.

Lemma eat_free (c : ascii) (s r : string) :
  eat c s = Some r -> Ascii.eqb c "/" = false ->
  free_of "/" r = true -> free_of "/" s = true.
Proof.
  destruct s as [|d rest]; [discriminate|]. cbn [eat].
  destruct (Ascii.eqb d c) eqn:E; [|discriminate].
  apply Ascii.eqb_eq in E. subst d. intros H Hc Hr. inversion H; subst.
  cbn [free_of]. now rewrite Hc, Hr.
Qed.

Lemma digit_not_slash (d : ascii) : is_digit d = true -> Ascii.eqb d "/" = false.
Proof.
  intros H. apply Ascii.eqb_neq. intros ->. discriminate H.
Qed.

Lemma eat_digits_free (n : nat) : forall s r : string,
  eat_digits n s = Some r -> free_of "/" r = true -> free_of "/" s = true.
Proof.
  induction n as [|n IH]; intros s r; cbn [eat_digits].
  - intros H Hr. now inversion H; subst.
  - destruct s as [|d rest]; [discriminate|].
    destruct (is_digit d) eqn:Hd; [|discriminate].
    intros H Hr. cbn [free_of]. rewrite (digit_not_slash d Hd). cbn [negb andb].
    eapply IH; eassumption.
Qed.

Lemma span_digits_free (s : string) : forall d r : string,
  span_digits s = (d, r) -> free_of "/" r = true -> free_of "/" s = true.
Proof.
  induction s as [|c rest IH]; intros d r; cbn [span_digits].
  - intros H Hr. reflexivity.
  - destruct (is_digit c) eqn:Hc.
    + destruct (span_digits rest) as [d' r'] eqn:Hspan.
      intros H Hr. inversion H; subst. cbn [free_of].
      rewrite (digit_not_slash c Hc). cbn [negb andb]. eapply IH; eauto.
    + intros H Hr. now inversion H; subst.
Qed.

Lemma zone_free (s : string) : rfc3339_zone s = true -> free_of "/" s = true.
Proof.
  unfold rfc3339_zone. destruct s as [|c rest]; [discriminate|].
  destruct (Ascii.eqb c "-" || Ascii.eqb c "+") eqn:Hsign.
  - assert (Hc : Ascii.eqb c "/" = false).
    { apply orb_true_iff in Hsign as [H | H];
        apply Ascii.eqb_eq in H; subst c; reflexivity. }
    assert (Hgoal :
              match obind (obind (eat_digits 2 rest) (eat ":")) (eat_digits 2) with
              | Some EmptyString => true
              | _ => false
              end = true -> free_of "/" (String c rest) = true).
    { destruct (eat_digits 2 rest) as [r1|] eqn:H1; [|discriminate].
      cbn [obind]. destruct (eat ":" r1) as [r2|] eqn:H2; [|discriminate].
      cbn [obind]. destruct (eat_digits 2 r2) as [r3|] eqn:H3; [|discriminate].
      destruct r3; [|discriminate]. intros _.
      cbn [free_of]. rewrite Hc. cbn [negb andb].
      eapply eat_digits_free; [eassumption|].
      eapply eat_free; [eassumption|reflexivity|].
      eapply eat_digits_free; [eassumption|reflexivity]. }
    destruct c as [[] [] [] [] [] [] [] []]; try discriminate Hsign; exact Hgoal.
  - destruct c as [[] [] [] [] [] [] [] []]; try discriminate.
    destruct rest; [reflexivity|discriminate].
Qed.

(** A string that matches [RFC3339_REGEX] holds no [/]. *)
Lemma regex_free (s : string) :
  RFC3339_REGEX_test s = true -> free_of "/" s = true.
Proof.
  unfold RFC3339_REGEX_test.
  repeat match goal with
         | |- context [obind (Some ?x) ?f] => change (obind (Some x) f) with (f x)
         | |- context [obind (eat_digits ?n ?x) _] =>
             let r := fresh "r" in
             let H := fresh "H" in
             destruct (eat_digits n x) as [r|] eqn:H; [|discriminate];
             cbn [obind];
             enough (free_of "/" r = true -> free_of "/" x = true);
             [|intros; eapply eat_digits_free; eassumption]
         | |- context [obind (eat ?c ?x) _] =>
             let r := fresh "r" in
             let H := fresh "H" in
             destruct (eat c x) as [r|] eqn:H; [|discriminate];
             cbn [obind];
             enough (free_of "/" r = true -> free_of "/" x = true);
             [|intros; eapply eat_free; [eassumption|reflexivity|assumption]]
         end.
  destruct (eat_digits 2 r8) as [tail|] eqn:Htail; [|discriminate].
  intros Hzone.
  assert (Hfree : free_of "/" tail = true).
  { destruct tail as [|c frac]; [discriminate Hzone|].
    assert (Hplain : rfc3339_zone (String c frac) = true ->
                     free_of "/" (String c frac) = true) by apply zone_free.
    destruct (Ascii.eqb c ".") eqn:Hdot.
    - apply Ascii.eqb_eq in Hdot. subst c.
      destruct (span_digits frac) as [d rest] eqn:Hspan.
      apply andb_true_iff in Hzone as [_ Hzone].
      cbn [free_of]. change (Ascii.eqb "." "/") with false. cbn [negb andb].
      eapply span_digits_free; [eassumption|]. now apply zone_free.
    - apply Hplain.
      destruct c as [[] [] [] [] [] [] [] []]; try discriminate Hdot; exact Hzone. }
  pose proof (eat_digits_free _ _ _ Htail Hfree). auto 20.
Qed.

Lemma regex_closed (s : string) :
  RFC3339_REGEX_test s = true ->
  String.eqb s "" = false /\ String.eqb s ".." = false.
Proof.
  intros H. split; apply String.eqb_neq; intros ->; discriminate H.
Qed.

End RegexFacts.

Section Datetime.
Context {engine : Engine} {luxon : Luxon}.

Lemma rfc3339ToDateTime_closed (t : string) :
  closed_timestamp t -> rfc3339ToDateTime t = Ok (fromISO t).
Proof.
  intros [Hregex Hvalid]. unfold rfc3339ToDateTime. now rewrite Hregex, Hvalid.
Qed.

Lemma closed_end_closed (t : string) :
  closed_timestamp t -> closed_end (Some t) = Ok (Some (fromISO t)).
Proof.
  intros Hc. pose proof (rfc3339ToDateTime_closed t Hc) as Hdt.
  destruct Hc as [Hregex _].
  destruct (RegexFacts.regex_closed t Hregex) as [Hempty Hdots].
  unfold closed_end. now rewrite Hempty, Hdots, Hdt.
Qed.

Lemma append_not_empty (a b : string) (c : ascii) :
  String.eqb (a ++ String c b) "" = false.
Proof. destruct a; reflexivity. Qed.

(** The two ends of an interval whose ends hold no [/]. *)
Lemma split_interval (a b : string) :
  Str.free_of "/" a = true -> Str.free_of "/" b = true ->
  Str.split "/" (a ++ "/" ++ b) = [a; b].
Proof.
  intros Ha Hb. change (a ++ "/" ++ b) with (a ++ String "/" b).
  now rewrite StrFacts.split_app, StrFacts.split_free.
Qed.

End Datetime.

(** C3.  For an interval [start/end] whose two ends, once uppercased, are
    closed timestamps with the end earlier than the start,
    [extractDatetime] fails with a validation error.  For an interval with
    [..] at one end and a closed timestamp at the other, it succeeds, the
    [..] end is left open (no [DateTime] is read from it) and the result
    is the uppercased parameter. *)
Theorem extractDatetime_interval {engine : Engine} {luxon : Luxon} :
  (forall (params : obj) (s e : string),
      get params "datetime" = VStr (s ++ "/" ++ e) ->
      closed_timestamp (Str.toUpperCase s) ->
      closed_timestamp (Str.toUpperCase e) ->
      num_lt (valueOf (fromISO (Str.toUpperCase e)))
             (valueOf (fromISO (Str.toUpperCase s))) = true ->
      extractDatetime params = Throw interval_order_error)
  /\ (forall (params : obj) (s : string),
        get params "datetime" = VStr (s ++ "/..") ->
        closed_timestamp (Str.toUpperCase s) ->
        extractDatetime params = Ok (VStr (Str.toUpperCase (s ++ "/..")))
        /\ closed_end (Some "..") = Ok None)
  /\ (forall (params : obj) (e : string),
        get params "datetime" = VStr ("../" ++ e) ->
        closed_timestamp (Str.toUpperCase e) ->
        extractDatetime params = Ok (VStr (Str.toUpperCase ("../" ++ e)))
        /\ closed_end (Some "..") = Ok None).
Proof.
  split; [|split].
  - intros params s e Hget Hs He Hlt.
    pose proof (closed_end_closed _ Hs) as Hstart.
    pose proof (closed_end_closed _ He) as Hend.
    destruct Hs as [Hsr _]. destruct He as [Her _].
    destruct (RegexFacts.regex_closed _ Hsr) as [Hs0 Hs1].
    unfold extractDatetime. rewrite Hget. cbn [truthy].
    change (s ++ "/" ++ e) with (s ++ String "/" e) at 1.
    rewrite append_not_empty. cbn [negb].
    rewrite StrFacts.toUpperCase_app.
    change (Str.toUpperCase ("/" ++ e)) with ("/" ++ Str.toUpperCase e).
    rewrite split_interval by now apply RegexFacts.regex_free.
    cbn [nth_error skipn List.length Nat.eqb negb absent is_dots].
    rewrite Hs0, Hs1. cbn [andb orb].
    rewrite Hstart. cbn [rbind]. rewrite Hend. cbn [rbind].
    unfold validateStartAndEndDatetimes. now rewrite Hlt.
  - intros params s Hget Hs. split; [|reflexivity].
    pose proof (closed_end_closed _ Hs) as Hstart.
    destruct Hs as [Hsr _].
    destruct (RegexFacts.regex_closed _ Hsr) as [Hs0 Hs1].
    unfold extractDatetime. rewrite Hget. cbn [truthy].
    change (s ++ "/..") with (s ++ String "/" "..") at 1.
    rewrite append_not_empty. cbn [negb].
    rewrite StrFacts.toUpperCase_app.
    change (Str.toUpperCase "/..") with ("/" ++ "..").
    rewrite split_interval by (try reflexivity; now apply RegexFacts.regex_free).
    cbn [nth_error skipn List.length Nat.eqb negb absent is_dots].
    rewrite Hs0, Hs1. cbn [andb orb String.eqb Ascii.eqb Bool.eqb].
    rewrite Hstart. reflexivity.
  - intros params e Hget He. split; [|reflexivity].
    pose proof (closed_end_closed _ He) as Hend.
    destruct He as [Her _].
    destruct (RegexFacts.regex_closed _ Her) as [He0 He1].
    unfold extractDatetime. rewrite Hget. cbn [truthy].
    change (String.eqb ("../" ++ e) "") with false. cbn [negb].
    change (Str.toUpperCase ("../" ++ e)) with (".." ++ "/" ++ Str.toUpperCase e).
    rewrite split_interval by (try reflexivity; now apply RegexFacts.regex_free).
    cbn [nth_error skipn List.length Nat.eqb negb absent is_dots].
    rewrite He0, He1. cbn [andb orb String.eqb Ascii.eqb Bool.eqb].
    rewrite Hend. reflexivity.
Qed.

(** [extractDatetime_interval] with the example calendar: an interval
    that runs backwards, and the two half-open intervals from and until
    the first of January 2020. *)
Lemma extractDatetime_interval_witness :
  @extractDatetime example_engine example_luxon
    [("datetime", VStr "2020-01-02t00:00:00z/2020-01-01T23:59:59+01:00")]
    = Throw interval_order_error
  /\ @extractDatetime example_engine example_luxon
       [("datetime", VStr "2020-01-01t00:00:00z/..")]
     = Ok (VStr "2020-01-01T00:00:00Z/..")
  /\ @extractDatetime example_engine example_luxon
       [("datetime", VStr "../2020-01-01T00:00:00.5-03:00")]
     = Ok (VStr "../2020-01-01T00:00:00.5-03:00").
Proof.
  destruct (@extractDatetime_interval example_engine example_luxon)
    as (Hbackwards & Hfrom & Huntil).
  split; [|split].
  - apply (Hbackwards _ "2020-01-02t00:00:00z" "2020-01-01T23:59:59+01:00");
      [reflexivity|split; reflexivity|split; reflexivity|reflexivity].
  - apply (Hfrom [("datetime", VStr "2020-01-01t00:00:00z/..")] "2020-01-01t00:00:00z");
      [reflexivity|split; reflexivity].
  - apply (Huntil [("datetime", VStr "../2020-01-01T00:00:00.5-03:00")]
             "2020-01-01T00:00:00.5-03:00");
      [reflexivity|split; reflexivity].
Defined.

(* ================================================================== *)
(** * More on strings *)
(* ================================================================== *)

Module SplitFacts.
Import Str.

(** Joining the pieces of a split gives the string back. *)
Lemma join_split (sep : ascii) (s : string) :
  join (String sep EmptyString) (split sep s) = s.
Proof.
  induction s as [|c rest IH]; [reflexivity|].
  cbn [split]. destruct (Ascii.eqb_spec c sep) as [-> | Hc].
  - pose proof (StrFacts.split_nonempty sep rest) as Hne.
    destruct (split sep rest) as [|h t] eqn:Hs; [contradiction|].
    change (join (String sep "") ("" :: h :: t))
      with (String sep (join (String sep "") (h :: t))).
    now rewrite IH.
  - pose proof (StrFacts.split_nonempty sep rest) as Hne.
    destruct (split sep rest) as [|h [|h' t]] eqn:Hs; [contradiction| |].
    + cbn in IH |- *. now rewrite IH.
    + change (join (String sep "") (String c h :: h' :: t))
        with (String c (join (String sep "") (h :: h' :: t))).
      now rewrite IH.
Qed.

(** A split has one piece more than the string has separators. *)
Lemma split_length (sep : ascii) (s : string) :
  List.length (split sep s) = S (count_char sep s).
Proof.
  induction s as [|c rest IH]; [reflexivity|].
  cbn [split count_char]. destruct (Ascii.eqb c sep); cbn [List.length Nat.add].
  - now rewrite IH.
  - pose proof (StrFacts.split_nonempty sep rest) as Hne.
    destruct (split sep rest) as [|h t]; [contradiction|]. exact IH.
Qed.

(** No piece of a split holds the separator. *)
Lemma split_pieces_free (sep : ascii) (s : string) :
  Forall (fun t => free_of sep t = true) (split sep s).
Proof.
  induction s as [|c rest IH]; [repeat constructor|].
  cbn [split]. destruct (Ascii.eqb c sep) eqn:Hc.
  - constructor; [reflexivity|exact IH].
  - destruct (split sep rest) as [|h t]; [repeat constructor; cbn; now rewrite Hc|].
    inversion IH; subst. constructor; [|assumption].
    cbn [free_of]. now rewrite Hc.
Qed.

Lemma upper_char_idempotent (c : ascii) : upper_char (upper_char c) = upper_char c.
Proof. destruct c as [[] [] [] [] [] [] [] []]; reflexivity. Qed.

Lemma toUpperCase_idempotent (s : string) :
  toUpperCase (toUpperCase s) = toUpperCase s.
Proof.
  induction s as [|c rest IH]; [reflexivity|].
  cbn [toUpperCase]. now rewrite upper_char_idempotent, IH.
Qed.

Lemma upper_char_slash (c : ascii) :
  Ascii.eqb (upper_char c) "/" = Ascii.eqb c "/".
Proof. destruct c as [[] [] [] [] [] [] [] []]; reflexivity. Qed.

Lemma count_slash_toUpperCase (s : string) :
  count_char "/" (toUpperCase s) = count_char "/" s.
Proof.
  induction s as [|c rest IH]; [reflexivity|].
  cbn [toUpperCase count_char]. now rewrite upper_char_slash, IH.
Qed.

Lemma toUpperCase_empty (s : string) :
  String.eqb (toUpperCase s) "" = String.eqb s "".
Proof. destruct s; reflexivity. Qed.

End SplitFacts.

(* ================================================================== *)
(** * More on extractDatetime *)
(* ================================================================== *)

Section DatetimeMore.
Context {engine : Engine} {luxon : Luxon}.

(** The parameter is read through its uppercase form only. *)
Lemma extractDatetime_uppercase (params params' : obj) (d : string) :
  get params "datetime" = VStr d ->
  get params' "datetime" = VStr (Str.toUpperCase d) ->
  extractDatetime params' = extractDatetime params.
Proof.
  intros Hget Hget'. unfold extractDatetime. rewrite Hget, Hget'. cbn [truthy].
  now rewrite SplitFacts.toUpperCase_empty, SplitFacts.toUpperCase_idempotent.
Qed.

(** A string that is returned is the uppercase form of the parameter. *)
Lemma extractDatetime_result (params : obj) (d u : string) :
  get params "datetime" = VStr d ->
  extractDatetime params = Ok (VStr u) ->
  u = Str.toUpperCase d.
Proof.
  intros Hget. unfold extractDatetime. rewrite Hget. cbn [truthy].
  destruct (negb (String.eqb d "")); [|discriminate].
  destruct (negb _); [discriminate|].
  destruct (_ || _); [discriminate|].
  destruct (closed_end _); [|discriminate]. cbn [rbind].
  destruct (closed_end _); [|discriminate]. cbn [rbind].
  destruct (validateStartAndEndDatetimes _ _); [|discriminate]. cbn [rbind].
  intros H. now inversion H.
Qed.

Lemma count_not_empty (d : string) :
  (1 <= count_char "/" d)%nat -> String.eqb d "" = false.
Proof. destruct d; [cbn; lia|reflexivity]. Qed.

End DatetimeMore.

(** X1.  A [datetime] parameter with two or more [/] fails with the
    validation error "too many forward slashes", whatever stands between
    the slashes. *)
Theorem extractDatetime_too_many_slashes {engine : Engine} {luxon : Luxon}
    (params : obj) (d : string) :
  get params "datetime" = VStr d ->
  (2 <= count_char "/" d)%nat ->
  extractDatetime params = Throw too_many_slashes_error.
Proof.
  intros Hget Hcount. unfold extractDatetime. rewrite Hget. cbn [truthy].
  rewrite count_not_empty by lia. cbn [negb].
  pose proof (SplitFacts.split_length "/" (Str.toUpperCase d)) as Hlen.
  rewrite SplitFacts.count_slash_toUpperCase in Hlen.
  assert (Hrest : (List.length (skipn 2 (Str.split "/" (Str.toUpperCase d))) =? 0)%nat
                  = false).
  { apply Nat.eqb_neq. rewrite length_skipn. lia. }
  now rewrite Hrest.
Qed.

Lemma extractDatetime_too_many_slashes_witness :
  @extractDatetime example_engine example_luxon
    [("datetime", VStr "2020-01-01T00:00:00Z/2020-01-02T00:00:00Z/..")]
  = Throw too_many_slashes_error.
Proof.
  apply (@extractDatetime_too_many_slashes example_engine example_luxon _
           "2020-01-01T00:00:00Z/2020-01-02T00:00:00Z/..");
    [reflexivity|cbn; lia].
Defined.

(** X2.  Extraction is stable on its own result: the string that
    [extractDatetime] returns for a request is returned unchanged when it
    is the [datetime] of another request, as on the following page. *)
Theorem extractDatetime_stable {engine : Engine} {luxon : Luxon}
    (params params' : obj) (d u : string) :
  get params "datetime" = VStr d ->
  extractDatetime params = Ok (VStr u) ->
  get params' "datetime" = VStr u ->
  extractDatetime params' = Ok (VStr u).
Proof.
  intros Hget Hres Hget'.
  pose proof (extractDatetime_result _ _ _ Hget Hres) as Hu. subst u.
  now rewrite (extractDatetime_uppercase params params' d Hget Hget').
Qed.

Lemma extractDatetime_stable_witness :
  @extractDatetime example_engine example_luxon
    [("next", VStr "a,b"); ("datetime", VStr "2020-01-01T00:00:00Z/..")]
  = Ok (VStr "2020-01-01T00:00:00Z/..").
Proof.
  apply (@extractDatetime_stable example_engine example_luxon
           [("datetime", VStr "2020-01-01t00:00:00z/..")] _
           "2020-01-01t00:00:00z/.." "2020-01-01T00:00:00Z/..");
    reflexivity.
Defined.

(** X3.  A single closed timestamp is accepted, and so is an interval of
    two closed timestamps whose end is not earlier than its start; the
    result is the uppercased parameter. *)
Theorem extractDatetime_accepts {engine : Engine} {luxon : Luxon} :
  (forall (params : obj) (s : string),
      get params "datetime" = VStr s ->
      closed_timestamp (Str.toUpperCase s) ->
      extractDatetime params = Ok (VStr (Str.toUpperCase s)))
  /\ (forall (params : obj) (s e : string),
        get params "datetime" = VStr (s ++ "/" ++ e) ->
        closed_timestamp (Str.toUpperCase s) ->
        closed_timestamp (Str.toUpperCase e) ->
        num_lt (valueOf (fromISO (Str.toUpperCase e)))
               (valueOf (fromISO (Str.toUpperCase s))) = false ->
        extractDatetime params = Ok (VStr (Str.toUpperCase (s ++ "/" ++ e)))).
Proof.
  split.
  - intros params s Hget Hs.
    pose proof (closed_end_closed _ Hs) as Hstart.
    destruct Hs as [Hsr _].
    destruct (RegexFacts.regex_closed _ Hsr) as [Hs0 Hs1].
    unfold extractDatetime. rewrite Hget. cbn [truthy].
    rewrite <- SplitFacts.toUpperCase_empty, Hs0. cbn [negb].
    rewrite StrFacts.split_free by now apply RegexFacts.regex_free.
    cbn [nth_error skipn List.length Nat.eqb negb absent is_dots].
    rewrite Hs0, Hs1. cbn [andb orb].
    rewrite Hstart. reflexivity.
  - intros params s e Hget Hs He Hlt.
    pose proof (closed_end_closed _ Hs) as Hstart.
    pose proof (closed_end_closed _ He) as Hend.
    destruct Hs as [Hsr _]. destruct He as [Her _].
    destruct (RegexFacts.regex_closed _ Hsr) as [Hs0 Hs1].
    unfold extractDatetime. rewrite Hget. cbn [truthy].
    change (s ++ "/" ++ e) with (s ++ String "/" e) at 1.
    rewrite append_not_empty. cbn [negb].
    rewrite StrFacts.toUpperCase_app.
    change (Str.toUpperCase ("/" ++ e)) with ("/" ++ Str.toUpperCase e).
    rewrite split_interval by now apply RegexFacts.regex_free.
    cbn [nth_error skipn List.length Nat.eqb negb absent is_dots].
    rewrite Hs0, Hs1. cbn [andb orb].
    rewrite Hstart. cbn [rbind]. rewrite Hend. cbn [rbind].
    unfold validateStartAndEndDatetimes. now rewrite Hlt.
Qed.

Lemma extractDatetime_accepts_witness :
  @extractDatetime example_engine example_luxon
    [("datetime", VStr "2020-02-29t12:00:00.25z")]
    = Ok (VStr "2020-02-29T12:00:00.25Z")
  /\ @extractDatetime example_engine example_luxon
       [("datetime", VStr "2020-01-01T00:00:00Z/2020-01-01T00:00:00Z")]
     = Ok (VStr "2020-01-01T00:00:00Z/2020-01-01T00:00:00Z").
Proof.
  destruct (@extractDatetime_accepts example_engine example_luxon) as [Hone Htwo].
  split.
  - apply (Hone _ "2020-02-29t12:00:00.25z"); [reflexivity|split; reflexivity].
  - apply (Htwo _ "2020-01-01T00:00:00Z" "2020-01-01T00:00:00Z");
      [reflexivity|split; reflexivity|split; reflexivity|reflexivity].
Defined.

(* ================================================================== *)
(** * extractPage *)
(* ================================================================== *)

(** X4.  [extractPage] has no upper bound: the decimal form of every
    integer from 1 to 2^53 is returned as that number, and the decimal
    form of an integer at most 0 fails with a validation error; so does
    every supplied value that [parseInt] reads as NaN, and a request
    without the parameter gives [undefined]. *)
Theorem extractPage_unbounded {engine : Engine} (params : obj) :
  (forall n : Z,
      n <= 2 ^ 53 ->
      get params "page" = VStr (Str.of_Z n) ->
      extractPage params =
        if n <=? 0 then Throw page_error else Ok (VNum (num_of_Z n)))
  /\ (get params "page" <> VUndefined ->
      num_isNaN (parseInt (ToString (get params "page"))) = true ->
      extractPage params = Throw page_error)
  /\ (has_own params "page" = false -> extractPage params = Ok VUndefined).
Proof.
  split; [|split].
  - intros n _ Hget. unfold extractPage. rewrite Hget. cbn [is_undefined negb ToString].
    rewrite parseInt_of_Z, num_le_of_Z. cbn [num_isNaN num_of_Z orb].
    destruct (n <=? 0); reflexivity.
  - intros Hsupplied Hnan. unfold extractPage.
    destruct (get params "page"); try contradiction; cbn [is_undefined negb];
      now rewrite Hnan.
  - intros Hown. unfold extractPage. now rewrite (get_absent _ _ Hown).
Qed.

Lemma extractPage_unbounded_witness :
  @extractPage example_engine [("page", VStr "20000")] = Ok (VNum (num_of_Z 20000))
  /\ @extractPage example_engine [("page", VStr "-1")] = Throw page_error
  /\ @extractPage example_engine [("page", VStr "two")] = Throw page_error
  /\ @extractPage example_engine [("limit", VStr "5")] = Ok VUndefined.
Proof.
  split; [|split; [|split]].
  - apply (@extractPage_unbounded example_engine [("page", VStr "20000")]) with (n := 20000);
      [lia|reflexivity].
  - apply (@extractPage_unbounded example_engine [("page", VStr "-1")]) with (n := -1);
      [lia|reflexivity].
  - apply (@extractPage_unbounded example_engine [("page", VStr "two")]);
      [discriminate|reflexivity].
  - apply (@extractPage_unbounded example_engine [("limit", VStr "5")]). reflexivity.
Defined.

(* ================================================================== *)
(** * extractSortby and the sort of the next link *)
(* ================================================================== *)

Section Sortby.
Context {engine : Engine}.

Lemma sortFields_of_rules (rs : list (string * bool)) :
  sortFields_of (map rule_of rs) = Ok (map (fun r => VStr (rule_token r)) rs).
Proof.
  induction rs as [|[f d] rest IH]; [reflexivity|].
  cbn [map sortFields_of]. unfold rule_of at 1 2, sort_rule. cbn [fst snd get_prop].
  cbn [get String.eqb Ascii.eqb Bool.eqb rbind].
  rewrite IH. cbn [rbind]. destruct d; reflexivity.
Qed.

Lemma array_join_strings (l : list string) :
  array_join (map VStr l) = Str.join "," l.
Proof.
  unfold array_join. rewrite map_map. cbn [join_elem ToString]. now rewrite map_id.
Qed.

Lemma rule_token_free (r : string * bool) :
  plain_field (fst r) = true -> Str.free_of "," (rule_token r) = true.
Proof.
  unfold plain_field, rule_token. intros H.
  apply andb_true_iff in H as [_ Hfree].
  destruct (snd r); [cbn; exact Hfree|exact Hfree].
Qed.

Lemma rule_token_parses (r : string * bool) :
  plain_field (fst r) = true ->
  (if Str.first_is "-" (rule_token r) then sort_rule (Str.slice1 (rule_token r)) "desc"
   else if Str.first_is "+" (rule_token r) then sort_rule (Str.slice1 (rule_token r)) "asc"
        else sort_rule (rule_token r) "asc") = rule_of r.
Proof.
  unfold plain_field, rule_token, rule_of. destruct r as [f d]. cbn [fst snd].
  intros H. apply andb_true_iff in H as [H _].
  apply andb_true_iff in H as [H Hplus]. apply andb_true_iff in H as [_ Hminus].
  apply negb_true_iff in Hplus. apply negb_true_iff in Hminus.
  destruct d; [reflexivity|]. now rewrite Hminus, Hplus.
Qed.

Lemma join_tokens_not_empty (rs : list (string * bool)) :
  rs <> [] ->
  Forall (fun r => plain_field (fst r) = true) rs ->
  String.eqb (Str.join "," (map rule_token rs)) "" = false.
Proof.
  intros Hne Hall. destruct rs as [|[f d] rest]; [contradiction|].
  inversion Hall as [|? ? Hf _]; subst. cbn [fst] in Hf.
  unfold plain_field in Hf.
  apply andb_true_iff in Hf as [Hf _]. apply andb_true_iff in Hf as [Hf _].
  apply andb_true_iff in Hf as [Hf _]. apply negb_true_iff in Hf.
  cbn [map]. unfold rule_token at 1. cbn [fst snd].
  destruct rest as [|r rest'].
  - cbn. destruct d; [reflexivity|exact Hf].
  - change (Str.join "," ((if d then "-" ++ f else f) :: map rule_token (r :: rest')))
      with ((if d then "-" ++ f else f)
              ++ String "," (Str.join "," (map rule_token (r :: rest')))).
    apply append_not_empty.
Qed.

End Sortby.

(** X5.  The sort survives the next link.  For a list of rules that is
    not empty and whose fields are plain (not empty, no leading sign, no
    comma), the request-line form that the next link gives the rules,
    [field] for ascending and [-field] for descending, joined with commas,
    is read back by [extractSortby] as the same rules in the same
    order. *)
Theorem sortby_round_trip {engine : Engine} (rs : list (string * bool)) (params : obj) :
  rs <> [] ->
  Forall (fun r => plain_field (fst r) = true) rs ->
  dictToURI_value "sortby" (VArr (map rule_of rs))
    = Ok (Str.join "," (map rule_token rs))
  /\ (get params "sortby" = VStr (Str.join "," (map rule_token rs)) ->
      extractSortby params = Ok (VArr (map rule_of rs))).
Proof.
  intros Hne Hall. split.
  - unfold dictToURI_value. cbn [String.eqb Ascii.eqb Bool.eqb].
    rewrite sortFields_of_rules. cbn [rbind].
    now rewrite <- (map_map rule_token VStr), array_join_strings.
  - intros Hget. unfold extractSortby. rewrite Hget. cbn [truthy].
    rewrite join_tokens_not_empty by assumption. cbn [negb].
    rewrite StrFacts.split_join.
    + rewrite map_map. do 2 f_equal.
      clear Hne Hget. induction Hall as [|r rest Hr _ IH]; [reflexivity|].
      cbn [map]. now rewrite (rule_token_parses r Hr), IH.
    + destruct rs; [contradiction|discriminate].
    + clear Hne Hget. induction Hall as [|r rest Hr _ IH]; constructor;
        [now apply rule_token_free|exact IH].
Qed.

Lemma sortby_round_trip_witness :
  @dictToURI_value example_engine "sortby"
    (VArr [sort_rule "properties.datetime" "desc"; sort_rule "id" "asc"])
    = Ok "-properties.datetime,id"
  /\ extractSortby [("sortby", VStr "-properties.datetime,id")]
     = Ok (VArr [sort_rule "properties.datetime" "desc"; sort_rule "id" "asc"]).
Proof.
  destruct (@sortby_round_trip example_engine
              [("properties.datetime", true); ("id", false)]
              [("sortby", VStr "-properties.datetime,id")])
    as [Hwrite Hread]; [discriminate|repeat constructor|].
  split; [exact Hwrite|apply Hread; reflexivity].
Defined.

(* ================================================================== *)
(** * extractIntersects *)
(* ================================================================== *)

(** X6.  [extractIntersects] never returns a Feature or a
    FeatureCollection: what it returns for a supplied parameter has a
    [type] that is neither.  A string that does not parse fails with the
    validation error "Invalid GeoJSON geometry"; a Feature or
    FeatureCollection fails with a plain [Error], not a validation error;
    nothing else is thrown but a [TypeError]. *)
Theorem extractIntersects_geometry {engine : Engine} (params : obj) :
  (forall g : value,
      extractIntersects params = Ok g ->
      truthy (get params "intersects") = true ->
      exists t, get_prop g "type" = Ok t
                /\ is_str t "Feature" = false
                /\ is_str t "FeatureCollection" = false)
  /\ (forall e : error,
        extractIntersects params = Throw e ->
        e = invalid_geojson_error \/ e = not_a_geometry_error \/ e = TypeError)
  /\ (forall s : string,
        get params "intersects" = VStr s -> s <> "" -> JSON_parse s = None ->
        extractIntersects params = Throw invalid_geojson_error)
  /\ (forall o : obj,
        get params "intersects" = VObj o ->
        is_str (get o "type") "Feature" || is_str (get o "type") "FeatureCollection"
          = true ->
        extractIntersects params = Throw not_a_geometry_error).
Proof.
  split; [|split; [|split]].
  - intros g Hres Hsupplied. unfold extractIntersects in Hres. rewrite Hsupplied in Hres.
    destruct (match get params "intersects" with VStr _ => _ | _ => _ end)
      as [geojson|]; [|discriminate].
    cbn [rbind] in Hres.
    destruct (get_prop geojson "type") as [t|] eqn:Ht; [|discriminate].
    cbn [rbind] in Hres.
    destruct (is_str t "FeatureCollection") eqn:Hfc; [discriminate|].
    destruct (is_str t "Feature") eqn:Hf; [discriminate|].
    cbn [orb] in Hres. inversion Hres; subst. eauto.
  - intros e Hres. unfold extractIntersects in Hres.
    destruct (truthy (get params "intersects")); [|discriminate].
    destruct (get params "intersects") as [| | | |s| |];
      try (cbn [rbind] in Hres;
           match type of Hres with
           | context [get_prop ?g "type"] =>
               pose proof (get_prop_throws g "type") as Ht;
               destruct (get_prop g "type") as [t|]; cbn [rbind] in Hres;
               [destruct (_ || _); inversion Hres; auto
               |cbn in Ht; inversion Hres; subst; auto]
           end).
    destruct (JSON_parse s) as [geojson|]; cbn [rbind] in Hres;
      [|inversion Hres; auto].
    pose proof (get_prop_throws geojson "type") as Ht.
    destruct (get_prop geojson "type") as [t|]; cbn [rbind] in Hres;
      [destruct (_ || _); inversion Hres; auto
      |cbn in Ht; inversion Hres; subst; auto].
  - intros s Hget Hs Hparse. unfold extractIntersects. rewrite Hget. cbn [truthy].
    destruct (String.eqb_spec s ""); [contradiction|]. cbn [negb].
    now rewrite Hparse.
  - intros o Hget Hfeature. unfold extractIntersects. rewrite Hget.
    cbn [truthy spread rbind get_prop]. rewrite orb_comm in Hfeature.
    now rewrite Hfeature.
Qed.

Lemma extractIntersects_geometry_witness :
  (exists t, @get_prop example_engine
               (VObj [("type", VStr "Point"); ("coordinates", VArr [])]) "type"
             = Ok t
             /\ is_str t "Feature" = false /\ is_str t "FeatureCollection" = false)
  /\ @extractIntersects example_engine [("intersects", VStr "{")]
     = Throw invalid_geojson_error
  /\ @extractIntersects example_engine
       [("intersects", VObj [("type", VStr "Feature"); ("geometry", VNull)])]
     = Throw not_a_geometry_error.
Proof.
  split; [|split].
  - destruct (@extractIntersects_geometry example_engine
                [("intersects", VObj [("type", VStr "Point"); ("coordinates", VArr [])])])
      as (Hgeometry & _).
    apply Hgeometry; reflexivity.
  - destruct (@extractIntersects_geometry example_engine [("intersects", VStr "{")])
      as (_ & _ & Hparse & _).
    apply (Hparse "{"); [reflexivity|discriminate|reflexivity].
  - destruct (@extractIntersects_geometry example_engine
                [("intersects", VObj [("type", VStr "Feature"); ("geometry", VNull)])])
      as (_ & _ & _ & Hfeature).
    apply (Hfeature [("type", VStr "Feature"); ("geometry", VNull)]); reflexivity.
Defined.

(* ================================================================== *)
(** * parsePath *)
(* ================================================================== *)

Lemma path_components_slash (rest : string) :
  path_components (String "/" rest) = path_components rest.
Proof. reflexivity. Qed.

Lemma path_components_other (c : ascii) (rest : string) :
  Ascii.eqb c "/" = false -> path_components (String c rest) <> [].
Proof.
  intros Hc. unfold path_components. cbn [Str.split]. rewrite Hc.
  destruct (Str.split "/" rest); discriminate.
Qed.

Lemma path_components_empty (inpath : string) :
  (List.length (path_components inpath) =? 0)%nat = all_slashes inpath.
Proof.
  induction inpath as [|c rest IH]; [reflexivity|].
  cbn [all_slashes]. destruct (Ascii.eqb c "/") eqn:Hc.
  - apply Ascii.eqb_eq in Hc. subst c. now rewrite path_components_slash.
  - pose proof (path_components_other c rest Hc) as Hne.
    destruct (path_components (String c rest)); [contradiction|reflexivity].
Qed.

Lemma path_components_are_components (inpath : string) :
  Forall (fun c => is_component c = true) (path_components inpath).
Proof.
  unfold path_components.
  pose proof (SplitFacts.split_pieces_free "/" inpath) as Hfree.
  induction Hfree as [|c rest Hc _ IH]; [constructor|].
  cbn [filter]. destruct (String.eqb c "") eqn:He; cbn [negb]; [exact IH|].
  constructor; [|exact IH]. unfold is_component. now rewrite He, Hc.
Qed.

Lemma component_is_component (l : list string) (i : nat) :
  Forall (fun c => is_component c = true) l ->
  component l i = VUndefined
  \/ exists c, component l i = VStr c /\ is_component c = true.
Proof.
  intros Hall. unfold component.
  destruct (nth_error l i) as [c|] eqn:Hnth; [right|now left].
  exists c. split; [reflexivity|].
  rewrite Forall_forall in Hall. apply Hall. eapply nth_error_In; eassumption.
Qed.

Lemma component_defined (l : list string) (i : nat) :
  (S i <=? List.length l)%nat = true -> component l i <> VUndefined.
Proof.
  intros Hlen. apply Nat.leb_le in Hlen. unfold component.
  destruct (nth_error l i) eqn:Hnth; [discriminate|].
  apply nth_error_None in Hnth. lia.
Qed.

Lemma item_path_components (collection id : string) :
  is_component collection = true -> is_component id = true ->
  path_components (item_path collection id) = ["collections"; collection; "items"; id].
Proof.
  unfold is_component. intros Hc Hi.
  apply andb_true_iff in Hc as [Hc0 Hc]. apply andb_true_iff in Hi as [Hi0 Hi].
  apply negb_true_iff in Hc0. apply negb_true_iff in Hi0.
  unfold path_components.
  change (item_path collection id)
    with (Str.join "/" [""; "collections"; collection; "items"; id]).
  rewrite StrFacts.split_join; [|discriminate|repeat constructor; assumption].
  cbn [filter String.eqb negb]. now rewrite Hc0, Hi0.
Qed.

(** X7.  [parsePath] reports the root exactly when the path holds nothing
    but slashes (the empty path included), and then every other filter is
    [false]. *)
Theorem parsePath_root (inpath : string) :
  Path.root (parsePath inpath) = all_slashes inpath
  /\ (Path.root (parsePath inpath) = true ->
      parsePath inpath
      = {| Path.root := true; Path.api := false; Path.conformance := false;
           Path.collections := false; Path.search := false;
           Path.collectionId := VBool false; Path.items := false;
           Path.itemId := VBool false; Path.edit := false |}).
Proof.
  split; [apply path_components_empty|].
  unfold parsePath. cbn [Path.root]. intros Hroot.
  destruct (path_components inpath); [reflexivity|discriminate].
Qed.

Lemma parsePath_root_witness :
  parsePath "//"
  = {| Path.root := true; Path.api := false; Path.conformance := false;
       Path.collections := false; Path.search := false;
       Path.collectionId := VBool false; Path.items := false;
       Path.itemId := VBool false; Path.edit := false |}.
Proof. apply (parsePath_root "//"). reflexivity. Defined.

(** X8.  The path of an item's self link is read back: for a collection
    id and an item id that are path components (not empty, no slash),
    [parsePath] of [/collections/<collection>/items/<id>] reports the
    collection id and the item id, the [collections] and [items] filters,
    and nothing else. *)
Theorem parsePath_item_path (collection id : string) :
  is_component collection = true ->
  is_component id = true ->
  parsePath (item_path collection id)
  = {| Path.root := false; Path.api := false; Path.conformance := false;
       Path.collections := true; Path.search := false;
       Path.collectionId := VStr collection; Path.items := true;
       Path.itemId := VStr id; Path.edit := false |}.
Proof.
  intros Hc Hi. unfold parsePath. now rewrite item_path_components.
Qed.

Lemma parsePath_item_path_witness :
  parsePath "/collections/sentinel-2/items/S2A_1"
  = {| Path.root := false; Path.api := false; Path.conformance := false;
       Path.collections := true; Path.search := false;
       Path.collectionId := VStr "sentinel-2"; Path.items := true;
       Path.itemId := VStr "S2A_1"; Path.edit := false |}.
Proof. apply (parsePath_item_path "sentinel-2" "S2A_1"); reflexivity. Defined.

(** X9.  What [parsePath] reports is consistent.  A collection id is
    either [false] or a path component, and then the [collections] filter
    is set; an item id is either [false] or a path component, and then the
    [items] filter is set; and at most one of [api], [conformance],
    [collections] and [search] is set. *)
Theorem parsePath_consistent (inpath : string) :
  let f := parsePath inpath in
  (Path.collectionId f = VBool false
   \/ (Path.collections f = true
       /\ exists c, Path.collectionId f = VStr c /\ is_component c = true))
  /\ (Path.itemId f = VBool false
      \/ (Path.items f = true
          /\ exists i, Path.itemId f = VStr i /\ is_component i = true))
  /\ (List.length (filter (fun b : bool => b)
                     [Path.api f; Path.conformance f; Path.collections f;
                      Path.search f]) <= 1)%nat.
Proof.
  cbv zeta. unfold parsePath.
  cbn [Path.collectionId Path.collections Path.itemId Path.items Path.api
       Path.conformance Path.search].
  pose proof (path_components_are_components inpath) as Hall.
  set (pc := path_components inpath) in *.
  split; [|split].
  - destruct (component_is pc 0 "collections"); [|now left].
    destruct (2 <=? List.length pc)%nat eqn:Hlen; [|now left].
    right. split; [reflexivity|]. cbn [andb].
    destruct (component_is_component pc 1 Hall) as [Hu | Hc]; [|exact Hc].
    exfalso. exact (component_defined pc 1 Hlen Hu).
  - destruct (component_is pc 2 "items"); [|now left].
    destruct (4 <=? List.length pc)%nat eqn:Hlen; [|now left].
    right. split; [reflexivity|]. cbn [andb].
    destruct (component_is_component pc 3 Hall) as [Hu | Hc]; [|exact Hc].
    exfalso. exact (component_defined pc 3 Hlen Hu).
  - unfold component_is. destruct (nth_error pc 0) as [c|]; [|cbn; lia].
    destruct (String.eqb_spec c "api") as [-> | _]; [cbn; lia|].
    destruct (String.eqb_spec c "conformance") as [-> | _]; [cbn; lia|].
    destruct (String.eqb_spec c "collections") as [-> | _]; [cbn; lia|].
    destruct (String.eqb c "search"); cbn; lia.
Qed.

(* ================================================================== *)
(** * Collections and the catalog *)
(* ================================================================== *)

Section CollectionLinks.
Context {engine : Engine}.

Lemma addCollectionLinks_step_spec (endpoint : string) (result : obj) :
  collection_links_ok result ->
  exists decorated,
    addCollectionLinks_step endpoint result = Ok decorated
    /\ get decorated "links"
       = VArr (collection_self_link endpoint result
                :: old_links result ++ collection_appended_links endpoint result)
    /\ (forall k, String.eqb "links" k = false -> get decorated k = get result k).
Proof.
  unfold collection_links_ok, addCollectionLinks_step, old_links.
  destruct (get result "links"); try contradiction; intros _;
    (eexists; split; [reflexivity|]; split;
     [apply get_set_same|intros k Hk; now apply get_set_other]).
Qed.

Lemma addCollectionLinks_spec (results : list obj) (endpoint : string) :
  Forall collection_links_ok results ->
  exists decorated,
    addCollectionLinks results endpoint = Ok decorated
    /\ Forall2 (fun result d =>
                  get d "links"
                  = VArr (collection_self_link endpoint result
                           :: old_links result
                              ++ collection_appended_links endpoint result)
                  /\ (forall k, String.eqb "links" k = false ->
                                get d k = get result k))
         results decorated.
Proof.
  induction 1 as [|r rest Hr _ (rest' & Hrest & Hall)]; cbn [addCollectionLinks].
  - exists []. split; [reflexivity|constructor].
  - destruct (addCollectionLinks_step_spec endpoint r Hr) as (r' & Hstep & Hlinks & Hkeep).
    rewrite Hstep. cbn [rbind]. rewrite Hrest. cbn [rbind].
    exists (r' :: rest'). split; [reflexivity|]. constructor; auto.
Qed.

Lemma addCollectionLinks_length (results decorated : list obj) (endpoint : string) :
  addCollectionLinks results endpoint = Ok decorated ->
  List.length decorated = List.length results.
Proof.
  revert decorated. induction results as [|r rest IH]; cbn [addCollectionLinks];
    intros decorated H.
  - now inversion H.
  - destruct (addCollectionLinks_step endpoint r); [|discriminate]. cbn [rbind] in H.
    destruct (addCollectionLinks rest endpoint) as [rest'|]; [|discriminate].
    cbn [rbind] in H. inversion H; subst. cbn [List.length]. now rewrite (IH rest').
Qed.

Lemma addItemLinks_step_keeps (endpoint : string) (result decorated : obj) (k : string) :
  addItemLinks_step endpoint result = Ok decorated ->
  String.eqb "links" k = false -> String.eqb "type" k = false ->
  get decorated k = get result k.
Proof.
  unfold addItemLinks_step. intros H Hlinks Htype.
  destruct (get result "links"); cbn [rbind] in H; inversion H; subst;
    rewrite get_set_other by assumption; try reflexivity.
  now apply get_set_other.
Qed.

End CollectionLinks.

(** X10.  [addCollectionLinks] decorates every collection whose [links] is
    missing, [null] or an array: its links become the self link, then the
    links it had, then parent, root and items, in that order, and no other
    field of the record changes.  The records keep their number and
    order. *)
Theorem addCollectionLinks_decorates {engine : Engine}
    (results : list obj) (endpoint : string) :
  Forall collection_links_ok results ->
  exists decorated,
    addCollectionLinks results endpoint = Ok decorated
    /\ Forall2 (fun result d =>
                  get d "links"
                  = VArr (collection_self_link endpoint result
                           :: old_links result
                              ++ collection_appended_links endpoint result)
                  /\ (forall k, String.eqb "links" k = false ->
                                get d k = get result k))
         results decorated.
Proof. apply addCollectionLinks_spec. Qed.

Lemma addCollectionLinks_decorates_witness :
  exists decorated,
    @addCollectionLinks example_engine two_collections "http://localhost" = Ok decorated
    /\ map link_rels decorated
       = [[VStr "self"; VStr "parent"; VStr "root"; VStr "items"];
          [VStr "self"; VStr "license"; VStr "parent"; VStr "root"; VStr "items"]].
Proof.
  destruct (@addCollectionLinks_decorates example_engine two_collections
              "http://localhost") as (decorated & Hrun & _).
  - repeat constructor.
  - exists decorated. split; [exact Hrun|].
    vm_compute in Hrun. inversion Hrun. reflexivity.
Defined.

Lemma addItemLinks_step_keeps_all {engine : Engine}
    (results decorated : list obj) (endpoint : string) :
  addItemLinks results endpoint = Ok decorated ->
  Forall2 (fun result d =>
             forall k, String.eqb "links" k = false -> String.eqb "type" k = false ->
                       get d k = get result k)
    results decorated.
Proof.
  revert decorated. induction results as [|r rest IH]; cbn [addItemLinks];
    intros decorated H.
  - inversion H. constructor.
  - destruct (addItemLinks_step endpoint r) as [r'|] eqn:Hstep; [|discriminate].
    cbn [rbind] in H.
    destruct (addItemLinks rest endpoint) as [rest'|]; [|discriminate].
    cbn [rbind] in H. inversion H; subst. constructor; [|now apply IH].
    intros k Hl Ht. eapply addItemLinks_step_keeps; eassumption.
Qed.

(** X11.  [addItemLinks] changes nothing but [links] and [type]: every
    other field of every item, its id and its collection among them, is
    kept, and the items keep their number and order. *)
Theorem addItemLinks_keeps_fields {engine : Engine}
    (results decorated : list obj) (endpoint : string) :
  addItemLinks results endpoint = Ok decorated ->
  Forall2 (fun result d =>
             forall k, String.eqb "links" k = false -> String.eqb "type" k = false ->
                       get d k = get result k)
    results decorated.
Proof. apply addItemLinks_step_keeps_all. Qed.

Lemma addItemLinks_keeps_fields_witness :
  Forall2 (fun result d =>
             forall k, String.eqb "links" k = false -> String.eqb "type" k = false ->
                       get d k = get result k)
    [typed_item; bare_item]
    [[("type", VStr "Feature"); ("id", VStr "S2A_1"); ("collection", VStr "sentinel-2");
      ("links", VArr (@item_self_link example_engine "http://localhost" typed_item
                       :: @item_appended_links example_engine "http://localhost"
                            typed_item))];
     [("id", VStr "S2A_1"); ("collection", VStr "sentinel-2"); ("type", VStr "Feature")]].
Proof.
  apply (@addItemLinks_keeps_fields example_engine [typed_item; bare_item] _
           "http://localhost").
  reflexivity.
Defined.

Section Listing.
Context {engine : Engine} {store : CollectionStore}.

Lemma decorated_self_href (endpoint : string) (result d : obj) :
  get d "links"
  = VArr (collection_self_link endpoint result
           :: old_links result ++ collection_appended_links endpoint result) ->
  first_link_href d = link_href (child_link endpoint result).
Proof. intros Hlinks. unfold first_link_href. now rewrite Hlinks. Qed.

Lemma catalog_links_length (endpoint : string) :
  List.length (catalog_links endpoint)
  = if truthy (env "STAC_DOCS_URL") then 10%nat else 9%nat.
Proof. unfold catalog_links. destruct (truthy (env "STAC_DOCS_URL")); reflexivity. Qed.

End Listing.

(** X12.  The collections listing reports what it returns: when the
    backend resolves with collections that can be decorated,
    [getCollections] asks it for page 1 with [COLLECTION_LIMIT], lists as
    many collections as the backend gave, and its context has [matched]
    and [returned] both equal to that number. *)
Theorem getCollections_counts {engine : Engine} {store : CollectionStore}
    (endpoint : string) (results : list obj) :
  getCollections_backend (VNum (num_of_Z 1)) COLLECTION_LIMIT = Resolved results ->
  Forall collection_links_ok results ->
  exists listing decorated,
    getCollections endpoint = Ok listing
    /\ get listing "collections" = VArr (map VObj decorated)
    /\ List.length decorated = List.length results
    /\ get listing "context"
       = VObj [("page", VNum (num_of_Z 1)); ("limit", COLLECTION_LIMIT);
               ("matched", VNum (num_of_Z (Z.of_nat (List.length results))));
               ("returned", VNum (num_of_Z (Z.of_nat (List.length results))))].
Proof.
  intros Hreply Hok.
  destruct (addCollectionLinks_spec results endpoint Hok) as (decorated & Hrun & _).
  pose proof (addCollectionLinks_length _ _ _ Hrun) as Hlen.
  unfold getCollections. rewrite Hreply. cbn [await rbind]. rewrite Hrun. cbn [rbind].
  eexists. exists decorated. split; [reflexivity|]. split; [reflexivity|].
  split; [exact Hlen|]. cbn [get String.eqb Ascii.eqb Bool.eqb]. now rewrite Hlen.
Qed.

Lemma getCollections_counts_witness :
  exists listing decorated,
    @getCollections example_engine two_collections_store "http://localhost" = Ok listing
    /\ get listing "collections" = VArr (map VObj decorated)
    /\ List.length decorated = 2%nat
    /\ get listing "context"
       = VObj [("page", VNum (num_of_Z 1)); ("limit", VNum (num_of_Z 100));
               ("matched", VNum (num_of_Z 2)); ("returned", VNum (num_of_Z 2))].
Proof.
  destruct (@getCollections_counts example_engine two_collections_store
              "http://localhost" two_collections)
    as (listing & decorated & H); [reflexivity|repeat constructor|].
  exists listing, decorated. exact H.
Defined.

(** X13.  The catalog and the listing agree on where a collection is.
    When the backend resolves with collections that can be decorated, the
    links of the catalog are its fixed links (nine, or ten when
    [STAC_DOCS_URL] is set) followed by one child link per collection, in
    the order of the backend, and the [href] of each child link is the
    [href] of the self link that [getCollections] puts first on the same
    collection. *)
Theorem catalog_children_are_collections {engine : Engine} {store : CollectionStore}
    (txnEnabled : value) (endpoint : string) (results : list obj) :
  getCollections_backend (VNum (num_of_Z 1)) COLLECTION_LIMIT = Resolved results ->
  Forall collection_links_ok results ->
  exists catalog listing decorated,
    getCatalog txnEnabled endpoint = Ok catalog
    /\ getCollections endpoint = Ok listing
    /\ get listing "collections" = VArr (map VObj decorated)
    /\ firstn (if truthy (env "STAC_DOCS_URL") then 10 else 9)
         (match get catalog "links" with VArr l => l | _ => [] end)
       = catalog_links endpoint
    /\ map link_href
         (links_after (if truthy (env "STAC_DOCS_URL") then 10 else 9) catalog)
       = map first_link_href decorated.
Proof.
  intros Hreply Hok.
  destruct (addCollectionLinks_spec results endpoint Hok) as (decorated & Hrun & Hall).
  unfold getCatalog, getCollections. rewrite Hreply. cbn [await rbind].
  rewrite Hrun. cbn [rbind].
  eexists. eexists. exists decorated.
  split; [reflexivity|]. split; [reflexivity|]. split; [reflexivity|].
  unfold links_after.
  rewrite get_set_other by reflexivity. rewrite get_set_same.
  rewrite <- (catalog_links_length endpoint).
  split.
  - rewrite firstn_app, Nat.sub_diag, firstn_all. cbn [firstn]. apply app_nil_r.
  - rewrite skipn_app, Nat.sub_diag, skipn_all. cbn [skipn app].
    clear Hrun Hreply Hok. induction Hall as [|r d rest rest' [Hlinks _] _ IH];
      [reflexivity|].
    cbn [map]. now rewrite IH, (decorated_self_href endpoint r d Hlinks).
Qed.

Lemma catalog_children_are_collections_witness :
  exists catalog,
    @getCatalog example_engine two_collections_store VUndefined "http://localhost"
      = Ok catalog
    /\ map link_href (links_after 9 catalog)
       = [VStr "http://localhost/collections/sentinel-2";
          VStr "http://localhost/collections/landsat-8"].
Proof.
  destruct (@catalog_children_are_collections example_engine two_collections_store
              VUndefined "http://localhost" two_collections)
    as (catalog & listing & decorated & Hcatalog & Hlisting & Hdecorated & _ & Hchildren);
    [reflexivity|repeat constructor|].
  exists catalog. split; [exact Hcatalog|].
  vm_compute in Hlisting. inversion Hlisting; subst listing.
  cbn [get String.eqb Ascii.eqb Bool.eqb] in Hdecorated.
  destruct decorated as [|d1 [|d2 [|d3 rest]]]; try discriminate Hdecorated.
  inversion Hdecorated; subst. exact Hchildren.
Defined.

(** X14.  The transaction class is declared exactly when transactions are
    enabled: it is in the conformance list when [txnEnabled] is truthy and
    only then, it comes last, the fourteen other classes come first in
    both cases, and no class is declared twice. *)
Theorem getConformance_transaction (txnEnabled : value) :
  (In transaction_class (getConformance txnEnabled) <-> truthy txnEnabled = true)
  /\ firstn 14 (getConformance txnEnabled) = conformance_classes
  /\ skipn 14 (getConformance txnEnabled)
     = (if truthy txnEnabled then [transaction_class] else [])
  /\ NoDup (getConformance txnEnabled).
Proof.
  assert (Hout : ~ In transaction_class conformance_classes).
  { cbv [In conformance_classes]. intros H.
    repeat (destruct H as [H | H]; [discriminate H|]). exact H. }
  assert (Hnodup : NoDup conformance_classes).
  { unfold conformance_classes.
    repeat (constructor;
            [cbv [In]; intros H;
             repeat (destruct H as [H | H]; [discriminate H|]); exact H|]).
    constructor. }
  unfold getConformance. destruct (truthy txnEnabled).
  - split; [|split; [|split]]; try reflexivity.
    + split; [reflexivity|]. intros _. apply in_or_app. right. now left.
    + apply NoDup_app; [exact Hnodup|repeat constructor; intros []|].
      intros x Hx [Hy | []]. subst x. exact (Hout Hx).
  - split; [|split; [|split]]; try reflexivity; [|exact Hnodup].
    split; [intros H; contradiction|discriminate].
Qed.

(** X15.  [getCollection] answers a missing collection with the [Error]
    "Collection not found" and a found one, whose [links] can be extended,
    with the decorated record, self link first; the [Error] "Collection
    retrieval failed" is never returned. *)
Theorem getCollection_found_or_not {engine : Engine} {store : CollectionStore}
    (collectionId : value) (endpoint : string) :
  (getCollection_backend collectionId = Resolved ErrorObject ->
   getCollection collectionId endpoint = Ok (ReturnedError "Collection not found"))
  /\ (forall c : obj,
        getCollection_backend collectionId = Resolved (FoundCollection c) ->
        collection_links_ok c ->
        exists decorated,
          getCollection collectionId endpoint = Ok (Returned decorated)
          /\ first_link_href decorated = link_href (collection_self_link endpoint c)
          /\ get decorated "id" = get c "id")
  /\ getCollection collectionId endpoint
     <> Ok (ReturnedError "Collection retrieval failed").
Proof.
  split; [|split].
  - intros Hreply. unfold getCollection. now rewrite Hreply.
  - intros c Hreply Hok.
    destruct (addCollectionLinks_step_spec endpoint c Hok) as (d & Hstep & Hlinks & Hkeep).
    unfold getCollection. rewrite Hreply. cbn [await rbind addCollectionLinks].
    rewrite Hstep. cbn [rbind].
    exists d. split; [reflexivity|]. split.
    + unfold first_link_href. now rewrite Hlinks.
    + now apply Hkeep.
  - unfold getCollection.
    destruct (getCollection_backend collectionId) as [[c|]|e]; cbn [await rbind];
      try discriminate.
    cbn [addCollectionLinks].
    destruct (addCollectionLinks_step endpoint c); cbn [rbind]; discriminate.
Qed.

Lemma getCollection_found_or_not_witness :
  @getCollection example_engine two_collections_store (VStr "modis") "http://localhost"
    = Ok (ReturnedError "Collection not found")
  /\ exists decorated,
       @getCollection example_engine two_collections_store (VStr "sentinel-2")
         "http://localhost" = Ok (Returned decorated)
       /\ first_link_href decorated = VStr "http://localhost/collections/sentinel-2"
       /\ get decorated "id" = VStr "sentinel-2".
Proof.
  split.
  - apply (@getCollection_found_or_not example_engine two_collections_store
             (VStr "modis") "http://localhost"). reflexivity.
  - destruct (@getCollection_found_or_not example_engine two_collections_store
                (VStr "sentinel-2") "http://localhost") as (_ & Hfound & _).
    apply (Hfound [("id", VStr "sentinel-2")]); [reflexivity|exact I].
Defined.

(* ================================================================== *)
(** * What reaches the backend *)
(* ================================================================== *)

Lemma pickBy_all_truthy (o : obj) : all_truthy (pickBy o).
Proof.
  unfold all_truthy, pickBy. apply Forall_forall. intros kv Hin.
  now apply filter_In in Hin.
Qed.

Lemma pickBy_keys (o : obj) : incl (map fst (pickBy o)) (map fst o).
Proof.
  intros k Hin. apply in_map_iff in Hin as (kv & Hk & Hin).
  apply filter_In in Hin as [Hin _]. apply in_map_iff. eauto.
Qed.

Lemma set_all_truthy (o : obj) (k : string) (v : value) :
  all_truthy o -> truthy v = true -> all_truthy (set o k v).
Proof.
  unfold all_truthy. intros Hall Hv.
  induction o as [|[k' v'] rest IH]; cbn [set]; [repeat constructor; exact Hv|].
  inversion Hall; subst.
  destruct (String.eqb k' k); constructor; auto.
Qed.

Lemma set_keys (o : obj) (k : string) (v : value) :
  incl (map fst (set o k v)) (k :: map fst o).
Proof.
  induction o as [|[k' v'] rest IH]; cbn [set map fst].
  - intros x Hx. exact Hx.
  - destruct (String.eqb k' k); cbn [map fst]; intros x [Hx | Hx].
    + right. now left.
    + right. now right.
    + right. now left.
    + destruct (IH x Hx) as [H | H]; [now left|right; now right].
Qed.

Section Calls.
Context {engine : Engine} {luxon : Luxon} {backend : Backend}.

(** The trace of [searchItems]: empty, or the one call made with the
    parameters built from the extracted filters. *)
Lemma searchItems_call (collectionId : value) (queryParameters : obj)
    (endpoint : string) (httpMethod : value) :
  snd (run (searchItems collectionId queryParameters endpoint httpMethod)) = []
  \/ (exists datetime geometry query sortby fields ids collections page limit,
         extractLimit queryParameters = Ok limit
         /\ extractPage queryParameters = Ok page
         /\ snd (run (searchItems collectionId queryParameters endpoint httpMethod))
            = [CallSearch
                 (VObj (search_params collectionId datetime geometry query sortby
                          fields ids collections (get queryParameters "next")))
                 page limit]).
Proof.
  unfold run, searchItems.
  destruct (truthy (get queryParameters "bbox")
            && truthy (get queryParameters "intersects")); [left; reflexivity|].
  unfold bind, lift.
  destruct (extractDatetime queryParameters) as [datetime|]; [|left; reflexivity].
  destruct (extractBbox queryParameters httpMethod) as [bboxGeometry|];
    [|left; reflexivity].
  destruct (extractIntersects queryParameters) as [intersectsGeometry|];
    [|left; reflexivity].
  destruct (extractSortby queryParameters) as [sortby|]; [|left; reflexivity].
  destruct (extractStacQuery queryParameters) as [query|]; [|left; reflexivity].
  destruct (extractFields queryParameters) as [fields|]; [|left; reflexivity].
  destruct (extractIds queryParameters) as [ids|]; [|left; reflexivity].
  destruct (extractCollectionIds queryParameters) as [collections|]; [|left; reflexivity].
  destruct (extractLimit queryParameters) as [limit|]; [|left; reflexivity].
  destruct (extractPage queryParameters) as [page|]; [|left; reflexivity].
  right.
  exists datetime,
    (if truthy intersectsGeometry then intersectsGeometry else bboxGeometry),
    query, sortby, fields, ids, collections, page, limit.
  split; [reflexivity|split; [reflexivity|]].
  unfold await_search, search_params, ret, throw. cbn [app].
  destruct (search _ page limit) as [r|error].
  - destruct (buildPaginationLinks _ _ _ _ _ _ _ _); [|reflexivity].
    destruct (addItemLinks _ _); reflexivity.
  - destruct (isIndexNotFoundError error); [|reflexivity].
    cbn [results context].
    destruct (buildPaginationLinks _ _ _ _ _ _ _ _); [|reflexivity].
    destruct (addItemLinks _ _); reflexivity.
Qed.

Lemma aggregate_call (queryParameters : obj) (endpoint : string) (httpMethod : value) :
  snd (run (aggregate queryParameters endpoint httpMethod)) = []
  \/ (exists datetime geometry query ids collections,
         snd (run (aggregate queryParameters endpoint httpMethod))
         = [CallAggregate
              (VObj (pickBy [("datetime", datetime); ("intersects", geometry);
                             ("query", query); ("ids", ids);
                             ("collections", collections)]))]).
Proof.
  unfold run, aggregate.
  destruct (truthy (get queryParameters "bbox")
            && truthy (get queryParameters "intersects")); [left; reflexivity|].
  unfold bind, lift.
  destruct (extractDatetime queryParameters) as [datetime|]; [|left; reflexivity].
  destruct (extractBbox queryParameters httpMethod) as [bboxGeometry|];
    [|left; reflexivity].
  destruct (extractIntersects queryParameters) as [intersectsGeometry|];
    [|left; reflexivity].
  destruct (extractStacQuery queryParameters) as [query|]; [|left; reflexivity].
  destruct (extractIds queryParameters) as [ids|]; [|left; reflexivity].
  destruct (extractCollectionIds queryParameters) as [collections|]; [|left; reflexivity].
  right.
  exists datetime,
    (if truthy intersectsGeometry then intersectsGeometry else bboxGeometry),
    query, ids, collections.
  unfold await_aggregate, ret, throw. cbn [app].
  destruct (aggregate_backend _) as [r|error]; [reflexivity|].
  destruct (isIndexNotFoundError error); reflexivity.
Qed.

Lemma search_params_all_truthy (collectionId : value)
    (datetime geometry query sortby fields ids collections next : value) :
  all_truthy (search_params collectionId datetime geometry query sortby fields ids
                collections next).
Proof.
  unfold search_params. destruct (truthy collectionId).
  - apply set_all_truthy; [apply pickBy_all_truthy|reflexivity].
  - apply pickBy_all_truthy.
Qed.

Lemma search_params_keys (collectionId : value)
    (datetime geometry query sortby fields ids collections next : value) :
  incl (map fst (search_params collectionId datetime geometry query sortby fields ids
                   collections next))
       search_filter_names.
Proof.
  unfold search_params.
  set (literal := [("datetime", datetime); ("intersects", geometry); ("query", query);
                   ("sortby", sortby); ("fields", fields); ("ids", ids);
                   ("collections", collections); ("next", next)]).
  assert (Hlit : incl (map fst (pickBy literal)) search_filter_names).
  { intros k Hk. apply (pickBy_keys literal k Hk). }
  destruct (truthy collectionId); [|exact Hlit].
  intros k Hk. apply set_keys in Hk. destruct Hk as [<- | Hk]; [|now apply Hlit].
  cbv [search_filter_names In]. tauto.
Qed.


End Calls.

(** X16.  Only supplied filters reach the backend.  The search parameters
    of every backend call of [searchItems] hold no falsy value and no key
    outside datetime, intersects, query, sortby, fields, ids, collections
    and next; those of [aggregate] hold no falsy value and no key outside
    datetime, intersects, query, ids and collections.  In particular a box
    reaches the backend as [intersects], never as [bbox]. *)
Theorem backend_receives_supplied_filters
    {engine : Engine} {luxon : Luxon} {backend : Backend}
    (collectionId : value) (queryParameters : obj) (endpoint : string)
    (httpMethod : value) :
  (forall c, In c (snd (run (searchItems collectionId queryParameters endpoint
                               httpMethod))) ->
             exists searchParams,
               called_params c = VObj searchParams
               /\ all_truthy searchParams
               /\ incl (map fst searchParams) search_filter_names)
  /\ (forall c, In c (snd (run (aggregate queryParameters endpoint httpMethod))) ->
                exists searchParams,
                  called_params c = VObj searchParams
                  /\ all_truthy searchParams
                  /\ incl (map fst searchParams) aggregate_filter_names).
Proof.
  split; intros c Hin.
  - destruct (searchItems_call collectionId queryParameters endpoint httpMethod)
      as [Hnone | (datetime & geometry & query & sortby & fields & ids & collections
                   & page & limit & _ & _ & Hcall)].
    + rewrite Hnone in Hin. contradiction.
    + rewrite Hcall in Hin. destruct Hin as [<- | []].
      eexists. split; [reflexivity|]. split.
      * apply search_params_all_truthy.
      * apply search_params_keys.
  - destruct (aggregate_call queryParameters endpoint httpMethod)
      as [Hnone | (datetime & geometry & query & ids & collections & Hcall)].
    + rewrite Hnone in Hin. contradiction.
    + rewrite Hcall in Hin. destruct Hin as [<- | []].
      eexists. split; [reflexivity|]. split.
      * apply pickBy_all_truthy.
      * intros k Hk. apply pickBy_keys in Hk. exact Hk.
Qed.

Lemma backend_receives_supplied_filters_witness :
  exists searchParams,
    called_params
      (CallSearch
         (VObj [("intersects",
                 spec_bbox_polygon (VNum (num_of_Z 1)) (VNum (num_of_Z 2))
                   (VNum (num_of_Z 3)) (VNum (num_of_Z 4)))])
         VUndefined VUndefined)
    = VObj searchParams
    /\ all_truthy searchParams
    /\ incl (map fst searchParams) search_filter_names.
Proof.
  apply (@backend_receives_supplied_filters example_engine example_luxon
           (page_backend []) VUndefined [("bbox", VStr "1,2,3,4"); ("query", VStr "")]
           "http://localhost" (VStr "GET")).
  vm_compute. left. reflexivity.
Defined.

Section CallsMore.
Context {engine : Engine} {luxon : Luxon} {backend : Backend}.


Lemma buildPaginationLinks_at_most_one (limit : value) (parameters : obj)
    (bbox intersects : value) (endpoint : string) (httpMethod sortby : value)
    (items : list obj) (links : list value) :
  buildPaginationLinks limit parameters bbox intersects endpoint httpMethod sortby items
    = Ok links ->
  (List.length links <= 1)%nat.
Proof.
  unfold buildPaginationLinks. destruct (rev items).
  - intros H. inversion H. cbn. lia.
  - destruct (is_str httpMethod "GET").
    + destruct (dictToURI _); cbn [rbind]; intros H; inversion H. cbn. lia.
    + destruct (is_str httpMethod "POST"); intros H; inversion H; cbn; lia.
Qed.

Lemma get_search_params_collections (collectionId : value)
    (datetime geometry query sortby fields ids collections next : value) :
  truthy collectionId = true ->
  get (search_params collectionId datetime geometry query sortby fields ids
         collections next) "collections"
  = VArr [collectionId].
Proof.
  intros Hc. unfold search_params. rewrite Hc. apply get_set_same.
Qed.

(** A response of [search_respond], taken apart. *)
Lemma search_respond_inv (collectionId : value) (endpoint : string)
    (httpMethod limit : value) (searchParams : obj) (bbox intersects sortby : value)
    (reply : settled search_response) (response : value) :
  search_respond collectionId endpoint httpMethod limit searchParams bbox intersects
    sortby reply = Ok response ->
  exists esResponse paginationLinks items,
    (reply = Resolved esResponse
     \/ exists rejection, reply = RejectedWith rejection /\ results esResponse = [])
    /\ buildPaginationLinks limit searchParams bbox intersects
         (search_endpoint collectionId endpoint) httpMethod sortby (results esResponse)
       = Ok paginationLinks
    /\ addItemLinks (results esResponse) endpoint = Ok items
    /\ wrapResponseInFeatureCollection (context esResponse) (map VObj items)
         (if truthy collectionId then
            (paginationLinks
               ++ [link3 "self" "application/json" (search_endpoint collectionId endpoint);
                   link3 "root" "application/geo+json" endpoint])%list
          else paginationLinks)
       = Ok response.
Proof.
  unfold search_respond. intros H.
  destruct reply as [r|rejection].
  - cbn [rbind] in H.
    destruct (buildPaginationLinks _ _ _ _ _ _ _ _) as [paginationLinks|] eqn:Hlinks;
      [|discriminate]. cbn [rbind] in H.
    destruct (addItemLinks (results r) endpoint) as [items|] eqn:Hitems; [|discriminate].
    cbn [rbind] in H. exists r, paginationLinks, items. auto.
  - destruct (isIndexNotFoundError rejection); [|discriminate]. cbn [rbind] in H.
    destruct (buildPaginationLinks _ _ _ _ _ _ _ _) as [paginationLinks|] eqn:Hlinks;
      [|discriminate]. cbn [rbind] in H.
    match type of H with
    | context [addItemLinks (results ?e) endpoint] =>
        destruct (addItemLinks (results e) endpoint) as [items|] eqn:Hitems;
        [|discriminate]; cbn [rbind] in H;
        exists e, paginationLinks, items
    end.
    split; [right; eauto|]. auto.
Qed.

Lemma wrapResponse_fields (context : value) (features links : list value)
    (response : value) :
  wrapResponseInFeatureCollection context features links = Ok response ->
  response_field "context" response = context
  /\ get_prop context "matched" = Ok (response_field "numberMatched" response)
  /\ get_prop context "returned" = Ok (response_field "numberReturned" response)
  /\ response_field "features" response = VArr features
  /\ response_field "links" response = VArr links.
Proof.
  unfold wrapResponseInFeatureCollection.
  destruct (get_prop context "matched"); [|discriminate]. cbn [rbind].
  destruct (get_prop context "returned"); [|discriminate]. cbn [rbind].
  intros H. inversion H. repeat split; reflexivity.
Qed.

End CallsMore.



(** X18.  A collection-scoped search is forced to its collection.  When
    [collectionId] is truthy, the [collections] filter of the backend call
    is the list of that one id, whatever the [collections] parameter of
    the request holds; and the links of the response are the pagination
    link, if there is one, followed by the self link of
    [/collections/<id>/items] and the root link. *)
Theorem collection_scoped_search
    {engine : Engine} {luxon : Luxon} {backend : Backend}
    (collectionId : value) (queryParameters : obj) (endpoint : string)
    (httpMethod : value) :
  truthy collectionId = true ->
  (forall c, In c (snd (run (searchItems collectionId queryParameters endpoint
                               httpMethod))) ->
             exists searchParams,
               called_params c = VObj searchParams
               /\ get searchParams "collections" = VArr [collectionId])
  /\ (forall response trace,
         run (searchItems collectionId queryParameters endpoint httpMethod)
           = (Ok response, trace) ->
         exists paginationLinks,
           (List.length paginationLinks <= 1)%nat
           /\ response_field "links" response
              = VArr (paginationLinks
                        ++ [link3 "self" "application/json"
                              (endpoint ++ "/collections/" ++ ToString collectionId
                               ++ "/items");
                            link3 "root" "application/geo+json" endpoint])).
Proof.
  intros Hscoped. split.
  - intros c Hin.
    destruct (searchItems_call collectionId queryParameters endpoint httpMethod)
      as [Hnone | (datetime & geometry & query & sortby & fields & ids & collections
                   & page & limit & _ & _ & Hcall)].
    + rewrite Hnone in Hin. contradiction.
    + rewrite Hcall in Hin. destruct Hin as [<- | []].
      eexists. split; [reflexivity|]. now apply get_search_params_collections.
  - intros response trace Hrun.
    destruct (searchItems_run collectionId queryParameters endpoint httpMethod)
      as [[e He] | (searchParams & sortby & page & limit & _ & _ & Hcall)].
    + rewrite He in Hrun. discriminate.
    + rewrite Hcall in Hrun. inversion Hrun as [[Hresponse Htrace]].
      apply search_respond_inv in Hresponse
        as (esResponse & paginationLinks & items & _ & Hlinks & _ & Hwrap).
      rewrite Hscoped in Hwrap.
      apply wrapResponse_fields in Hwrap as (_ & _ & _ & _ & Hfield).
      exists paginationLinks. split.
      * eapply buildPaginationLinks_at_most_one; eassumption.
      * rewrite Hfield. unfold search_endpoint. now rewrite Hscoped.
Qed.

Lemma collection_scoped_search_witness :
  exists searchParams,
    called_params
      (CallSearch (VObj [("collections", VArr [VStr "sentinel-2"])]) VUndefined VUndefined)
    = VObj searchParams
    /\ get searchParams "collections" = VArr [VStr "sentinel-2"].
Proof.
  destruct (@collection_scoped_search example_engine example_luxon (page_backend [])
              (VStr "sentinel-2") [("collections", VStr "landsat-8,modis")]
              "http://localhost" (VStr "GET")) as [Hcall _]; [reflexivity|].
  apply Hcall. vm_compute. left. reflexivity.
Defined.

(** X19.  The response of [searchItems] mirrors the answer of the backend.
    When the backend resolves the call, the [context] of the response is
    the context of the backend, [numberMatched] and [numberReturned] are
    its [matched] and [returned], and the features are the results of the
    backend, one for one and in order, each with every field but [links]
    and [type] unchanged. *)
Theorem searchItems_mirrors_backend
    {engine : Engine} {luxon : Luxon} {backend : Backend}
    (collectionId : value) (queryParameters : obj) (endpoint : string)
    (httpMethod response searchParams page limit : value) (r : search_response) :
  run (searchItems collectionId queryParameters endpoint httpMethod)
    = (Ok response, [CallSearch searchParams page limit]) ->
  search searchParams page limit = Resolved r ->
  response_field "context" response = context r
  /\ get_prop (context r) "matched" = Ok (response_field "numberMatched" response)
  /\ get_prop (context r) "returned" = Ok (response_field "numberReturned" response)
  /\ exists items,
       response_field "features" response = VArr (map VObj items)
       /\ Forall2 (fun result d =>
                     forall k, String.eqb "links" k = false ->
                               String.eqb "type" k = false ->
                               get d k = get result k)
            (results r) items.
Proof.
  intros Hrun Hreply.
  destruct (searchItems_run collectionId queryParameters endpoint httpMethod)
    as [[e He] | (sp & sortby & page' & limit' & _ & _ & Hcall)].
  - rewrite He in Hrun. discriminate.
  - rewrite Hcall in Hrun. inversion Hrun as [[Hresponse Hsp Hpage Hlimit]].
    subst. rewrite Hreply in Hresponse.
    apply search_respond_inv in Hresponse
      as (esResponse & paginationLinks & items & Hes & _ & Hitems & Hwrap).
    destruct Hes as [Hes | (rejection & Hes & _)]; [|discriminate Hes].
    inversion Hes; subst esResponse.
    apply wrapResponse_fields in Hwrap as (Hcontext & Hmatched & Hreturned & Hfeatures & _).
    split; [exact Hcontext|]. split; [exact Hmatched|]. split; [exact Hreturned|].
    exists items. split; [exact Hfeatures|].
    eapply addItemLinks_step_keeps_all; eassumption.
Qed.

Lemma searchItems_mirrors_backend_witness :
  exists response items,
    fst (run (@searchItems example_engine example_luxon (page_backend five_items)
                VUndefined [("limit", VStr "5")] "http://localhost" (VStr "GET")))
      = Ok response
    /\ response_field "numberMatched" response = VNum (num_of_Z 5)
    /\ response_field "features" response = VArr (map VObj items)
    /\ Forall2 (fun result d => get d "id" = get result "id") five_items items.
Proof.
  eassert (Hrun : run (@searchItems example_engine example_luxon (page_backend five_items)
                         VUndefined [("limit", VStr "5")] "http://localhost" (VStr "GET"))
                  = (Ok _, [CallSearch _ _ _])) by (vm_compute; reflexivity).
  destruct (@searchItems_mirrors_backend example_engine example_luxon
              (page_backend five_items) _ _ _ _ _ _ _ _ _ Hrun eq_refl)
    as (_ & Hmatched & _ & items & Hfeatures & Hkeep).
  eexists. exists items. rewrite Hrun. split; [reflexivity|].
  split; [now inversion Hmatched|]. split; [exact Hfeatures|].
  eapply Forall2_impl; [|exact Hkeep]. intros a b H. apply H; reflexivity.
Defined.

(* ================================================================== *)
(** * The request of the next page *)
(* ================================================================== *)

Lemma get_pickBy_absent (o : obj) (k : string) :
  ~ In k (map fst o) -> get (pickBy o) k = VUndefined.
Proof.
  intros Hout. apply get_absent.
  induction o as [|[k' v'] rest IH]; [reflexivity|].
  cbn [pickBy filter snd]. cbn [map fst] in Hout.
  assert (Hk : String.eqb k' k = false).
  { apply String.eqb_neq. intros ->. apply Hout. now left. }
  assert (Hrest : has_own (pickBy rest) k = false)
    by (apply IH; intros Hin; apply Hout; now right).
  destruct (truthy v'); [cbn [has_own]; now rewrite Hk|exact Hrest].
Qed.

(** On an object without repeated keys, [pickBy] keeps a truthy value and
    removes a falsy one. *)
Lemma get_pickBy (o : obj) (k : string) :
  NoDup (map fst o) ->
  get (pickBy o) k = if truthy (get o k) then get o k else VUndefined.
Proof.
  induction o as [|[k' v'] rest IH]; intros Hnodup; [reflexivity|].
  cbn [map fst] in Hnodup. inversion Hnodup as [|? ? Hout Hrest]; subst.
  cbn [get]. destruct (String.eqb_spec k' k) as [-> | Hk].
  - cbn [pickBy filter snd]. destruct (truthy v') eqn:Hv.
    + cbn [get]. now rewrite String.eqb_refl.
    + now apply get_pickBy_absent.
  - cbn [pickBy filter snd]. destruct (truthy v').
    + cbn [get]. apply String.eqb_neq in Hk. rewrite Hk. now apply IH.
    + now apply IH.
Qed.

Lemma set_keys_exact (o : obj) (k : string) (v : value) :
  map fst (set o k v) = if has_own o k then map fst o else (map fst o ++ [k])%list.
Proof.
  induction o as [|[k' v'] rest IH]; [reflexivity|].
  cbn [set has_own]. destruct (String.eqb k' k) eqn:Hk; cbn [orb map fst]; [reflexivity|].
  rewrite IH. now destruct (has_own rest k).
Qed.

Lemma has_own_In (o : obj) (k : string) :
  has_own o k = false -> ~ In k (map fst o).
Proof.
  induction o as [|[k' v'] rest IH]; cbn [has_own map fst]; intros H; [tauto|].
  apply orb_false_iff in H as [Hk Hrest]. apply String.eqb_neq in Hk.
  intros [Heq | Hin]; [contradiction|]. now apply IH.
Qed.

Lemma set_NoDup (o : obj) (k : string) (v : value) :
  NoDup (map fst o) -> NoDup (map fst (set o k v)).
Proof.
  intros Hnodup. rewrite set_keys_exact.
  destruct (has_own o k) eqn:Hown; [exact Hnodup|].
  apply NoDup_app; [exact Hnodup|repeat constructor; intros []|].
  intros x Hx [<- | []]. exact (has_own_In _ _ Hown Hx).
Qed.

(** X20.  The body of the next link of a structured request.  For
    parameters without repeated keys and a page that is not empty, there
    is one link; its body holds no falsy value; its [bbox], [intersects]
    and [limit] are those given to [buildPaginationLinks] (the raw box and
    geometry of the request, not the polygon derived from the box), each
    left out when falsy; and every other parameter but [next] is carried
    over when truthy.  So the body never holds both a [bbox] and an
    [intersects] unless the request did. *)
Theorem next_body_carries_request {engine : Engine}
    (limit : value) (parameters : obj) (bbox intersects : value) (endpoint : string)
    (sortby : value) (before : list obj) (lastItem : obj) :
  NoDup (map fst parameters) ->
  exists link body,
    buildPaginationLinks limit parameters bbox intersects endpoint (VStr "POST") sortby
      (before ++ [lastItem]) = Ok [VObj link]
    /\ get link "body" = VObj body
    /\ all_truthy body
    /\ get body "bbox" = (if truthy bbox then bbox else VUndefined)
    /\ get body "intersects" = (if truthy intersects then intersects else VUndefined)
    /\ get body "limit" = (if truthy limit then limit else VUndefined)
    /\ (forall k, ~ In k ["bbox"; "intersects"; "limit"; "next"] ->
                  get body k
                  = if truthy (get parameters k) then get parameters k else VUndefined).
Proof.
  intros Hnodup. unfold buildPaginationLinks. rewrite rev_unit.
  change (is_str (VStr "POST") "GET") with false.
  change (is_str (VStr "POST") "POST") with true. cbv iota.
  eexists. eexists. split; [reflexivity|]. split; [apply get_set_same|].
  split; [apply pickBy_all_truthy|].
  unfold assign. cbn [fold_left fst snd].
  set (next := VStr (next_cursor sortby lastItem)).
  assert (Hnd : NoDup (map fst (set (set (set (set parameters "bbox" bbox)
                                            "intersects" intersects)
                                       "limit" limit) "next" next)))
    by (repeat apply set_NoDup; exact Hnodup).
  repeat split.
  - rewrite (get_pickBy _ _ Hnd).
    rewrite !(get_set_other _ _ "bbox") by reflexivity. now rewrite get_set_same.
  - rewrite (get_pickBy _ _ Hnd).
    rewrite !(get_set_other _ _ "intersects") by reflexivity. now rewrite get_set_same.
  - rewrite (get_pickBy _ _ Hnd).
    rewrite !(get_set_other _ _ "limit") by reflexivity. now rewrite get_set_same.
  - intros k Hk. rewrite (get_pickBy _ _ Hnd).
    assert (Hne : forall name, In name ["bbox"; "intersects"; "limit"; "next"] ->
                               String.eqb name k = false).
    { intros name Hin. apply String.eqb_neq. intros ->. contradiction. }
    rewrite !get_set_other; try reflexivity; apply Hne; cbn; tauto.
Qed.

Lemma next_body_carries_request_witness :
  exists link body,
    @buildPaginationLinks example_engine (VNum (num_of_Z 10))
      [("intersects",
        spec_bbox_polygon (VNum (num_of_Z 1)) (VNum (num_of_Z 2)) (VNum (num_of_Z 3))
          (VNum (num_of_Z 4)));
       ("ids", VArr [VStr "a"])]
      (VArr [VNum (num_of_Z 1); VNum (num_of_Z 2); VNum (num_of_Z 3); VNum (num_of_Z 4)])
      VUndefined "http://localhost/search" (VStr "POST") VUndefined [bare_item]
      = Ok [VObj link]
    /\ get link "body" = VObj body
    /\ get body "bbox"
       = VArr [VNum (num_of_Z 1); VNum (num_of_Z 2); VNum (num_of_Z 3); VNum (num_of_Z 4)]
    /\ get body "intersects" = VUndefined
    /\ get body "ids" = VArr [VStr "a"].
Proof.
  destruct (@next_body_carries_request example_engine (VNum (num_of_Z 10))
              [("intersects",
                spec_bbox_polygon (VNum (num_of_Z 1)) (VNum (num_of_Z 2))
                  (VNum (num_of_Z 3)) (VNum (num_of_Z 4)));
               ("ids", VArr [VStr "a"])]
              (VArr [VNum (num_of_Z 1); VNum (num_of_Z 2); VNum (num_of_Z 3);
                     VNum (num_of_Z 4)])
              VUndefined "http://localhost/search" VUndefined [] bare_item)
    as (link & body & Hrun & Hbody & _ & Hbbox & Hintersects & _ & Hother).
  - repeat constructor; cbn; intuition discriminate.
  - exists link, body. split; [exact Hrun|]. split; [exact Hbody|].
    split; [exact Hbbox|]. split; [exact Hintersects|].
    rewrite Hother; [reflexivity|cbn; intuition discriminate].
Defined.

(* ================================================================== *)
(** * The query string *)
(* ================================================================== *)

Lemma hex_digit_plain (n : nat) :
  Ascii.eqb (Str.hex_digit n) "&" = false /\ Ascii.eqb (Str.hex_digit n) "=" = false.
Proof.
  unfold Str.hex_digit.
  do 17 (destruct n as [|n]; [split; reflexivity|]). split; reflexivity.
Qed.

Lemma unreserved_plain (c : ascii) :
  Str.is_unreserved c = true ->
  Ascii.eqb c "&" = false /\ Ascii.eqb c "=" = false.
Proof.
  intros H. split; apply Ascii.eqb_neq; intros ->; discriminate H.
Qed.

(** An encoded component holds no [&] and no [=]. *)
Lemma encodeURIComponent_free (s : string) :
  Str.free_of "&" (encodeURIComponent s) = true
  /\ Str.free_of "=" (encodeURIComponent s) = true.
Proof.
  induction s as [|c rest [IHa IHe]]; [split; reflexivity|].
  cbn [encodeURIComponent]. destruct (Str.is_unreserved c) eqn:Hc.
  - destruct (unreserved_plain c Hc) as [Ha He].
    cbn [Str.free_of]. rewrite Ha, He, IHa, IHe. split; reflexivity.
  - destruct (hex_digit_plain (nat_of_ascii c / 16)) as [Ha1 He1].
    destruct (hex_digit_plain (nat_of_ascii c mod 16)) as [Ha2 He2].
    cbn [Str.free_of]. rewrite Ha1, He1, Ha2, He2, IHa, IHe. split; reflexivity.
Qed.

Section QueryString.
Context {engine : Engine}.

Lemma dictToURI_pairs_spec (dict : obj) (ps : list string) :
  dictToURI_pairs dict = Ok ps ->
  Forall2 (fun kv p =>
             exists v, dictToURI_value (fst kv) (snd kv) = Ok v
                       /\ p = encodeURIComponent (fst kv) ++ "=" ++ encodeURIComponent v)
    dict ps.
Proof.
  revert ps. induction dict as [|[k x] rest IH]; intros ps H; cbn [dictToURI_pairs] in H.
  - inversion H. constructor.
  - destruct (dictToURI_value k x) as [v|] eqn:Hv; [|discriminate]. cbn [rbind] in H.
    destruct (dictToURI_pairs rest) as [qs|]; [|discriminate]. cbn [rbind] in H.
    inversion H; subst. constructor; [eauto|now apply IH].
Qed.

Lemma pair_free (k v : string) :
  Str.free_of "&" (encodeURIComponent k ++ "=" ++ encodeURIComponent v) = true.
Proof.
  rewrite StrFacts.free_of_app.
  destruct (encodeURIComponent_free k) as [Hk _].
  destruct (encodeURIComponent_free v) as [Hv _].
  rewrite Hk. cbn. exact Hv.
Qed.

Lemma pair_split (k v : string) :
  Str.split "=" (encodeURIComponent k ++ "=" ++ encodeURIComponent v)
  = [encodeURIComponent k; encodeURIComponent v].
Proof.
  destruct (encodeURIComponent_free k) as [_ Hk].
  destruct (encodeURIComponent_free v) as [_ Hv].
  change (encodeURIComponent k ++ "=" ++ encodeURIComponent v)
    with (encodeURIComponent k ++ String "=" (encodeURIComponent v)).
  now rewrite StrFacts.split_app, StrFacts.split_free.
Qed.

End QueryString.

(** X21.  The query string of a next link can be taken apart again.  When
    [dictToURI] succeeds on an object that is not empty, splitting its
    result at [&] gives one component per key, in the order of the keys,
    and splitting a component at [=] gives exactly the encoded key and the
    encoded value: no key or value can add a parameter of its own. *)
Theorem dictToURI_splits_back {engine : Engine} (dict : obj) (q : string) :
  dict <> [] ->
  dictToURI dict = Ok q ->
  Forall2 (fun kv p =>
             exists v, dictToURI_value (fst kv) (snd kv) = Ok v
                       /\ Str.split "=" p
                          = [encodeURIComponent (fst kv); encodeURIComponent v])
    dict (Str.split "&" q).
Proof.
  intros Hne. unfold dictToURI.
  destruct (dictToURI_pairs dict) as [ps|] eqn:Hps; [|discriminate].
  cbn [rbind]. intros H. inversion H; subst q. clear H.
  pose proof (dictToURI_pairs_spec dict ps Hps) as Hall.
  rewrite StrFacts.split_join.
  - eapply Forall2_impl; [|exact Hall].
    intros kv p (v & Hv & ->). exists v. split; [exact Hv|apply pair_split].
  - intros ->. inversion Hall. subst. contradiction.
  - clear Hne Hps. induction Hall as [|kv p dict' ps' (v & _ & ->) _ IH]; constructor;
      [apply pair_free|exact IH].
Qed.

Lemma dictToURI_splits_back_witness :
  Forall2 (fun kv p =>
             exists v, @dictToURI_value example_engine (fst kv) (snd kv) = Ok v
                       /\ Str.split "=" p
                          = [encodeURIComponent (fst kv); encodeURIComponent v])
    [("collections", VArr [VStr "a&b"; VStr "c"]); ("next", VStr "2020=01,x")]
    (Str.split "&" "collections=a%26b%2Cc&next=2020%3D01%2Cx").
Proof.
  apply (@dictToURI_splits_back example_engine
           [("collections", VArr [VStr "a&b"; VStr "c"]); ("next", VStr "2020=01,x")]);
    [discriminate|reflexivity].
Defined.

(* ================================================================== *)
(** * The aggregation document *)
(* ================================================================== *)

Section Aggregations.
Context {engine : Engine}.

Lemma get_prop_present (v named : value) (k : string) (x : value) (f : string) :
  get_prop v k = Ok named -> get_prop named f = Ok x -> present v k.
Proof.
  intros Hnamed Hx. exists named. split; [exact Hnamed|].
  split; intros ->; discriminate Hx.
Qed.

Lemma metric_inv (esAggs : value) (name dataType field : string) (a : value) :
  metric esAggs name dataType field = Ok a ->
  present esAggs name /\ response_field "name" a = VStr name.
Proof.
  unfold metric.
  destruct (get_prop esAggs name) as [named|] eqn:Hnamed; [|discriminate]. cbn [rbind].
  destruct (get_prop named field) as [v|] eqn:Hv; [|discriminate]. cbn [rbind].
  intros H. inversion H. split; [eapply get_prop_present; eassumption|reflexivity].
Qed.

Lemma agg_inv (esAggs : value) (name dataType : string) (a : value) :
  agg esAggs name dataType = Ok a ->
  present esAggs name /\ response_field "name" a = VStr name.
Proof.
  unfold agg.
  destruct (get_prop esAggs name) as [named|] eqn:Hnamed; [|discriminate]. cbn [rbind].
  destruct (get_prop named "buckets") as [raw|] eqn:Hraw; [|discriminate]. cbn [rbind].
  destruct (iterate raw); [|discriminate]. cbn [rbind].
  destruct (agg_buckets dataType _); [|discriminate]. cbn [rbind].
  destruct (get_prop named "sum_other_doc_count"); [|discriminate]. cbn [rbind].
  intros H. inversion H. split; [eapply get_prop_present; eassumption|reflexivity].
Qed.

Lemma aggs_inv (esAggs : value) (names : list (string * string)) (l : list value) :
  aggs esAggs names = Ok l ->
  Forall (present esAggs) (map fst names)
  /\ map (response_field "name") l = map VStr (map fst names).
Proof.
  revert l. induction names as [|[name dataType] rest IH]; intros l; cbn [aggs].
  - intros H. inversion H. split; [constructor|reflexivity].
  - destruct (agg esAggs name dataType) as [a|] eqn:Ha; [|discriminate]. cbn [rbind].
    destruct (aggs esAggs rest) as [others|]; [|discriminate]. cbn [rbind].
    intros H. inversion H; subst.
    destruct (agg_inv _ _ _ _ Ha) as [Hp Hn]. destruct (IH others eq_refl) as [Hps Hns].
    split; [constructor; assumption|]. cbn [map fst]. now rewrite Hn, Hns.
Qed.

(** A document that is returned lists the twelve aggregations, which were
    all present. *)
Lemma aggregate_document_inv (esResponse : value) (endpoint : string) (document : value) :
  aggregate_document esResponse endpoint = Ok document ->
  exists body esAggs,
    get_prop esResponse "body" = Ok body
    /\ get_prop body "aggregations" = Ok esAggs
    /\ Forall (present esAggs) aggregation_names
    /\ listed_names document = map VStr aggregation_names
    /\ response_field "links" document
       = VArr [link3 "self" "application/json" (endpoint ++ "/aggregate");
               link3 "root" "application/geo+json" endpoint].
Proof.
  unfold aggregate_document.
  destruct (get_prop esResponse "body") as [body|] eqn:Hbody; [|discriminate].
  cbn [rbind].
  destruct (get_prop body "aggregations") as [esAggs|] eqn:Haggs; [|discriminate].
  cbn [rbind].
  destruct (metric esAggs "total_count" _ _) as [m1|] eqn:H1; [|discriminate].
  cbn [rbind].
  destruct (metric esAggs "datetime_max" _ _) as [m2|] eqn:H2; [|discriminate].
  cbn [rbind].
  destruct (metric esAggs "datetime_min" _ _) as [m3|] eqn:H3; [|discriminate].
  cbn [rbind].
  destruct (aggs esAggs frequency_aggregations) as [ds|] eqn:Hds; [|discriminate].
  cbn [rbind]. intros H. inversion H; subst document. clear H.
  destruct (metric_inv _ _ _ _ _ H1) as [P1 N1].
  destruct (metric_inv _ _ _ _ _ H2) as [P2 N2].
  destruct (metric_inv _ _ _ _ _ H3) as [P3 N3].
  destruct (aggs_inv _ _ _ Hds) as [Ps Ns].
  exists body, esAggs. split; [reflexivity|]. split; [exact Haggs|].
  split; [repeat (constructor; [assumption|]); exact Ps|].
  split; [|reflexivity].
  unfold listed_names, aggregation_names.
  cbn [response_field get String.eqb Ascii.eqb Bool.eqb map].
  cbn [response_field] in N1, N2, N3. rewrite N1, N2, N3. now rewrite Ns.
Qed.

End Aggregations.

(** X22.  A document of [aggregate] always lists the same twelve
    aggregations in the same order: total_count, datetime_max,
    datetime_min, then the nine frequency distributions from
    collection_frequency to off_nadir_frequency; its links are the self
    link of [/aggregate] and the root link. *)
Theorem aggregate_document_names {engine : Engine}
    (esResponse : value) (endpoint : string) (document : value) :
  aggregate_document esResponse endpoint = Ok document ->
  listed_names document
  = map VStr ["total_count"; "datetime_max"; "datetime_min"; "collection_frequency";
              "datetime_frequency"; "cloud_cover_frequency"; "grid_code_frequency";
              "platform_frequency"; "grid_code_landsat_frequency";
              "sun_elevation_frequency"; "sun_azimuth_frequency"; "off_nadir_frequency"]
  /\ response_field "links" document
     = VArr [link3 "self" "application/json" (endpoint ++ "/aggregate");
             link3 "root" "application/geo+json" endpoint].
Proof.
  intros H. apply aggregate_document_inv in H as (_ & _ & _ & _ & _ & Hnames & Hlinks).
  split; [exact Hnames|exact Hlinks].
Qed.

Lemma aggregate_document_names_witness :
  exists document,
    @aggregate_document example_engine
      (aggregations_reply (map fst frequency_aggregations)) "http://localhost"
      = Ok document
    /\ List.length (listed_names document) = 12%nat.
Proof.
  eexists. split; [vm_compute; reflexivity|].
  match goal with
  | |- List.length (listed_names ?d) = _ =>
      destruct (@aggregate_document_names example_engine
                  (aggregations_reply (map fst frequency_aggregations))
                  "http://localhost" d) as [Hnames _];
      [vm_compute; reflexivity|rewrite Hnames; reflexivity]
  end.
Defined.

(** X23.  A named aggregation that the backend left out is not passed
    over: when one of the twelve names is missing from the aggregations of
    the reply (reading it gives [undefined] or [null]), no document is
    produced and a [TypeError] is thrown. *)
Theorem aggregate_document_missing {engine : Engine}
    (esResponse : value) (endpoint : string) (body esAggs : value) (name : string) :
  get_prop esResponse "body" = Ok body ->
  get_prop body "aggregations" = Ok esAggs ->
  In name aggregation_names ->
  get_prop esAggs name = Ok VUndefined \/ get_prop esAggs name = Ok VNull ->
  aggregate_document esResponse endpoint = Throw TypeError.
Proof.
  intros Hbody Haggs Hin Hmissing.
  pose proof (aggregate_document_throws esResponse endpoint) as Hthrows.
  destruct (aggregate_document esResponse endpoint) as [document|e] eqn:Hdoc;
    [|cbn in Hthrows; now subst].
  exfalso.
  apply aggregate_document_inv in Hdoc
    as (body' & esAggs' & Hbody' & Haggs' & Hpresent & _).
  rewrite Hbody in Hbody'. inversion Hbody'; subst body'.
  rewrite Haggs in Haggs'. inversion Haggs'; subst esAggs'.
  rewrite Forall_forall in Hpresent.
  destruct (Hpresent name Hin) as (named & Hnamed & Hu & Hn).
  destruct Hmissing as [H | H]; rewrite H in Hnamed; inversion Hnamed; congruence.
Qed.

Lemma aggregate_document_missing_witness :
  @aggregate_document example_engine
    (aggregations_reply ["collection_frequency"; "datetime_frequency";
                         "cloud_cover_frequency"; "grid_code_frequency";
                         "platform_frequency"; "grid_code_landsat_frequency";
                         "sun_elevation_frequency"; "sun_azimuth_frequency"])
    "http://localhost"
  = Throw TypeError.
Proof.
  eapply (@aggregate_document_missing example_engine _ _ _ _ "off_nadir_frequency");
    [reflexivity|reflexivity|cbn; tauto|left; reflexivity].
Defined.

Section Buckets.
Context {engine : Engine}.

Lemma agg_buckets_spec (dataType : string) (buckets outs : list value) :
  agg_buckets dataType buckets = Ok outs ->
  Forall2 (bucket_of dataType) buckets outs.
Proof.
  revert outs. induction buckets as [|b rest IH]; intros outs; cbn [agg_buckets].
  - intros H. inversion H. constructor.
  - destruct (get_prop b "key_as_string") as [kas|] eqn:Hkas; [|discriminate].
    cbn [rbind].
    destruct (get_prop b "key") as [key|] eqn:Hkey; [|discriminate]. cbn [rbind].
    destruct (get_prop b "doc_count") as [dc|] eqn:Hdc; [|discriminate]. cbn [rbind].
    destruct (get_prop b "to") as [to|] eqn:Hto; [|discriminate]. cbn [rbind].
    destruct (get_prop b "from") as [from|] eqn:Hfrom; [|discriminate]. cbn [rbind].
    destruct (agg_buckets dataType rest) as [bs|]; [|discriminate]. cbn [rbind].
    intros H. inversion H; subst. constructor; [|now apply IH].
    unfold bucket_of. rewrite Hkas, Hkey, Hdc, Hfrom, Hto.
    split; [reflexivity|]. split; [reflexivity|]. split; [reflexivity|].
    split; [reflexivity|]. exists kas, key. auto.
Qed.

End Buckets.

(** X24.  [agg] reshapes the buckets of the backend one for one and in
    order: every bucket of the result has the [doc_count] of its bucket as
    [frequency], its [from] and [to], the data type asked for, and as key
    its [key_as_string] when that is truthy and its [key] otherwise; the
    overflow is [sum_other_doc_count], or 0 when that is falsy. *)
Theorem agg_reshapes_buckets {engine : Engine}
    (esAggs named : value) (name dataType : string) (buckets : list value) (a : value) :
  get_prop esAggs name = Ok named ->
  get_prop named "buckets" = Ok (VArr buckets) ->
  agg esAggs name dataType = Ok a ->
  response_field "name" a = VStr name
  /\ (exists outs,
         response_field "buckets" a = VArr outs
         /\ Forall2 (bucket_of dataType) buckets outs)
  /\ (exists overflow,
         get_prop named "sum_other_doc_count" = Ok overflow
         /\ response_field "overflow" a
            = if truthy overflow then overflow else VNum (num_of_Z 0)).
Proof.
  intros Hnamed Hraw. unfold agg. rewrite Hnamed. cbn [rbind]. rewrite Hraw.
  cbn [rbind iterate].
  destruct (agg_buckets dataType buckets) as [outs|] eqn:Houts; [|discriminate].
  cbn [rbind].
  destruct (get_prop named "sum_other_doc_count") as [overflow|]; [|discriminate].
  cbn [rbind]. intros H. inversion H.
  split; [reflexivity|]. split.
  - exists outs. split; [reflexivity|]. now apply agg_buckets_spec.
  - exists overflow. split; reflexivity.
Qed.

Lemma agg_reshapes_buckets_witness :
  exists a outs,
    @agg example_engine cloud_cover_aggregations "cloud_cover_frequency" "numeric" = Ok a
    /\ response_field "buckets" a = VArr outs
    /\ map (response_field "key") outs = [VStr "0.0-5.0"; VStr "2020-01-01"]
    /\ response_field "overflow" a = VNum (num_of_Z 0).
Proof.
  eassert (Hrun : @agg example_engine cloud_cover_aggregations "cloud_cover_frequency"
                    "numeric" = Ok _) by (vm_compute; reflexivity).
  destruct (@agg_reshapes_buckets example_engine cloud_cover_aggregations _
              "cloud_cover_frequency" "numeric" _ _ eq_refl eq_refl Hrun)
    as (_ & (outs & Houts & _) & (overflow & Hov & Hoverflow)).
  eexists. exists outs. split; [exact Hrun|]. split; [exact Houts|].
  inversion Hov; subst overflow.
  split; [|exact Hoverflow].
  cbn [response_field get String.eqb Ascii.eqb Bool.eqb] in Houts.
  inversion Houts. reflexivity.
Defined.

(* ================================================================== *)
(** * Thumbnails *)
(* ================================================================== *)

Section ThumbnailFacts.
Context {engine : Engine} {backend : Backend} {s3 : S3}.

Lemma find_thumbnail_found (assets : list value) (x : value) :
  find_thumbnail assets = Ok x ->
  truthy x = true ->
  In x assets /\ has_thumbnail_role x = Ok true.
Proof.
  induction assets as [|a rest IH]; cbn [find_thumbnail].
  - intros H Hx. inversion H; subst. discriminate Hx.
  - destruct (has_thumbnail_role a) as [[|]|] eqn:Hrole; cbn [rbind];
      [|intros H Hx; destruct (IH H Hx); split; [now right|assumption]|discriminate].
    intros H _. inversion H; subst. split; [now left|exact Hrole].
Qed.

Lemma find_thumbnail_first (before after : list value) (x : value) :
  Forall (fun a => has_thumbnail_role a = Ok false) before ->
  has_thumbnail_role x = Ok true ->
  find_thumbnail (before ++ x :: after) = Ok x.
Proof.
  intros Hbefore Hx. induction Hbefore as [|a rest Ha _ IH]; cbn [app find_thumbnail].
  - now rewrite Hx.
  - rewrite Ha. cbn [rbind]. exact IH.
Qed.

Lemma find_thumbnail_none (assets : list value) :
  Forall (fun a => has_thumbnail_role a = Ok false) assets ->
  find_thumbnail assets = Ok VUndefined.
Proof.
  induction 1 as [|a rest Ha _ IH]; cbn [find_thumbnail]; [reflexivity|].
  rewrite Ha. cbn [rbind]. exact IH.
Qed.

Lemma s3_parts (bucket key : string) :
  Str.free_of "/" bucket = true ->
  Str.split "/" (str_drop 5 ("s3://" ++ bucket ++ "/" ++ key))
  = bucket :: Str.split "/" key.
Proof.
  intros Hb. cbn [str_drop append].
  change (bucket ++ "/" ++ key) with (bucket ++ String "/" key).
  now apply StrFacts.split_app.
Qed.

End ThumbnailFacts.

(** X25.  The thumbnail of an item is the first of its assets, in the
    order of the assets object, whose roles include [thumbnail].  When the
    [href] of that asset is [s3://<bucket>/<key>], with a bucket that
    holds no slash, the location is the URL that S3 signs for [getObject]
    on exactly that bucket and that key (slashes of the key included),
    expiring after 300 seconds; when it starts with [http], the location
    is the [href] itself and nothing is signed. *)
Theorem thumbnail_location {engine : Engine} {s3 : S3}
    (item : obj) (before after : list value) (asset : value) :
  item_assets item = (before ++ asset :: after)%list ->
  Forall (fun a => has_thumbnail_role a = Ok false) before ->
  has_thumbnail_role asset = Ok true ->
  truthy asset = true ->
  (forall bucket key : string,
      get_prop asset "href" = Ok (VStr ("s3://" ++ bucket ++ "/" ++ key)) ->
      Str.free_of "/" bucket = true ->
      item_thumbnail item
      = Ok (Location (getSignedUrl "getObject"
                        [("Bucket", VStr bucket); ("Key", VStr key);
                         ("Expires", VNum (num_of_Z 300));
                         ("RequestPayer", VStr "requester")])))
  /\ (forall h : string,
        get_prop asset "href" = Ok (VStr h) ->
        Str.starts_with "http" h = true ->
        item_thumbnail item = Ok (Location (VStr h))).
Proof.
  intros Hassets Hbefore Hrole Htruthy.
  pose proof (find_thumbnail_first before after asset Hbefore Hrole) as Hfind.
  rewrite <- Hassets in Hfind. unfold item_assets in Hfind.
  split.
  - intros bucket key Hhref Hfree.
    assert (Hsupplied : truthy (VStr ("s3://" ++ bucket ++ "/" ++ key)) = true)
      by reflexivity.
    assert (Hhttp : Str.starts_with "http" ("s3://" ++ bucket ++ "/" ++ key) = false)
      by reflexivity.
    assert (Hs3 : Str.starts_with "s3" ("s3://" ++ bucket ++ "/" ++ key) = true)
      by reflexivity.
    unfold item_thumbnail. rewrite Hfind. cbn [rbind]. rewrite Htruthy. cbn [negb].
    rewrite Hhref. cbn [rbind]. rewrite Hsupplied, Hhttp, Hs3. cbv zeta.
    rewrite (s3_parts bucket key Hfree). cbn [hd tl].
    now rewrite SplitFacts.join_split.
  - intros h Hhref Hhttp.
    unfold item_thumbnail. rewrite Hfind. cbn [rbind]. rewrite Htruthy. cbn [negb].
    rewrite Hhref. cbn [rbind truthy].
    destruct h as [|c rest]; [discriminate Hhttp|]. cbn [String.eqb negb].
    now rewrite Hhttp.
Qed.

Lemma thumbnail_location_witness :
  @item_thumbnail example_engine example_s3 item_with_thumbnails
  = Ok (Location (VObj [("operation", VStr "getObject"); ("bucket", VStr "sentinel");
                        ("key", VStr "tiles/10/S/preview.jpg");
                        ("expires", VNum (num_of_Z 300))])).
Proof.
  destruct (@thumbnail_location example_engine example_s3 item_with_thumbnails
              [VObj [("href", VStr "https://example.org/B01.tif");
                     ("roles", VArr [VStr "data"])]]
              [VObj [("href", VStr "https://example.org/small.png");
                     ("roles", VArr [VStr "thumbnail"])]]
              (VObj [("href", VStr "s3://sentinel/tiles/10/S/preview.jpg");
                     ("roles", VArr [VStr "overview"; VStr "thumbnail"])]))
    as [Hs3 _]; [reflexivity|repeat constructor|reflexivity|reflexivity|].
  apply (Hs3 "sentinel" "tiles/10/S/preview.jpg"); reflexivity.
Defined.

(** X26.  A location is only ever given for an asset of the item whose
    roles include [thumbnail] and whose [href] is a string: either the
    [href] starts with [http] and is the location, or it starts with [s3]
    and the location is signed by S3. *)
Theorem thumbnail_location_origin {engine : Engine} {s3 : S3}
    (item : obj) (location : value) :
  item_thumbnail item = Ok (Location location) ->
  exists asset h,
    In asset (item_assets item)
    /\ has_thumbnail_role asset = Ok true
    /\ get_prop asset "href" = Ok (VStr h)
    /\ ((Str.starts_with "http" h = true /\ location = VStr h)
        \/ (Str.starts_with "http" h = false /\ Str.starts_with "s3" h = true
            /\ exists bucket key,
                 location = getSignedUrl "getObject" (signed_params bucket key))).
Proof.
  unfold item_thumbnail. fold (item_assets item).
  destruct (find_thumbnail (item_assets item)) as [asset|] eqn:Hfind; [|discriminate].
  cbn [rbind]. destruct (truthy asset) eqn:Htruthy; cbn [negb]; [|discriminate].
  destruct (find_thumbnail_found _ _ Hfind Htruthy) as [Hin Hrole].
  destruct (get_prop asset "href") as [href|] eqn:Hhref; [|discriminate]. cbn [rbind].
  destruct (truthy href); [|discriminate].
  destruct href as [| | | |h| |]; try discriminate.
  destruct (Str.starts_with "http" h) eqn:Hhttp.
  - intros H. injection H as Hloc. exists asset, h. auto 10.
  - destruct (Str.starts_with "s3" h) eqn:Hs3; [|discriminate].
    cbv zeta. intros H. injection H as Hloc. exists asset, h.
    split; [assumption|]. split; [assumption|]. split; [assumption|].
    right. split; [assumption|]. split; [assumption|].
    do 2 eexists. symmetry. exact Hloc.
Qed.

Lemma thumbnail_location_origin_witness :
  exists asset h,
    In asset (item_assets item_with_thumbnails)
    /\ @has_thumbnail_role example_engine asset = Ok true
    /\ @get_prop example_engine asset "href" = Ok (VStr h)
    /\ ((Str.starts_with "http" h = true
         /\ VObj [("operation", VStr "getObject"); ("bucket", VStr "sentinel");
                  ("key", VStr "tiles/10/S/preview.jpg");
                  ("expires", VNum (num_of_Z 300))] = VStr h)
        \/ (Str.starts_with "http" h = false /\ Str.starts_with "s3" h = true
            /\ exists bucket key,
                 VObj [("operation", VStr "getObject"); ("bucket", VStr "sentinel");
                       ("key", VStr "tiles/10/S/preview.jpg");
                       ("expires", VNum (num_of_Z 300))]
                 = @getSignedUrl example_s3 "getObject" (signed_params bucket key))).
Proof.
  apply (@thumbnail_location_origin example_engine example_s3 item_with_thumbnails).
  reflexivity.
Defined.

(** X27.  An item none of whose assets carries the role [thumbnail], an
    item without assets among them, has no thumbnail: the [Error]
    "Thumbnail not found" is returned, and nothing is thrown. *)
Theorem thumbnail_not_found {engine : Engine} {s3 : S3} (item : obj) :
  Forall (fun a => has_thumbnail_role a = Ok false) (item_assets item) ->
  item_thumbnail item = Ok (ThumbnailError "Thumbnail not found").
Proof.
  intros Hnone. unfold item_thumbnail. fold (item_assets item).
  now rewrite (find_thumbnail_none _ Hnone).
Qed.

Lemma thumbnail_not_found_witness :
  @item_thumbnail example_engine example_s3 bare_item
    = Ok (ThumbnailError "Thumbnail not found")
  /\ @item_thumbnail example_engine example_s3
       [("assets", VObj [("B01", VObj [("href", VStr "https://example.org/B01.tif");
                                       ("roles", VArr [VStr "data"])])])]
     = Ok (ThumbnailError "Thumbnail not found").
Proof.
  split; apply (@thumbnail_not_found example_engine example_s3); repeat constructor.
Defined.

(** X28.  [getItem] and [getItemThumbnail] ask the backend once, for the
    item of the given collection and id.  When the backend resolves with
    no result, both return an [Error] "Item not found" and throw nothing;
    when it resolves with results whose links can be extended, [getItem]
    returns the first of them, decorated, with the id it has in the
    backend. *)
Theorem getItem_first_result {engine : Engine} {backend : Backend} {s3 : S3}
    (collectionId itemId : value) (endpoint : string) (r : search_response) :
  search (item_query collectionId itemId) VUndefined VUndefined = Resolved r ->
  (results r = [] ->
   run (getItem collectionId itemId endpoint)
     = (Ok (ErrorValue "Item not found"),
        [CallSearch (item_query collectionId itemId) VUndefined VUndefined])
   /\ run (getItemThumbnail collectionId itemId)
      = (Ok (ThumbnailError "Item not found"),
         [CallSearch (item_query collectionId itemId) VUndefined VUndefined]))
  /\ (forall first rest,
         results r = first :: rest ->
         Forall item_links_ok (results r) ->
         exists decorated,
           run (getItem collectionId itemId endpoint)
             = (Ok (Item decorated),
                [CallSearch (item_query collectionId itemId) VUndefined VUndefined])
           /\ get decorated "id" = get first "id"
           /\ get decorated "collection" = get first "collection"
           /\ get decorated "type" = VStr "Feature").
Proof.
  intros Hreply. split.
  - intros Hempty.
    unfold run, getItem, getItemThumbnail, bind, await_search, lift, ret, throw.
    fold (item_query collectionId itemId). rewrite Hreply, Hempty. split; reflexivity.
  - intros first rest Hresults Hok.
    destruct (addItemLinks_succeeds (results r) endpoint Hok) as [decorated Hrun].
    pose proof (addItemLinks_step_keeps_all _ _ _ Hrun) as Hkeep.
    pose proof (addItemLinks_type _ _ _ Hrun) as Htype.
    rewrite Hresults in Hkeep.
    destruct decorated as [|d rest']; [inversion Hkeep|].
    inversion Hkeep as [|? ? ? ? Hd _]; subst. inversion Htype; subst.
    exists d. split.
    + unfold run, getItem, bind, await_search, lift, ret, throw.
      fold (item_query collectionId itemId). rewrite Hreply.
      cbn [app]. now rewrite Hrun.
    + split; [apply Hd; reflexivity|]. split; [apply Hd; reflexivity|assumption].
Qed.

Lemma getItem_first_result_witness :
  (run (@getItem example_engine (page_backend []) (VStr "sentinel-2") (VStr "S2A_1")
          "http://localhost")
     = (Ok (ErrorValue "Item not found"),
        [CallSearch (item_query (VStr "sentinel-2") (VStr "S2A_1")) VUndefined VUndefined])
   /\ run (@getItemThumbnail example_engine (page_backend []) example_s3
             (VStr "sentinel-2") (VStr "S2A_1"))
      = (Ok (ThumbnailError "Item not found"),
         [CallSearch (item_query (VStr "sentinel-2") (VStr "S2A_1")) VUndefined
            VUndefined]))
  /\ exists decorated,
       run (@getItem example_engine (page_backend [typed_item; bare_item])
              (VStr "sentinel-2") (VStr "S2A_1") "http://localhost")
         = (Ok (Item decorated),
            [CallSearch (item_query (VStr "sentinel-2") (VStr "S2A_1")) VUndefined
               VUndefined])
       /\ get decorated "id" = VStr "S2A_1"
       /\ get decorated "collection" = VStr "sentinel-2"
       /\ get decorated "type" = VStr "Feature".
Proof.
  split.
  - apply (@getItem_first_result example_engine (page_backend []) example_s3
             (VStr "sentinel-2") (VStr "S2A_1") "http://localhost" _ eq_refl).
    reflexivity.
  - destruct (@getItem_first_result example_engine (page_backend [typed_item; bare_item])
                example_s3 (VStr "sentinel-2") (VStr "S2A_1") "http://localhost" _ eq_refl)
      as [_ Hfirst].
    apply (Hfirst typed_item [bare_item]); [reflexivity|repeat constructor].
Defined.
